(** * Nerfdrone dashboard controller: a shallow embedding of
      [nerfdrone/interface/static/js/dashboard.js]

    The script is a set of event handlers over one global [state] object and
    the page.  The embedding keeps that shape:

    - JSON values, [JSON.stringify] and the JavaScript conversions the script
      relies on ([||] truthiness, template-literal [ToString]);
    - the network client [safeJsonFetch], as a function of what [fetch]
      settled with;
    - the [state] object and the page elements the script reads and writes,
      gathered in one [World] record that every handler transforms;
    - asynchronous handlers split at their single [await]: the part that runs
      up to the request, and the part that runs once the request has settled
      (suffix [_settled]), so that other handlers may run in between;
    - a step function over the events the page can deliver.

    Numbers are IEEE doubles in the script.  Their printing and truthiness are
    host behaviour and are kept abstract ([num], [num_to_string], ...), as are
    [Intl.NumberFormat], [Number.prototype.toFixed], the clock and the wording
    of engine-raised errors.

    Markup assigned to [innerHTML] is kept as the text the script wrote; what
    the browser's HTML parser makes of it is host behaviour too, and is asked
    for only where the script itself looks into the parsed elements. *)

From Stdlib Require Import String Ascii List NArith ZArith Bool Lia.
From Stdlib Require Import DecimalString.
Import ListNotations.
Local Open Scope string_scope.
Set Warnings "-register-all".

(** ** Host-independent string helpers *)

Definition dquote : string := String (ascii_of_nat 34) EmptyString.
Definition backslash : string := String (ascii_of_nat 92) EmptyString.
Definition newline : string := String (ascii_of_nat 10) EmptyString.

(** Decimal rendering of a non-negative integer, as a template literal
    renders an integral JavaScript number. *)
Definition N_to_string (n : N) : string := NilZero.string_of_uint (N.to_uint n).

Definition hex_digit (n : nat) : string :=
  String (nth n ["0"; "1"; "2"; "3"; "4"; "5"; "6"; "7"; "8"; "9";
                 "a"; "b"; "c"; "d"; "e"; "f"]%char "0"%char) EmptyString.

(** One character of [QuoteJSONString]. *)
Definition escape_char (c : ascii) : string :=
  let n := nat_of_ascii c in
  if Nat.eqb n 34 then backslash ++ dquote
  else if Nat.eqb n 92 then backslash ++ backslash
  else if Nat.eqb n 8 then backslash ++ "b"
  else if Nat.eqb n 9 then backslash ++ "t"
  else if Nat.eqb n 10 then backslash ++ "n"
  else if Nat.eqb n 12 then backslash ++ "f"
  else if Nat.eqb n 13 then backslash ++ "r"
  else if Nat.ltb n 32
       then backslash ++ "u00" ++ hex_digit (Nat.div n 16) ++ hex_digit (Nat.modulo n 16)
  else String c EmptyString.

Fixpoint escape (s : string) : string :=
  match s with
  | EmptyString => EmptyString
  | String c rest => escape_char c ++ escape rest
  end.

Definition quote (s : string) : string := dquote ++ escape s ++ dquote.

(** A string is truthy unless it is empty. *)
Definition string_truthy (s : string) : bool :=
  match s with EmptyString => false | String _ _ => true end.

(** ** The host

    What the browser provides and the script takes for granted. *)

(** What the HTML parser makes of the markup written into a table row, in
    document order: a cell with its column span and its text, or a
    [duplicate-transaction] button with its [data-transaction] attribute.  A
    button of that class without the attribute is not listed: its listener
    looks up [undefined], which no identifier equals, and changes nothing. *)
Inductive Parsed : Type :=
| ParsedCell (colspan : nat) (text : string)
| ParsedDuplicate (data_transaction : string).

Class Host : Type := {
  (** JavaScript numbers, with the two conversions the script applies. *)
  num : Type;
  num_to_string : num -> string;
  num_truthy : num -> bool;
  (** [value.toFixed(2)] and [Intl.NumberFormat('en-GB', GBP).format(value)]. *)
  toFixed2 : num -> string;
  formatCurrency : num -> string;
  (** [new Date().toISOString()] at the n-th reading of the clock. *)
  toISOString : nat -> string;
  (** The message an engine gives the [TypeError] raised by the named faulty
      operation, and the [ReferenceError] raised by the named unbound
      variable. *)
  typeErrorMessage : string -> string;
  referenceErrorMessage : string -> string;
  (** The HTML parser behind [innerHTML]: the content it gives a table row,
      and whether [querySelector('button')] finds an element in the content
      it gives a list item. *)
  parse_row : string -> list Parsed;
  parse_has_button : string -> bool
}.

Section Dashboard.

Context {host : Host}.

(** ** JSON values

    Members of an object are listed in the object's own property order, with
    distinct keys, as [JSON.parse] and object literals produce them. *)

Inductive json : Type :=
| JNull
| JBool (b : bool)
| JNum (n : num)
| JStr (s : string)
| JArr (items : list json)
| JObj (members : list (string * json)).

(** [JSON.stringify(value)] *)
Fixpoint stringify (j : json) : string :=
  match j with
  | JNull => "null"
  | JBool true => "true"
  | JBool false => "false"
  | JNum n => num_to_string n
  | JStr s => quote s
  | JArr items => "[" ++ String.concat "," (map stringify items) ++ "]"
  | JObj members =>
      "{" ++ String.concat ","
               (map (fun kv => match kv with
                               | (k, v) => quote k ++ ":" ++ stringify v
                               end) members) ++ "}"
  end.

(** [JSON.stringify(value, null, 2)], [indent] being the current indentation. *)
Fixpoint stringify_indent (indent : string) (j : json) : string :=
  let inner := indent ++ "  " in
  match j with
  | JArr [] => "[]"
  | JObj [] => "{}"
  | JArr items =>
      "[" ++ newline ++ inner
          ++ String.concat ("," ++ newline ++ inner) (map (stringify_indent inner) items)
          ++ newline ++ indent ++ "]"
  | JObj members =>
      "{" ++ newline ++ inner
          ++ String.concat ("," ++ newline ++ inner)
               (map (fun kv => match kv with
                               | (k, v) => quote k ++ ": " ++ stringify_indent inner v
                               end) members)
          ++ newline ++ indent ++ "}"
  | _ => stringify j
  end.

Definition stringify_pretty (j : json) : string := stringify_indent "" j.

(** A JavaScript value as the script meets it: a JSON value or [undefined]. *)
Definition value : Type := option json.

Definition undefined : value := None.

(** [ToBoolean], as [||], [?:] and [if] apply it. *)
Definition truthy (v : value) : bool :=
  match v with
  | None => false
  | Some JNull => false
  | Some (JBool b) => b
  | Some (JNum n) => num_truthy n
  | Some (JStr s) => string_truthy s
  | Some (JArr _) => true
  | Some (JObj _) => true
  end.

(** [ToString] of a JSON value; inside [Array.prototype.join] a [null]
    element gives the empty string. *)
Fixpoint json_to_string (j : json) : string :=
  match j with
  | JNull => "null"
  | JBool true => "true"
  | JBool false => "false"
  | JNum n => num_to_string n
  | JStr s => s
  | JArr items =>
      String.concat ","
        (map (fun item => match item with
                          | JNull => ""
                          | _ => json_to_string item
                          end) items)
  | JObj _ => "[object Object]"
  end.

Definition to_string (v : value) : string :=
  match v with
  | None => "undefined"
  | Some j => json_to_string j
  end.

(** First member of an association list stored under a key. *)
Fixpoint lookup {A : Type} (key : string) (members : list (string * A)) : option A :=
  match members with
  | [] => None
  | (k, v) :: rest => if String.eqb k key then Some v else lookup key rest
  end.

(** ** Exceptions *)

Inductive exn : Type :=
| Error (message : string)
| TypeError (operation : string)
| ReferenceError (variable : string).

(** [error.message] *)
Definition message (e : exn) : string :=
  match e with
  | Error m => m
  | TypeError operation => typeErrorMessage operation
  | ReferenceError variable => referenceErrorMessage variable
  end.

(** [payload.name]: reading a property of [null] throws; an object yields the
    member or [undefined]; the other JSON values have no such property.  Used
    for names that are neither array indices nor [length]. *)
Definition get_property (payload : json) (name : string) : exn + value :=
  match payload with
  | JNull => inl (TypeError ("read property " ++ name ++ " of null"))
  | JObj members => inr (lookup name members)
  | _ => inr undefined
  end.

(** ** Network client *)

(** Success bodies follow the schema of their endpoint, a type [P] with a
    distinguished empty object; failure bodies are arbitrary JSON.  [None]
    is a body [response.json()] rejects. *)
Class Payload (P : Type) : Type := { empty_object : P }.

#[global] Instance Payload_json : Payload json := { empty_object := JObj [] }.

Inductive response (P : Type) : Type :=
| Ok_ (status : N) (body : option P)
| NotOk (status : N) (body : option json).

Arguments Ok_ {P} status body.
Arguments NotOk {P} status body.

(** What [fetch(url, options)] settles with. *)
Inductive fetched (P : Type) : Type :=
| Rejected (reason : exn)
| Responded (r : response P).

Arguments Rejected {P} reason.
Arguments Responded {P} r.

(** [safeJsonFetch], from the point where [fetch] has settled. *)
Definition safeJsonFetch {P : Type} `{Payload P} (settled : fetched P) : exn + P :=
  match settled with
  | Rejected reason => inl reason
  | Responded (Ok_ _ body) =>
      inr (match body with Some payload => payload | None => empty_object end)
  | Responded (NotOk status body) =>
      let payload := match body with Some j => j | None => JObj [] end in
      match get_property payload "detail" with
      | inl e => inl e
      | inr d =>
          let detail := if truthy d then d else Some (JStr (stringify payload)) in
          inl (Error (if truthy detail
                      then to_string detail
                      else "Request failed with status " ++ N_to_string status))
      end
  end.

(** ** Data received from the backend

    The records list the properties the script reads, with the types the
    backend contract gives them. *)

Record Asset : Type := {
  asset_id : string;
  classification : string;
  volume_cubic_m : num;
  annotations : list string
}.

(** A capture's overlay feature; [outer_ring] is
    [overlay.geometry.coordinates[0]], a list of [[lng, lat]] pairs. *)
Record Overlay : Type := {
  outer_ring : list (num * num)
}.

Record SurveyCapture : Type := {
  capture_id : string;
  name : string;
  captured_on : string;
  asset_count : num;
  point_cloud_path : string;
  overlay : Overlay;
  assets : list Asset
}.

(** [metadata] is an object or [null] ([None]). *)
Record Transaction : Type := {
  transaction_id : string;
  description : string;
  category : string;
  amount : num;
  occurred_on : string;
  transaction_type : string;
  metadata : option (list (string * json))
}.

(** The top-level properties of a success body may be missing ([None] is
    [undefined]): a body that is not JSON is replaced by [{}]. *)
Record FinanceSnapshot : Type := {
  income : option (list Transaction);
  expenses : option (list Transaction)
}.

Record CapturesPayload : Type := {
  captures : option (list SurveyCapture)
}.

(** [transaction] is only printed by the script, so it stays raw JSON. *)
Record DuplicatePayload : Type := {
  duplicated_transaction : value;
  duplicated_snapshot : option FinanceSnapshot
}.

#[global] Instance Payload_snapshot : Payload FinanceSnapshot :=
  { empty_object := {| income := None; expenses := None |} }.
#[global] Instance Payload_captures : Payload CapturesPayload :=
  { empty_object := {| captures := None |} }.
#[global] Instance Payload_duplicate : Payload DuplicatePayload :=
  { empty_object := {| duplicated_transaction := undefined;
                       duplicated_snapshot := None |} }.

(** ** Map provider objects *)

Record LatLng : Type := { lat : num; lng : num }.

Record LatLngBounds : Type := {
  getSouthWest : LatLng;
  getNorthEast : LatLng
}.

(** [event.overlay] of an [overlaycomplete] event; the drawing manager offers
    the two modes only.  A polygon is given by its path. *)
Inductive DrawnOverlay : Type :=
| RECTANGLE (bounds : LatLngBounds)
| POLYGON (path : list LatLng).

(** [state.leaflet]: [leaflet_map] tells whether the map and its layers were
    created; [drawnItems] holds the layers as GeoJSON; [leaflet_fit] is the
    feature the view was last fitted to; [draw_listeners] tells whether the
    map carries the three drawing listeners. *)
Record Leaflet : Type := {
  leaflet_map : bool;
  drawnItems : list json;
  overlayLayer : list Overlay;
  leaflet_fit : option Overlay;
  draw_listeners : bool
}.

(** [state.google]: [drawingManager] tells whether the drawing manager was
    created, and its [overlaycomplete] listener with it; [google_removed]
    counts the drawn overlays taken off the map; [google_fit] lists the
    points the view was last fitted to. *)
Record Google : Type := {
  google_map : bool;
  drawingManager : bool;
  polygon : option DrawnOverlay;
  google_removed : nat;
  google_overlay : option (list LatLng);
  google_fit : option (list LatLng)
}.

(** ** The [state] object *)

Record Finance : Type := {
  snapshot : option FinanceSnapshot;
  selectedId : option string
}.

Record State : Type := {
  activeMap : string;
  drawnGeoJson : json;
  leaflet : Leaflet;
  google : Google;
  surveyCaptures : option (list SurveyCapture);
  finance : Finance
}.

(** ** The page

    Elements the script tests for before use are optional ([None]: not in the
    page); the others are taken to be present.  An element filled through
    [innerHTML] holds the markup the script wrote. *)

(** [FormData] entries, in order. *)
Inductive FormValue : Type :=
| FormText (text : string)
| FormFile (filename : string).

Definition FormData : Type := list (string * FormValue).

Fixpoint formData_delete (key : string) (data : FormData) : FormData :=
  match data with
  | [] => []
  | (k, v) :: rest =>
      if String.eqb k key then formData_delete key rest
      else (k, v) :: formData_delete key rest
  end.

(** [formData.set(key, text)]: the first entry of that name is replaced and
    the others removed; without one, the entry is appended. *)
Fixpoint formData_set (key : string) (text : string) (data : FormData) : FormData :=
  match data with
  | [] => [(key, FormText text)]
  | (k, v) :: rest =>
      if String.eqb k key then (key, FormText text) :: formData_delete key rest
      else (k, v) :: formData_set key text rest
  end.

(** [formData.get(key)] *)
Definition formData_get (key : string) (data : FormData) : option FormValue :=
  lookup key data.

(** The controls of [finance-duplicate-form] the script names. *)
Record FinanceForm : Type := {
  source_transaction_id : string;
  form_description : string;
  form_category : string;
  form_amount : string;
  form_occurred_on : string;
  form_transaction_type : string;
  form_metadata : string
}.

(** The form element: current values, and the values [form.reset()] restores. *)
Record FormElement : Type := {
  controls : FinanceForm;
  defaults : FinanceForm
}.

(** [new FormData(form)] for the finance form. *)
Definition FormData_of (f : FinanceForm) : FormData :=
  [ ("source_transaction_id", FormText (source_transaction_id f));
    ("description", FormText (form_description f));
    ("category", FormText (form_category f));
    ("amount", FormText (form_amount f));
    ("occurred_on", FormText (form_occurred_on f));
    ("transaction_type", FormText (form_transaction_type f));
    ("metadata", FormText (form_metadata f)) ].

(** The content of a row of the finance panel, in document order: a cell's
    text spanning [colspan] columns, or a [duplicate-transaction] button with
    its [data-transaction] attribute and the number of click listeners
    bound. *)
Inductive Cell : Type :=
| Td (colspan : nat) (text : string)
| TdDuplicate (data_transaction : string) (listeners : nat).

(** A [tr] of the finance panel: [dataset.transactionId], the cells, and
    whether the class list holds [selected]. *)
Record FinanceRow : Type := {
  dataset_transactionId : option string;
  cells : list Cell;
  selected : bool
}.

Record FinancePanel : Type := {
  income_body : option (list FinanceRow);
  expense_body : option (list FinanceRow);
  finance_duplicate_form : option FormElement;
  finance_clear_selection : bool;
  finance_selection_summary : option string;
  finance_output : option string
}.

(** An [li] of [survey-days]: the markup written into it, and the capture
    that the click listener of its first button closes over. *)
Record CaptureButton : Type := {
  item_markup : string;
  listener_capture : SurveyCapture
}.

(** [point_cloud_link] holds the markup written into it, [asset_table] the
    markup written into each row of the table body, in order. *)
Record SurveyPanel : Type := {
  survey_days : list CaptureButton;
  base_capture_select : list (string * string);
  target_capture_select : list (string * string);
  survey_summary : string;
  point_cloud_link : string;
  asset_table : list string
}.

(** The output areas of the five plain form controllers. *)
Inductive OutputArea : Type :=
| route_output | upload_output | classify_output
| comparison_output | annotation_output.

Record Outputs : Type := {
  route_text : string;
  upload_text : string;
  classify_text : string;
  comparison_text : string;
  annotation_text : string
}.

(** The map containers hold whether their class list has [hidden].
    [leaflet_script] tells whether the global [L] is defined and
    [leaflet_draw] whether the drawing plugin has added [L.Control.Draw] to
    it; [google_script] tells whether [window.google.maps] is there and
    [google_drawing] whether its drawing library is. *)
Record Page : Type := {
  leaflet_map_element : option bool;
  google_map_element : option bool;
  leaflet_script : bool;
  leaflet_draw : bool;
  google_script : bool;
  google_drawing : bool;
  area_geojson : string;
  outputs : Outputs;
  survey_panel : SurveyPanel;
  finance_panel : FinancePanel;
  profile_expanded : bool;
  profile_menu_open : bool
}.

(** A request handed to [fetch]. *)
Record Request : Type := {
  url : string;
  method : string;
  body : option FormData
}.

(** ** The world: script state, page, log panel, clock and network trace *)

Record World : Type := {
  state : State;
  page : Page;
  logPanel : string;
  clock : nat;
  network : list Request
}.

(** ** Field updates *)

Definition set_state v (r : World) : World :=
  {| state := v; page := page r; logPanel := logPanel r; clock := clock r;
     network := network r |}.

Definition set_page v (r : World) : World :=
  {| state := state r; page := v; logPanel := logPanel r; clock := clock r;
     network := network r |}.

Definition set_logPanel v (r : World) : World :=
  {| state := state r; page := page r; logPanel := v; clock := clock r;
     network := network r |}.

Definition set_clock v (r : World) : World :=
  {| state := state r; page := page r; logPanel := logPanel r; clock := v;
     network := network r |}.

Definition set_network v (r : World) : World :=
  {| state := state r; page := page r; logPanel := logPanel r;
     clock := clock r; network := v |}.

Definition set_activeMap v (r : State) : State :=
  {| activeMap := v; drawnGeoJson := drawnGeoJson r; leaflet := leaflet r;
     google := google r; surveyCaptures := surveyCaptures r;
     finance := finance r |}.

Definition set_drawnGeoJson v (r : State) : State :=
  {| activeMap := activeMap r; drawnGeoJson := v; leaflet := leaflet r;
     google := google r; surveyCaptures := surveyCaptures r;
     finance := finance r |}.

Definition set_leaflet v (r : State) : State :=
  {| activeMap := activeMap r; drawnGeoJson := drawnGeoJson r; leaflet := v;
     google := google r; surveyCaptures := surveyCaptures r;
     finance := finance r |}.

Definition set_google v (r : State) : State :=
  {| activeMap := activeMap r; drawnGeoJson := drawnGeoJson r;
     leaflet := leaflet r; google := v; surveyCaptures := surveyCaptures r;
     finance := finance r |}.

Definition set_surveyCaptures v (r : State) : State :=
  {| activeMap := activeMap r; drawnGeoJson := drawnGeoJson r;
     leaflet := leaflet r; google := google r; surveyCaptures := v;
     finance := finance r |}.

Definition set_finance v (r : State) : State :=
  {| activeMap := activeMap r; drawnGeoJson := drawnGeoJson r;
     leaflet := leaflet r; google := google r;
     surveyCaptures := surveyCaptures r; finance := v |}.

Definition set_snapshot v (r : Finance) : Finance :=
  {| snapshot := v; selectedId := selectedId r |}.

Definition set_selectedId v (r : Finance) : Finance :=
  {| snapshot := snapshot r; selectedId := v |}.

Definition set_drawnItems v (r : Leaflet) : Leaflet :=
  {| leaflet_map := leaflet_map r; drawnItems := v;
     overlayLayer := overlayLayer r; leaflet_fit := leaflet_fit r;
     draw_listeners := draw_listeners r |}.

Definition set_overlayLayer v (r : Leaflet) : Leaflet :=
  {| leaflet_map := leaflet_map r; drawnItems := drawnItems r;
     overlayLayer := v; leaflet_fit := leaflet_fit r;
     draw_listeners := draw_listeners r |}.

Definition set_leaflet_fit v (r : Leaflet) : Leaflet :=
  {| leaflet_map := leaflet_map r; drawnItems := drawnItems r;
     overlayLayer := overlayLayer r; leaflet_fit := v;
     draw_listeners := draw_listeners r |}.

Definition set_draw_listeners v (r : Leaflet) : Leaflet :=
  {| leaflet_map := leaflet_map r; drawnItems := drawnItems r;
     overlayLayer := overlayLayer r; leaflet_fit := leaflet_fit r;
     draw_listeners := v |}.

Definition set_google_map v (r : Google) : Google :=
  {| google_map := v; drawingManager := drawingManager r;
     polygon := polygon r; google_removed := google_removed r;
     google_overlay := google_overlay r; google_fit := google_fit r |}.

Definition set_drawingManager v (r : Google) : Google :=
  {| google_map := google_map r; drawingManager := v; polygon := polygon r;
     google_removed := google_removed r; google_overlay := google_overlay r;
     google_fit := google_fit r |}.

Definition set_polygon v (r : Google) : Google :=
  {| google_map := google_map r; drawingManager := drawingManager r;
     polygon := v; google_removed := google_removed r;
     google_overlay := google_overlay r; google_fit := google_fit r |}.

Definition set_google_removed v (r : Google) : Google :=
  {| google_map := google_map r; drawingManager := drawingManager r;
     polygon := polygon r; google_removed := v;
     google_overlay := google_overlay r; google_fit := google_fit r |}.

Definition set_google_overlay v (r : Google) : Google :=
  {| google_map := google_map r; drawingManager := drawingManager r;
     polygon := polygon r; google_removed := google_removed r;
     google_overlay := v; google_fit := google_fit r |}.

Definition set_google_fit v (r : Google) : Google :=
  {| google_map := google_map r; drawingManager := drawingManager r;
     polygon := polygon r; google_removed := google_removed r;
     google_overlay := google_overlay r; google_fit := v |}.

Definition set_leaflet_map_element v (r : Page) : Page :=
  {| leaflet_map_element := v; google_map_element := google_map_element r;
     leaflet_script := leaflet_script r; leaflet_draw := leaflet_draw r;
     google_script := google_script r; google_drawing := google_drawing r;
     area_geojson := area_geojson r; outputs := outputs r;
     survey_panel := survey_panel r; finance_panel := finance_panel r;
     profile_expanded := profile_expanded r;
     profile_menu_open := profile_menu_open r |}.

Definition set_google_map_element v (r : Page) : Page :=
  {| leaflet_map_element := leaflet_map_element r; google_map_element := v;
     leaflet_script := leaflet_script r; leaflet_draw := leaflet_draw r;
     google_script := google_script r; google_drawing := google_drawing r;
     area_geojson := area_geojson r; outputs := outputs r;
     survey_panel := survey_panel r; finance_panel := finance_panel r;
     profile_expanded := profile_expanded r;
     profile_menu_open := profile_menu_open r |}.

Definition set_area_geojson v (r : Page) : Page :=
  {| leaflet_map_element := leaflet_map_element r;
     google_map_element := google_map_element r;
     leaflet_script := leaflet_script r; leaflet_draw := leaflet_draw r;
     google_script := google_script r; google_drawing := google_drawing r;
     area_geojson := v; outputs := outputs r; survey_panel := survey_panel r;
     finance_panel := finance_panel r;
     profile_expanded := profile_expanded r;
     profile_menu_open := profile_menu_open r |}.

Definition set_outputs v (r : Page) : Page :=
  {| leaflet_map_element := leaflet_map_element r;
     google_map_element := google_map_element r;
     leaflet_script := leaflet_script r; leaflet_draw := leaflet_draw r;
     google_script := google_script r; google_drawing := google_drawing r;
     area_geojson := area_geojson r; outputs := v;
     survey_panel := survey_panel r; finance_panel := finance_panel r;
     profile_expanded := profile_expanded r;
     profile_menu_open := profile_menu_open r |}.

Definition set_survey_panel v (r : Page) : Page :=
  {| leaflet_map_element := leaflet_map_element r;
     google_map_element := google_map_element r;
     leaflet_script := leaflet_script r; leaflet_draw := leaflet_draw r;
     google_script := google_script r; google_drawing := google_drawing r;
     area_geojson := area_geojson r; outputs := outputs r; survey_panel := v;
     finance_panel := finance_panel r;
     profile_expanded := profile_expanded r;
     profile_menu_open := profile_menu_open r |}.

Definition set_finance_panel v (r : Page) : Page :=
  {| leaflet_map_element := leaflet_map_element r;
     google_map_element := google_map_element r;
     leaflet_script := leaflet_script r; leaflet_draw := leaflet_draw r;
     google_script := google_script r; google_drawing := google_drawing r;
     area_geojson := area_geojson r; outputs := outputs r;
     survey_panel := survey_panel r; finance_panel := v;
     profile_expanded := profile_expanded r;
     profile_menu_open := profile_menu_open r |}.

Definition set_profile_expanded v (r : Page) : Page :=
  {| leaflet_map_element := leaflet_map_element r;
     google_map_element := google_map_element r;
     leaflet_script := leaflet_script r; leaflet_draw := leaflet_draw r;
     google_script := google_script r; google_drawing := google_drawing r;
     area_geojson := area_geojson r; outputs := outputs r;
     survey_panel := survey_panel r; finance_panel := finance_panel r;
     profile_expanded := v; profile_menu_open := profile_menu_open r |}.

Definition set_profile_menu_open v (r : Page) : Page :=
  {| leaflet_map_element := leaflet_map_element r;
     google_map_element := google_map_element r;
     leaflet_script := leaflet_script r; leaflet_draw := leaflet_draw r;
     google_script := google_script r; google_drawing := google_drawing r;
     area_geojson := area_geojson r; outputs := outputs r;
     survey_panel := survey_panel r; finance_panel := finance_panel r;
     profile_expanded := profile_expanded r; profile_menu_open := v |}.

Definition set_survey_days v (r : SurveyPanel) : SurveyPanel :=
  {| survey_days := v; base_capture_select := base_capture_select r;
     target_capture_select := target_capture_select r;
     survey_summary := survey_summary r;
     point_cloud_link := point_cloud_link r; asset_table := asset_table r |}.

Definition set_base_capture_select v (r : SurveyPanel) : SurveyPanel :=
  {| survey_days := survey_days r; base_capture_select := v;
     target_capture_select := target_capture_select r;
     survey_summary := survey_summary r;
     point_cloud_link := point_cloud_link r; asset_table := asset_table r |}.

Definition set_target_capture_select v (r : SurveyPanel) : SurveyPanel :=
  {| survey_days := survey_days r;
     base_capture_select := base_capture_select r;
     target_capture_select := v; survey_summary := survey_summary r;
     point_cloud_link := point_cloud_link r; asset_table := asset_table r |}.

Definition set_survey_summary v (r : SurveyPanel) : SurveyPanel :=
  {| survey_days := survey_days r;
     base_capture_select := base_capture_select r;
     target_capture_select := target_capture_select r; survey_summary := v;
     point_cloud_link := point_cloud_link r; asset_table := asset_table r |}.

Definition set_point_cloud_link v (r : SurveyPanel) : SurveyPanel :=
  {| survey_days := survey_days r;
     base_capture_select := base_capture_select r;
     target_capture_select := target_capture_select r;
     survey_summary := survey_summary r; point_cloud_link := v;
     asset_table := asset_table r |}.

Definition set_asset_table v (r : SurveyPanel) : SurveyPanel :=
  {| survey_days := survey_days r;
     base_capture_select := base_capture_select r;
     target_capture_select := target_capture_select r;
     survey_summary := survey_summary r;
     point_cloud_link := point_cloud_link r; asset_table := v |}.

Definition set_income_body v (r : FinancePanel) : FinancePanel :=
  {| income_body := v; expense_body := expense_body r;
     finance_duplicate_form := finance_duplicate_form r;
     finance_clear_selection := finance_clear_selection r;
     finance_selection_summary := finance_selection_summary r;
     finance_output := finance_output r |}.

Definition set_expense_body v (r : FinancePanel) : FinancePanel :=
  {| income_body := income_body r; expense_body := v;
     finance_duplicate_form := finance_duplicate_form r;
     finance_clear_selection := finance_clear_selection r;
     finance_selection_summary := finance_selection_summary r;
     finance_output := finance_output r |}.

Definition set_finance_duplicate_form v (r : FinancePanel) : FinancePanel :=
  {| income_body := income_body r; expense_body := expense_body r;
     finance_duplicate_form := v;
     finance_clear_selection := finance_clear_selection r;
     finance_selection_summary := finance_selection_summary r;
     finance_output := finance_output r |}.

Definition set_finance_selection_summary v (r : FinancePanel) : FinancePanel :=
  {| income_body := income_body r; expense_body := expense_body r;
     finance_duplicate_form := finance_duplicate_form r;
     finance_clear_selection := finance_clear_selection r;
     finance_selection_summary := v; finance_output := finance_output r |}.

Definition set_finance_output v (r : FinancePanel) : FinancePanel :=
  {| income_body := income_body r; expense_body := expense_body r;
     finance_duplicate_form := finance_duplicate_form r;
     finance_clear_selection := finance_clear_selection r;
     finance_selection_summary := finance_selection_summary r;
     finance_output := v |}.

Definition set_controls v (r : FormElement) : FormElement :=
  {| controls := v; defaults := defaults r |}.

Definition on_state (f : State -> State) (w : World) : World :=
  set_state (f (state w)) w.
Definition on_page (f : Page -> Page) (w : World) : World :=
  set_page (f (page w)) w.
Definition on_leaflet (f : Leaflet -> Leaflet) : World -> World :=
  on_state (fun s => set_leaflet (f (leaflet s)) s).
Definition on_google (f : Google -> Google) : World -> World :=
  on_state (fun s => set_google (f (google s)) s).
Definition on_finance (f : Finance -> Finance) : World -> World :=
  on_state (fun s => set_finance (f (finance s)) s).
Definition on_survey_panel (f : SurveyPanel -> SurveyPanel) : World -> World :=
  on_page (fun p => set_survey_panel (f (survey_panel p)) p).
Definition on_finance_panel (f : FinancePanel -> FinancePanel) : World -> World :=
  on_page (fun p => set_finance_panel (f (finance_panel p)) p).

Definition get_output (area : OutputArea) (o : Outputs) : string :=
  match area with
  | route_output => route_text o
  | upload_output => upload_text o
  | classify_output => classify_text o
  | comparison_output => comparison_text o
  | annotation_output => annotation_text o
  end.

(** [document.getElementById(area).textContent = text] *)
Definition set_output (area : OutputArea) (text : string) (o : Outputs) : Outputs :=
  match area with
  | route_output =>
      {| route_text := text; upload_text := upload_text o;
         classify_text := classify_text o; comparison_text := comparison_text o;
         annotation_text := annotation_text o |}
  | upload_output =>
      {| route_text := route_text o; upload_text := text;
         classify_text := classify_text o; comparison_text := comparison_text o;
         annotation_text := annotation_text o |}
  | classify_output =>
      {| route_text := route_text o; upload_text := upload_text o;
         classify_text := text; comparison_text := comparison_text o;
         annotation_text := annotation_text o |}
  | comparison_output =>
      {| route_text := route_text o; upload_text := upload_text o;
         classify_text := classify_text o; comparison_text := text;
         annotation_text := annotation_text o |}
  | annotation_output =>
      {| route_text := route_text o; upload_text := upload_text o;
         classify_text := classify_text o; comparison_text := comparison_text o;
         annotation_text := text |}
  end.

Definition write_output (area : OutputArea) (text : string) : World -> World :=
  on_page (fun p => set_outputs (set_output area text (outputs p)) p).

(** ** Procedures that may throw

    A procedure takes the world and returns the world it leaves behind with
    either its result or the exception it threw: what was written before a
    [throw] stays written. *)

Definition M (A : Type) : Type := World -> World * (exn + A).

Definition ret {A : Type} (a : A) : M A := fun w => (w, inr a).

Definition throw {A : Type} (e : exn) : M A := fun w => (w, inl e).

Definition bind {A B : Type} (m : M A) (k : A -> M B) : M B :=
  fun w => match m w with
           | (w', inl e) => (w', inl e)
           | (w', inr a) => k a w'
           end.

(** A statement that cannot throw. *)
Definition exec (f : World -> World) : M unit := fun w => (f w, inr tt).

(** [try { m } catch (error) { handler(error) }] *)
Definition try_catch (m : M unit) (handler : exn -> World -> World) : World -> World :=
  fun w => match m w with
           | (w', inl e) => handler e w'
           | (w', inr _) => w'
           end.

(** An event listener run by the browser: an exception it lets escape is
    reported to the console and the page carries on. *)
Definition dispatch (m : M unit) (w : World) : World := fst (m w).

Local Notation "m1 ;; m2" := (bind m1 (fun _ => m2))
  (at level 61, right associativity).

(** [entries.forEach(f)] *)
Fixpoint forEach {A : Type} (f : A -> M unit) (entries : list A) : M unit :=
  match entries with
  | [] => ret tt
  | x :: rest => f x ;; forEach f rest
  end.

(** ** Logging sink *)

Definition appendLog (text : string) (w : World) : World :=
  set_logPanel (toISOString (clock w) ++ ": " ++ text ++ newline ++ logPanel w)
    (set_clock (S (clock w)) w).

(** [fetch(url, options)]: the request joins the trace; the handler resumes
    when the browser delivers what it settled with. *)
Definition fetch (address : string) (verb : string) (data : option FormData)
    (w : World) : World :=
  set_network (network w ++ [{| url := address; method := verb; body := data |}]) w.

(** ** Geometry canonicalizer *)

Definition setDrawnGeometry (geojson : json) (w : World) : World :=
  appendLog (if truthy (Some geojson)
             then "Updated capture polygon from map interaction."
             else "Cleared capture polygon.")
    (on_page (set_area_geojson (if truthy (Some geojson)
                                then stringify geojson else ""))
       (on_state (set_drawnGeoJson geojson) w)).

(** ** Leaflet adapter *)

(** With the container in the page, [L.map] is the first use of the global
    [L]; the map and its two layer groups are stored before
    [new L.Control.Draw], which the drawing plugin provides; the three
    drawing listeners and the log entry come last. *)
Definition initialiseLeafletMap : M unit :=
  fun w =>
    match leaflet_map_element (page w) with
    | None => (w, inr tt)
    | Some _ =>
        if leaflet_script (page w)
        then
          let created :=
            on_leaflet (fun l => {| leaflet_map := true; drawnItems := [];
                                    overlayLayer := []; leaflet_fit := None;
                                    draw_listeners := draw_listeners l |}) w in
          if leaflet_draw (page w)
          then (appendLog "Leaflet map initialised."
                  (on_leaflet (set_draw_listeners true) created), inr tt)
          else (created, inl (TypeError "construct L.Control.Draw"))
        else (w, inl (ReferenceError "L"))
    end.

(** [L.Draw.Event.CREATED], [geojson] being [event.layer.toGeoJSON()]. *)
Definition leaflet_created (geojson : json) (w : World) : World :=
  setDrawnGeometry geojson (on_leaflet (set_drawnItems [geojson]) w).

(** [L.Draw.Event.EDITED], with the GeoJSON of the edited layers in order. *)
Definition leaflet_edited (layers : list json) (w : World) : World :=
  fold_left (fun acc geojson => setDrawnGeometry geojson acc) layers w.

(** [L.Draw.Event.DELETED] *)
Definition leaflet_deleted (w : World) : World := setDrawnGeometry JNull w.

(** ** Google adapter *)

(** The map is stored before [new google.maps.drawing.DrawingManager],
    which needs the drawing library; the [overlaycomplete] listener and the
    log entry come last. *)
Definition initialiseGoogleMap : M unit :=
  fun w =>
    match google_map_element (page w) with
    | None => (w, inr tt)
    | Some _ =>
        if google_script (page w)
        then
          let created := on_google (set_google_map true) w in
          if google_drawing (page w)
          then (appendLog "Google Map initialised."
                  (on_google (set_drawingManager true) created), inr tt)
          else (created, inl (TypeError "read property DrawingManager of undefined"))
        else (appendLog "Google Maps script not detected. Configure API key to enable." w,
              inr tt)
    end.

(** [[point.lng(), point.lat()]] *)
Definition position (x y : num) : json := JArr [JNum x; JNum y].

Definition polygon_geojson (ring : list json) : json :=
  JObj [("type", JStr "Polygon"); ("coordinates", JArr [JArr ring])].

(** The ring built for a rectangle from its bounds. *)
Definition rectangle_ring (bounds : LatLngBounds) : list json :=
  [ position (lng (getSouthWest bounds)) (lat (getSouthWest bounds));
    position (lng (getNorthEast bounds)) (lat (getSouthWest bounds));
    position (lng (getNorthEast bounds)) (lat (getNorthEast bounds));
    position (lng (getSouthWest bounds)) (lat (getNorthEast bounds));
    position (lng (getSouthWest bounds)) (lat (getSouthWest bounds)) ].

(** The ring built for a polygon: every point of the path, then
    [path.getAt(0)] again, which is [undefined] on an empty path. *)
Definition polygon_ring (path : list LatLng) : exn + list json :=
  match path with
  | [] => inl (TypeError "read property lng of undefined")
  | first :: _ =>
      inr (map (fun point => position (lng point) (lat point)) path
             ++ [position (lng first) (lat first)])%list
  end.

(** The [overlaycomplete] listener. *)
Definition overlaycomplete (drawn : DrawnOverlay) : M unit :=
  exec (fun w => match polygon (google (state w)) with
                 | Some _ => on_google (fun g => set_google_removed (S (google_removed g)) g) w
                 | None => w
                 end) ;;
  exec (on_google (set_polygon (Some drawn))) ;;
  match drawn with
  | RECTANGLE bounds =>
      exec (setDrawnGeometry (polygon_geojson (rectangle_ring bounds)))
  | POLYGON path =>
      match polygon_ring path with
      | inl e => throw e
      | inr ring => exec (setDrawnGeometry (polygon_geojson ring))
      end
  end.

(** [classList.toggle('hidden', force)] on a map container. *)
Definition toggle_hidden (element : option bool) (force : bool) : exn + option bool :=
  match element with
  | None => inl (TypeError "read property classList of null")
  | Some _ => inr (Some force)
  end.

Definition toggleMap (provider : string) : M unit :=
  exec (on_state (set_activeMap provider)) ;;
  (fun w => match toggle_hidden (leaflet_map_element (page w))
                    (negb (String.eqb provider "osm")) with
            | inl e => (w, inl e)
            | inr el => (on_page (set_leaflet_map_element el) w, inr tt)
            end) ;;
  (fun w => match toggle_hidden (google_map_element (page w))
                    (negb (String.eqb provider "google")) with
            | inl e => (w, inl e)
            | inr el => (on_page (set_google_map_element el) w, inr tt)
            end) ;;
  exec (appendLog ("Switched basemap to " ++ provider ++ ".")).

(** ** Plain form controllers

    Each sends one request and, once it has settled, prints the payload or a
    one-line failure into its output area. *)

Definition print_settled (area : OutputArea) (action : string)
    (settled : fetched json) : World -> World :=
  match safeJsonFetch settled with
  | inr payload => write_output area (stringify_pretty payload)
  | inl error => write_output area (action ++ " failed: " ++ message error)
  end.

(** [submitRoute], [entries] being [new FormData(form)]. *)
Definition submitRoute (entries : FormData) (w : World) : World :=
  let formData :=
    if truthy (Some (drawnGeoJson (state w)))
    then formData_set "area_geojson" (stringify (drawnGeoJson (state w))) entries
    else entries in
  fetch "/plan-route" "POST" (Some formData) w.

Definition submitRoute_settled : fetched json -> World -> World :=
  print_settled route_output "Route planning".

Definition submitUpload (entries : FormData) : World -> World :=
  fetch "/ingest-footage" "POST" (Some entries).

Definition submitUpload_settled : fetched json -> World -> World :=
  print_settled upload_output "Upload".

Definition runClassification : World -> World :=
  fetch "/classify-demo" "GET" None.

Definition runClassification_settled : fetched json -> World -> World :=
  print_settled classify_output "Classification".

Definition submitComparison (entries : FormData) : World -> World :=
  fetch "/compare-captures" "POST" (Some entries).

Definition submitComparison_settled : fetched json -> World -> World :=
  print_settled comparison_output "Comparison".

(** ** Review state store: survey captures *)

(** The markup written into the list item of a capture. *)
Definition button_markup (capture : SurveyCapture) : string :=
  "<button type=" ++ dquote ++ "button" ++ dquote
    ++ " data-capture=" ++ dquote ++ capture_id capture ++ dquote ++ ">"
    ++ name capture ++ " – " ++ captured_on capture ++ "</button>".

Definition capture_button (capture : SurveyCapture) : CaptureButton :=
  {| item_markup := button_markup capture;
     listener_capture := capture |}.

(** An item joins the list once the listener is bound to its button; where
    [item.querySelector('button')] finds none, the call on [null] throws. *)
Definition renderSurveyList (captures : option (list SurveyCapture)) : M unit :=
  exec (on_survey_panel (set_survey_days [])) ;;
  match captures with
  | None => throw (TypeError "read property forEach of undefined")
  | Some entries =>
      forEach (fun capture =>
                 if parse_has_button (button_markup capture)
                 then exec (on_survey_panel
                              (fun p => set_survey_days
                                          (survey_days p ++ [capture_button capture]) p))
                 else throw (TypeError "read property addEventListener of null"))
              entries ;;
      exec (appendLog "Survey list rendered.")
  end.

Definition capture_option (capture : SurveyCapture) : string * string :=
  (capture_id capture, name capture ++ " (" ++ captured_on capture ++ ")").

Definition populateSurveySelects (captures : option (list SurveyCapture)) : M unit :=
  exec (on_survey_panel (set_base_capture_select [])) ;;
  match captures with
  | None => throw (TypeError "read property forEach of undefined")
  | Some entries =>
      forEach (fun capture =>
                 exec (on_survey_panel
                         (fun p => set_base_capture_select
                                     (base_capture_select p ++ [capture_option capture]) p)))
              entries ;;
      exec (on_survey_panel (set_target_capture_select [])) ;;
      forEach (fun capture =>
                 exec (on_survey_panel
                         (fun p => set_target_capture_select
                                     (target_capture_select p ++ [capture_option capture]) p)))
              entries
  end.

Definition updateMapOverlay (capture : SurveyCapture) (w : World) : World :=
  let w1 :=
    if leaflet_map (leaflet (state w))
    then on_leaflet (fun l => set_leaflet_fit (Some (overlay capture))
                                (set_overlayLayer [overlay capture] l)) w
    else w in
  if google_map (google (state w1)) && google_script (page w1)
  then
    let coordinates :=
      map (fun pair => match pair with
                       | (x, y) => {| lat := y; lng := x |}
                       end) (outer_ring (overlay capture)) in
    on_google (fun g => set_google_fit (Some coordinates)
                          (set_google_overlay (Some coordinates) g)) w1
  else w1.

(** [asset.annotations.join('; ') || '—'] *)
Definition asset_notes (asset : Asset) : string :=
  if string_truthy (String.concat "; " (annotations asset))
  then String.concat "; " (annotations asset)
  else "—".

(** The markup written into the table row of an asset. *)
Definition asset_row (asset : Asset) : string :=
  newline ++ "      <td>" ++ asset_id asset ++ "</td>"
    ++ newline ++ "      <td>" ++ classification asset ++ "</td>"
    ++ newline ++ "      <td>" ++ toFixed2 (volume_cubic_m asset) ++ "</td>"
    ++ newline ++ "      <td>" ++ asset_notes asset ++ "</td>"
    ++ newline ++ "    ".

Definition point_cloud_anchor (path : string) : string :=
  "<a href=" ++ dquote ++ path ++ dquote
    ++ " target=" ++ dquote ++ "_blank" ++ dquote
    ++ " rel=" ++ dquote ++ "noopener" ++ dquote
    ++ ">Open point cloud export</a>".

Definition showSurveyDetails (capture : SurveyCapture) (w : World) : World :=
  updateMapOverlay capture
    (appendLog ("Loaded survey details for " ++ capture_id capture ++ ".")
       (on_survey_panel
          (fun p =>
             set_asset_table (map asset_row (assets capture))
               (set_point_cloud_link (point_cloud_anchor (point_cloud_path capture))
                  (set_survey_summary
                     (name capture ++ " captured on " ++ captured_on capture ++ ". "
                        ++ num_to_string (asset_count capture) ++ " assets detected.")
                     p))) w)).

Definition loadSurveyDays : World -> World := fetch "/survey-days" "GET" None.

Definition loadSurveyDays_settled (settled : fetched CapturesPayload) : World -> World :=
  try_catch
    (match safeJsonFetch settled with
     | inl error => throw error
     | inr payload =>
         exec (on_state (set_surveyCaptures (captures payload))) ;;
         (fun w => renderSurveyList (surveyCaptures (state w)) w) ;;
         (fun w => populateSurveySelects (surveyCaptures (state w)) w)
     end)
    (fun error => appendLog ("Failed to load survey days: " ++ message error)).

Definition submitAnnotation (entries : FormData) : World -> World :=
  fetch "/annotate-asset" "POST" (Some entries).

Definition submitAnnotation_settled (settled : fetched json) (w : World) : World :=
  match safeJsonFetch settled with
  | inr payload =>
      loadSurveyDays (write_output annotation_output (stringify_pretty payload) w)
  | inl error =>
      write_output annotation_output ("Annotation failed: " ++ message error) w
  end.

(** The click listener of the profile button. *)
Definition profile_click (w : World) : World :=
  on_page (fun p => set_profile_menu_open (negb (profile_menu_open p))
                      (set_profile_expanded (negb (profile_expanded p)) p)) w.

(** ** Review state store: finance *)

Inductive Tbody : Type := incomeBody | expenseBody.

Definition rows_of (tbody : Tbody) (p : FinancePanel) : option (list FinanceRow) :=
  match tbody with
  | incomeBody => income_body p
  | expenseBody => expense_body p
  end.

Definition set_rows (tbody : Tbody) (rows : list FinanceRow) : World -> World :=
  on_finance_panel
    (match tbody with
     | incomeBody => set_income_body (Some rows)
     | expenseBody => set_expense_body (Some rows)
     end).

(** [tbody.appendChild(row)] *)
Definition appendChild (tbody : Tbody) (row : FinanceRow) (w : World) : World :=
  match rows_of tbody (finance_panel (page w)) with
  | Some rows => set_rows tbody (rows ++ [row]) w
  | None => w
  end.

Definition renderMetadataSummary (metadata : option (list (string * json))) : string :=
  match metadata with
  | None | Some [] => "—"
  | Some entries =>
      String.concat ", "
        (map (fun kv => match kv with
                        | (key, v) => key ++ ": " ++ json_to_string v
                        end) entries)
  end.

(** [state.finance.selectedId === id] and
    [row.dataset.transactionId === state.finance.selectedId]:
    [null] equals no string and is not [undefined]. *)
Definition same_id (a b : option string) : bool :=
  match a, b with
  | Some x, Some y => String.eqb x y
  | _, _ => false
  end.

Definition placeholder_row : FinanceRow :=
  {| dataset_transactionId := None;
     cells := [Td 6 "No entries recorded yet."];
     selected := false |}.

(** The markup written into the table row of a transaction. *)
Definition row_markup (transaction : Transaction) : string :=
  newline ++ "        <td>" ++ description transaction ++ "</td>"
    ++ newline ++ "        <td>" ++ category transaction ++ "</td>"
    ++ newline ++ "        <td>" ++ formatCurrency (amount transaction) ++ "</td>"
    ++ newline ++ "        <td>" ++ occurred_on transaction ++ "</td>"
    ++ newline ++ "        <td>" ++ renderMetadataSummary (metadata transaction) ++ "</td>"
    ++ newline ++ "        <td><button type=" ++ dquote ++ "button" ++ dquote
    ++ " class=" ++ dquote ++ "duplicate-transaction" ++ dquote
    ++ " data-transaction=" ++ dquote ++ transaction_id transaction ++ dquote
    ++ ">Duplicate</button></td>"
    ++ newline ++ "      ".

(** A parsed piece as it enters the page: a button has no listener yet. *)
Definition fresh_cell (piece : Parsed) : Cell :=
  match piece with
  | ParsedCell colspan text => Td colspan text
  | ParsedDuplicate data => TdDuplicate data 0
  end.

(** The row of a transaction: the identifier goes into the data set of the
    row as it is, the content is what the parser makes of the markup. *)
Definition transaction_row (current : option string) (transaction : Transaction)
    : FinanceRow :=
  {| dataset_transactionId := Some (transaction_id transaction);
     cells := map fresh_cell (parse_row (row_markup transaction));
     selected := same_id current (Some (transaction_id transaction)) |}.

Definition renderRows (tbody : Tbody) (entries : option (list Transaction)) : M unit :=
  exec (set_rows tbody []) ;;
  match entries with
  | None => throw (TypeError "read property length of undefined")
  | Some [] => exec (appendChild tbody placeholder_row)
  | Some transactions =>
      forEach (fun transaction =>
                 exec (fun w => appendChild tbody
                                  (transaction_row (selectedId (finance (state w)))
                                     transaction) w))
              transactions
  end.

Definition add_listener (c : Cell) : Cell :=
  match c with
  | TdDuplicate id n => TdDuplicate id (S n)
  | other => other
  end.

Definition map_rows (f : FinanceRow -> FinanceRow) (p : FinancePanel) : FinancePanel :=
  set_expense_body (option_map (map f) (expense_body p))
    (set_income_body (option_map (map f) (income_body p)) p).

(** The [duplicate-transaction] buttons followed are those of the rows of
    the two finance table bodies, where the script writes them. *)
Definition bindFinanceDuplicateButtons : World -> World :=
  on_finance_panel
    (map_rows (fun row => {| dataset_transactionId := dataset_transactionId row;
                             cells := map add_listener (cells row);
                             selected := selected row |})).

Definition renderFinanceTables (received : option FinanceSnapshot) : M unit :=
  exec (on_finance (set_snapshot received)) ;;
  (fun w =>
     match income_body (finance_panel (page w)),
           expense_body (finance_panel (page w)) with
     | Some _, Some _ =>
         match received with
         | None => (w, inl (TypeError "read property income of undefined"))
         | Some s =>
             (renderRows incomeBody (income s) ;;
              renderRows expenseBody (expenses s) ;;
              exec bindFinanceDuplicateButtons) w
         end
     | _, _ => (w, inr tt)
     end).

Definition findFinanceTransaction (transactionId : string) (w : World)
    : exn + option Transaction :=
  match snapshot (finance (state w)) with
  | None => inl (TypeError "destructure undefined")
  | Some s =>
      match income s, expenses s with
      | None, _ => inl (TypeError "spread income")
      | Some _, None => inl (TypeError "spread expenses")
      | Some incomes, Some outgoings =>
          inr (find (fun entry => String.eqb (transaction_id entry) transactionId)
                    (incomes ++ outgoings)%list)
      end
  end.

Definition updateFinanceSelectionSummary (transaction : option Transaction) (w : World)
    : World :=
  match finance_selection_summary (finance_panel (page w)) with
  | None => w
  | Some _ =>
      on_finance_panel
        (set_finance_selection_summary
           (Some match transaction with
                 | None => "Select an entry to duplicate its details."
                 | Some t =>
                     "Duplicating " ++ transaction_type t ++ " " ++ transaction_id t
                       ++ ". Adjust any fields before saving."
                 end)) w
  end.

(** The rows of [#finance-panel tbody tr] are those of the two bodies. *)
Definition highlightFinanceSelection (w : World) : World :=
  on_finance_panel
    (map_rows (fun row =>
                 {| dataset_transactionId := dataset_transactionId row;
                    cells := cells row;
                    selected := same_id (dataset_transactionId row)
                                        (selectedId (finance (state w))) |})) w.

Definition prepareFinanceForm (transaction : Transaction) (w : World) : World :=
  match finance_duplicate_form (finance_panel (page w)) with
  | None => w
  | Some form =>
      let filled :=
        {| source_transaction_id := transaction_id transaction;
           form_description := description transaction;
           form_category := category transaction;
           form_amount := num_to_string (amount transaction);
           form_occurred_on := occurred_on transaction;
           form_transaction_type := transaction_type transaction;
           form_metadata :=
             match metadata transaction with
             | None | Some [] => ""
             | Some members => stringify_pretty (JObj members)
             end |} in
      highlightFinanceSelection
        (updateFinanceSelectionSummary (Some transaction)
           (on_finance (set_selectedId (Some (transaction_id transaction)))
              (on_finance_panel
                 (set_finance_duplicate_form (Some (set_controls filled form))) w)))
  end.

Definition clearFinanceSelection (w : World) : World :=
  match finance_duplicate_form (finance_panel (page w)) with
  | None => w
  | Some form =>
      let blank :=
        {| source_transaction_id := "";
           form_description := form_description (defaults form);
           form_category := form_category (defaults form);
           form_amount := form_amount (defaults form);
           form_occurred_on := form_occurred_on (defaults form);
           form_transaction_type := form_transaction_type (defaults form);
           form_metadata := form_metadata (defaults form) |} in
      highlightFinanceSelection
        (updateFinanceSelectionSummary None
           (on_finance (set_selectedId None)
              (on_finance_panel
                 (set_finance_duplicate_form (Some (set_controls blank form))) w)))
  end.

(** The click listener [bindFinanceDuplicateButtons] attaches to a button
    whose [data-transaction] is [id]. *)
Definition duplicate_listener (id : string) : M unit :=
  fun w => match findFinanceTransaction id w with
           | inl e => (w, inl e)
           | inr (Some transaction) => (prepareFinanceForm transaction w, inr tt)
           | inr None => (w, inr tt)
           end.

(** [if (output) output.textContent = text] on [finance-output]. *)
Definition write_finance_output (text : string) (w : World) : World :=
  match finance_output (finance_panel (page w)) with
  | None => w
  | Some _ => on_finance_panel (set_finance_output (Some text)) w
  end.

Definition loadFinanceTransactions : World -> World :=
  fetch "/finance/transactions" "GET" None.

Definition loadFinanceTransactions_settled (settled : fetched FinanceSnapshot)
    : World -> World :=
  try_catch
    (match safeJsonFetch settled with
     | inl error => throw error
     | inr received => renderFinanceTables (Some received)
     end)
    (fun error =>
       write_finance_output ("Failed to load finance data: " ++ message error)).

(** [submitFinanceDuplicate]; the event comes from the form, so without the
    form there is nothing to run. *)
Definition submitFinanceDuplicate (w : World) : World :=
  match finance_duplicate_form (finance_panel (page w)) with
  | None => w
  | Some form =>
      if string_truthy (source_transaction_id (controls form))
      then fetch "/finance/duplicate" "POST" (Some (FormData_of (controls form))) w
      else write_finance_output "Choose an entry to duplicate before submitting." w
  end.

Definition submitFinanceDuplicate_settled (settled : fetched DuplicatePayload)
    (w : World) : World :=
  match finance_duplicate_form (finance_panel (page w)) with
  | None => w
  | Some _ =>
      try_catch
        (match safeJsonFetch settled with
         | inl error => throw error
         | inr payload =>
             renderFinanceTables (duplicated_snapshot payload) ;;
             exec (write_finance_output
                     match duplicated_transaction payload with
                     | Some j => stringify_pretty j
                     | None => ""
                     end) ;;
             exec (fun w' =>
                     match finance_duplicate_form (finance_panel (page w')) with
                     | Some form =>
                         appendLog ("Duplicated transaction "
                                      ++ source_transaction_id (controls form) ++ ".") w'
                     | None => w'
                     end)
         end)
        (fun error => write_finance_output ("Duplication failed: " ++ message error))
        w
  end.

(** ** The page's life

    [DOMContentLoaded] runs once; [setupProfileMenu] and
    [setupEventListeners] only register the listeners that [step] runs, and
    do so before the maps are initialised: an exception that escapes from
    there ends the listener, so the two loaders are not called. *)

Definition DOMContentLoaded : World -> World :=
  dispatch (initialiseLeafletMap ;;
            initialiseGoogleMap ;;
            exec loadSurveyDays ;;
            exec loadFinanceTransactions).

(** What the browser can deliver afterwards: user gestures, map library
    events, and settled requests. *)
Inductive Event : Type :=
| ProfileClick
| MapProviderChange (provider : string)
| LeafletCreated (geojson : json)
| LeafletEdited (layers : list json)
| LeafletDeleted
| GoogleOverlayComplete (drawn : DrawnOverlay)
| RouteSubmit (entries : FormData)
| RouteSettled (settled : fetched json)
| UploadSubmit (entries : FormData)
| UploadSettled (settled : fetched json)
| ClassifyClick
| ClassifySettled (settled : fetched json)
| ComparisonSubmit (entries : FormData)
| ComparisonSettled (settled : fetched json)
| AnnotationSubmit (entries : FormData)
| AnnotationSettled (settled : fetched json)
| SurveyDaysSettled (settled : fetched CapturesPayload)
| CaptureClick (index : nat)
| FinanceTransactionsSettled (settled : fetched FinanceSnapshot)
| DuplicateClick (tbody : Tbody) (index : nat)
| FinanceFormInput (typed : FinanceForm)
| FinanceSubmit
| FinanceDuplicateSettled (settled : fetched DuplicatePayload)
| FinanceClearClick.

(** The first [duplicate-transaction] button of a row, if it has one. *)
Fixpoint duplicate_button (row_cells : list Cell) : option (string * nat) :=
  match row_cells with
  | [] => None
  | TdDuplicate id n :: _ => Some (id, n)
  | Td _ _ :: rest => duplicate_button rest
  end.

(** A click on the first duplicate button of the [index]-th row of a table
    body runs each listener bound to that button. *)
Definition duplicate_click (tbody : Tbody) (index : nat) (w : World) : World :=
  match rows_of tbody (finance_panel (page w)) with
  | None => w
  | Some rows =>
      match nth_error rows index with
      | None => w
      | Some row =>
          match duplicate_button (cells row) with
          | None => w
          | Some (id, n) => Nat.iter n (dispatch (duplicate_listener id)) w
          end
      end
  end.

(** A click on the first button of the [index]-th item of the survey list. *)
Definition capture_click (index : nat) (w : World) : World :=
  match nth_error (survey_days (survey_panel (page w))) index with
  | None => w
  | Some button => showSurveyDetails (listener_capture button) w
  end.

(** The operator types into the controls of the finance form. *)
Definition finance_form_input (typed : FinanceForm) (w : World) : World :=
  match finance_duplicate_form (finance_panel (page w)) with
  | None => w
  | Some form =>
      on_finance_panel (set_finance_duplicate_form (Some (set_controls typed form))) w
  end.

Definition step (e : Event) (w : World) : World :=
  match e with
  | ProfileClick => profile_click w
  | MapProviderChange provider => dispatch (toggleMap provider) w
  | LeafletCreated geojson =>
      if draw_listeners (leaflet (state w)) then leaflet_created geojson w else w
  | LeafletEdited layers =>
      if draw_listeners (leaflet (state w)) then leaflet_edited layers w else w
  | LeafletDeleted =>
      if draw_listeners (leaflet (state w)) then leaflet_deleted w else w
  | GoogleOverlayComplete drawn =>
      if drawingManager (google (state w)) then dispatch (overlaycomplete drawn) w else w
  | RouteSubmit entries => submitRoute entries w
  | RouteSettled settled => submitRoute_settled settled w
  | UploadSubmit entries => submitUpload entries w
  | UploadSettled settled => submitUpload_settled settled w
  | ClassifyClick => runClassification w
  | ClassifySettled settled => runClassification_settled settled w
  | ComparisonSubmit entries => submitComparison entries w
  | ComparisonSettled settled => submitComparison_settled settled w
  | AnnotationSubmit entries => submitAnnotation entries w
  | AnnotationSettled settled => submitAnnotation_settled settled w
  | SurveyDaysSettled settled => loadSurveyDays_settled settled w
  | CaptureClick index => capture_click index w
  | FinanceTransactionsSettled settled => loadFinanceTransactions_settled settled w
  | DuplicateClick tbody index => duplicate_click tbody index w
  | FinanceFormInput typed => finance_form_input typed w
  | FinanceSubmit => submitFinanceDuplicate w
  | FinanceDuplicateSettled settled => submitFinanceDuplicate_settled settled w
  | FinanceClearClick =>
      if finance_clear_selection (finance_panel (page w))
      then clearFinanceSelection w else w
  end.

(** The [state] literal at the top of the script. *)
Definition initial_state : State :=
  {| activeMap := "osm";
     drawnGeoJson := JNull;
     leaflet := {| leaflet_map := false; drawnItems := [];
                   overlayLayer := []; leaflet_fit := None;
                   draw_listeners := false |};
     google := {| google_map := false; drawingManager := false; polygon := None;
                  google_removed := 0; google_overlay := None;
                  google_fit := None |};
     surveyCaptures := Some [];
     finance := {| snapshot := Some {| income := Some []; expenses := Some [] |};
                   selectedId := None |} |}.

(** A freshly loaded page: the script's initial state, no request made, and
    no button of the survey list yet (the markup's own carry no listener). *)
Definition pristine (w : World) : Prop :=
  state w = initial_state
  /\ network w = []
  /\ survey_days (survey_panel (page w)) = [].

(** The worlds the page can be in. *)
Inductive reachable : World -> Prop :=
| reachable_loaded w : pristine w -> reachable (DOMContentLoaded w)
| reachable_step w e : reachable w -> reachable (step e w).

(** ** Vocabulary of the properties *)

(** What a table body shows for a list of transactions: the placeholder row
    for an empty list, one row per transaction otherwise. *)
Definition rendered_rows (current : option string) (entries : list Transaction)
    : list FinanceRow :=
  match entries with
  | [] => [placeholder_row]
  | _ => map (transaction_row current) entries
  end.

(** A row once [bindFinanceDuplicateButtons] has visited it. *)
Definition bound_row (row : FinanceRow) : FinanceRow :=
  {| dataset_transactionId := dataset_transactionId row;
     cells := map add_listener (cells row);
     selected := selected row |}.

(** The rows of both bodies of the finance panel. *)
Definition finance_rows (w : World) : list FinanceRow :=
  (match income_body (finance_panel (page w)) with Some rows => rows | None => [] end
   ++ match expense_body (finance_panel (page w)) with Some rows => rows | None => [] end)%list.

Definition current_selection (w : World) : option string :=
  selectedId (finance (state w)).

(** The stored capture collection, [undefined] read as no capture. *)
Definition stored_captures (w : World) : list SurveyCapture :=
  match surveyCaptures (state w) with
  | Some entries => entries
  | None => []
  end.

(** The events whose listeners assign [state.finance.selectedId]:
    [prepareFinanceForm] behind a duplicate button and
    [clearFinanceSelection] behind the clear button. *)
Definition selects (e : Event) : bool :=
  match e with
  | DuplicateClick _ _ => true
  | FinanceClearClick => true
  | _ => false
  end.

(** The [selected] class sits on exactly the rows whose identifier is the
    selected one. *)
Definition highlight_matches (current : option string) (rows : list FinanceRow) : Prop :=
  forall row, In row rows ->
    (selected row = true <->
     exists id, dataset_transactionId row = Some id /\ current = Some id).

(** The parser finds a button in the markup of every capture of a
    collection. *)
Definition buttons_found (entries : list SurveyCapture) : bool :=
  forallb (fun capture => parse_has_button (button_markup capture)) entries.

(** The items [renderSurveyList] leaves in the list for a collection: one
    per capture, in order, up to the first capture in whose markup no button
    is found. *)
Fixpoint rendered_items (entries : list SurveyCapture) : list CaptureButton :=
  match entries with
  | [] => []
  | capture :: rest =>
      if parse_has_button (button_markup capture)
      then capture_button capture :: rendered_items rest
      else []
  end.

(** The survey list shows the stored captures, each button bound to its own. *)
Definition buttons_follow_store (w : World) : Prop :=
  survey_days (survey_panel (page w)) = rendered_items (stored_captures w).

Definition survey_view (w : World) : option (list SurveyCapture) * list CaptureButton :=
  (surveyCaptures (state w), survey_days (survey_panel (page w))).

(** What only the survey loader and the two selection listeners may change:
    the selected identifier, the stored captures and the survey list. *)
Definition kept (w : World)
    : option string * option (list SurveyCapture) * list CaptureButton :=
  (current_selection w, surveyCaptures (state w),
   survey_days (survey_panel (page w))).

(** A world transformer leaves an observation of the world alone. *)
Definition preserves {X : Type} (obs : World -> X) (f : World -> World) : Prop :=
  forall w, obs (f w) = obs w.

Definition preservesM {X A : Type} (obs : World -> X) (m : M A) : Prop :=
  forall w, obs (fst (m w)) = obs w.

(** ** Vocabulary of the footprints *)

(** A world transformer only moves the world along a relation. *)
Definition respects (R : World -> World -> Prop) (f : World -> World) : Prop :=
  forall w, R w (f w).

Definition respectsM {A : Type} (R : World -> World -> Prop) (m : M A) : Prop :=
  forall w, R w (fst (m w)).

(** The later world shows the same observation. *)
Definition same {X : Type} (obs : World -> X) (w w' : World) : Prop := obs w' = obs w.

(** The [area-geojson] input holds the JSON text of the drawn geometry, or
    nothing when none is drawn. *)
Definition geometry_synced (w : World) : Prop :=
  area_geojson (page w)
  = if truthy (Some (drawnGeoJson (state w)))
    then stringify (drawnGeoJson (state w)) else "".

Definition geometry_view (w : World) : json * string :=
  (drawnGeoJson (state w), area_geojson (page w)).

(** The later log panel is the earlier one with text put in front, and the
    clock has not gone back. *)
Definition log_grows (w w' : World) : Prop :=
  (exists added, logPanel w' = added ++ logPanel w) /\ clock w <= clock w'.

(** The later network trace is the earlier one with requests added behind. *)
Definition trace_grows (w w' : World) : Prop :=
  exists added, network w' = (network w ++ added)%list.

(** The events whose listeners call [fetch]. *)
Definition sends (e : Event) : bool :=
  match e with
  | RouteSubmit _ | UploadSubmit _ | ClassifyClick | ComparisonSubmit _
  | AnnotationSubmit _ | AnnotationSettled _ | FinanceSubmit => true
  | _ => false
  end.

(** The events of the two map adapters that report a drawing. *)
Definition draws (e : Event) : bool :=
  match e with
  | LeafletCreated _ | LeafletEdited _ | LeafletDeleted
  | GoogleOverlayComplete _ => true
  | _ => false
  end.

(** Every row of the finance panel carries the [selected] class exactly
    when its identifier is the selected one. *)
Definition rows_highlighted (w : World) : Prop :=
  highlight_matches (current_selection w) (finance_rows w).

(** The list a table body is rendered from. *)
Definition entries_of (tbody : Tbody) (incomes outgoings : list Transaction)
    : list Transaction :=
  match tbody with
  | incomeBody => incomes
  | expenseBody => outgoings
  end.

(** What the highlighting depends on: the selection and the two bodies. *)
Definition finance_view (w : World)
    : option string * option (list FinanceRow) * option (list FinanceRow) :=
  (current_selection w, income_body (finance_panel (page w)),
   expense_body (finance_panel (page w))).

(** Highlighting that holds before holds after. *)
Definition keeps_highlight (w w' : World) : Prop :=
  rows_highlighted w -> rows_highlighted w'.

(** The controls [prepareFinanceForm] leaves in the form for a transaction. *)
Definition filled_from (transaction : Transaction) : FinanceForm :=
  {| source_transaction_id := transaction_id transaction;
     form_description := description transaction;
     form_category := category transaction;
     form_amount := num_to_string (amount transaction);
     form_occurred_on := occurred_on transaction;
     form_transaction_type := transaction_type transaction;
     form_metadata :=
       match metadata transaction with
       | None | Some [] => ""
       | Some members => stringify_pretty (JObj members)
       end |}.

End Dashboard.

Arguments Ok_ {host P} status body.
Arguments NotOk {host P} status body.
Arguments Rejected {host P} reason.
Arguments Responded {host P} r.

(** * A sample page

    A host whose numbers are integers, and a small page with its data, on
    which the properties below are exercised. *)

Module Sample.

Definition Z_to_string (z : Z) : string := NilZero.string_of_int (Z.to_int z).

(** A reader for the markup of the sample data, whose fields carry text
    only: it cuts the markup at its tags. *)

(** The text behind a prefix. *)
Fixpoint strip_prefix (prefix text : string) : option string :=
  match prefix, text with
  | EmptyString, _ => Some text
  | String a prefix', String b text' =>
      if Ascii.eqb a b then strip_prefix prefix' text' else None
  | String _ _, EmptyString => None
  end.

(** The text behind the first occurrence of a mark. *)
Fixpoint behind (mark text : string) : option string :=
  match strip_prefix mark text with
  | Some rest => Some rest
  | None =>
      match text with
      | EmptyString => None
      | String _ text' => behind mark text'
      end
  end.

(** The text in front of the first occurrence of a mark. *)
Fixpoint before (mark text : string) : string :=
  match strip_prefix mark text with
  | Some _ => EmptyString
  | None =>
      match text with
      | EmptyString => EmptyString
      | String c text' => String c (before mark text')
      end
  end.

(** The content of a cell: a duplicate button with its attribute, read up to
    the quote that closes it, or the text of the cell. *)
Definition read_cell (content : string) : Parsed :=
  match behind ("class=" ++ dquote ++ "duplicate-transaction" ++ dquote
                  ++ " data-transaction=" ++ dquote) content with
  | Some rest => ParsedDuplicate (before dquote rest)
  | None => ParsedCell 1 content
  end.

Fixpoint read_cells (fuel : nat) (markup : string) : list Parsed :=
  match fuel with
  | 0 => []
  | S fuel' =>
      match behind "<td>" markup with
      | None => []
      | Some rest =>
          read_cell (before "</td>" rest)
            :: match behind "</td>" rest with
               | Some tail => read_cells fuel' tail
               | None => []
               end
      end
  end.

(** Amounts below one thousand need no digit grouping. *)
Definition host : Host :=
  {| num := Z;
     num_to_string := Z_to_string;
     num_truthy := fun z => negb (Z.eqb z 0);
     toFixed2 := fun z => Z_to_string z ++ ".00";
     formatCurrency := fun z => (if Z.ltb z 0 then "-" else "") ++ "£"
                                  ++ Z_to_string (Z.abs z) ++ ".00";
     toISOString := fun n => "2024-05-01T00:00:0" ++ N_to_string (N.of_nat n) ++ ".000Z";
     typeErrorMessage := fun operation => "Cannot " ++ operation;
     referenceErrorMessage := fun variable => variable ++ " is not defined";
     parse_row := fun markup => read_cells (String.length markup) markup;
     parse_has_button := fun markup =>
                           match behind "<button " markup with
                           | Some rest =>
                               match behind ">" rest with
                               | Some _ => true
                               | None => false
                               end
                           | None => false
                           end |}.

#[local] Existing Instance host.

(** An integer as a number of this host. *)
Definition int (z : Z) : @num host := z.

Definition number (z : Z) : @json host := JNum (int z).

Definition survey_area : @json host :=
  JObj [("type", JStr "Feature");
        ("geometry", JObj [("type", JStr "Polygon");
                           ("coordinates",
                            JArr [JArr [JArr [number 0; number 0];
                                        JArr [number 1; number 0];
                                        JArr [number 1; number 1];
                                        JArr [number 0; number 0]]])])].

Definition bounds : @LatLngBounds host :=
  {| getSouthWest := {| lat := int 51; lng := int (-1) |};
     getNorthEast := {| lat := int 52; lng := int 0 |} |}.

Definition pump : @Asset host :=
  {| asset_id := "pump-1"; classification := "pump";
     volume_cubic_m := int 12; annotations := ["checked"; "repainted"] |}.

Definition north_yard : @SurveyCapture host :=
  {| capture_id := "cap-1"; name := "North yard"; captured_on := "2024-05-01";
     asset_count := int 1; point_cloud_path := "/exports/cap-1.ply";
     overlay := {| outer_ring := [(int 0, int 0); (int 1, int 0); (int 1, int 1);
                                  (int 0, int 0)] |};
     assets := [pump] |}.

Definition invoice : @Transaction host :=
  {| transaction_id := "t1"; description := "Survey fee"; category := "services";
     amount := int 250; occurred_on := "2024-04-02"; transaction_type := "income";
     metadata := Some [("site", JStr "North yard")] |}.

Definition fuel : @Transaction host :=
  {| transaction_id := "t2"; description := "Fuel"; category := "travel";
     amount := int 40; occurred_on := "2024-04-03"; transaction_type := "expense";
     metadata := None |}.

Definition ledger : @FinanceSnapshot host :=
  {| income := Some [invoice]; expenses := Some [fuel] |}.

Definition blank_form : FinanceForm :=
  {| source_transaction_id := ""; form_description := ""; form_category := "";
     form_amount := ""; form_occurred_on := ""; form_transaction_type := "income";
     form_metadata := "" |}.

Definition markup : @Page host :=
  {| leaflet_map_element := Some false;
     google_map_element := Some true;
     leaflet_script := true;
     leaflet_draw := true;
     google_script := true;
     google_drawing := true;
     area_geojson := "";
     outputs := {| route_text := ""; upload_text := ""; classify_text := "";
                   comparison_text := ""; annotation_text := "" |};
     survey_panel := {| survey_days := []; base_capture_select := [];
                        target_capture_select := []; survey_summary := "";
                        point_cloud_link := ""; asset_table := [] |};
     finance_panel := {| income_body := Some []; expense_body := Some [];
                         finance_duplicate_form :=
                           Some {| controls := blank_form; defaults := blank_form |};
                         finance_clear_selection := true;
                         finance_selection_summary := Some "";
                         finance_output := Some "" |};
     profile_expanded := false;
     profile_menu_open := false |}.

(** The page before [DOMContentLoaded], and once it has run. *)
Definition fresh : @World host :=
  {| state := initial_state; page := markup; logPanel := ""; clock := 0;
     network := [] |}.

Definition loaded : @World host := DOMContentLoaded fresh.

(** The page after the ledger has arrived and a geometry has been drawn. *)
Definition busy : @World host :=
  step (LeafletCreated survey_area)
    (step (FinanceTransactionsSettled (Responded (Ok_ 200 (Some ledger)))) loaded).

(** Then with the survey days received, and with the invoice chosen for
    duplication. *)
Definition surveyed : @World host :=
  step (SurveyDaysSettled (Responded (Ok_ 200 (Some {| captures := Some [north_yard] |}))))
    busy.

Definition chosen : @World host := step (DuplicateClick incomeBody 0) surveyed.

Definition route_entries : FormData :=
  [("altitude", FormText "60"); ("area_geojson", FormText "stale")].

(** The same page where the Leaflet script did not load. *)
Definition unplugged : @World host :=
  {| state := initial_state;
     page := {| leaflet_map_element := Some false;
                google_map_element := Some true;
                leaflet_script := false;
                leaflet_draw := false;
                google_script := true;
                google_drawing := true;
                area_geojson := "";
                outputs := outputs markup;
                survey_panel := survey_panel markup;
                finance_panel := finance_panel markup;
                profile_expanded := false;
                profile_menu_open := false |};
     logPanel := ""; clock := 0; network := [] |}.

(** A failure body as the backend sends it, and a ledger without income. *)
Definition offline : @fetched host CapturesPayload :=
  Responded (NotOk 503 (Some (JObj [("detail", JStr "database offline")]))).

Definition expenses_only : @FinanceSnapshot host :=
  {| income := Some []; expenses := Some [fuel] |}.

End Sample.


(** * Properties *)

Section Properties.

Context {host : Host}.

(** ** Network client *)

(** The raw JSON of an object is never the empty string. *)
Lemma stringify_object_truthy (members : list (string * json)) :
  truthy (Some (JStr (stringify (JObj members)))) = true.
Proof. reflexivity. Qed.

(** Hence, for a failure body that is an object or is not JSON at all, the
    value handed to [new Error] is truthy whatever [detail] holds: the
    status text after the second [||] is never used. *)
Lemma status_fallback_unused (members : list (string * json)) (d : value) :
  truthy (if truthy d then d else Some (JStr (stringify (JObj members)))) = true.
Proof.
  destruct (truthy d) eqn:Hd; [exact Hd | apply stringify_object_truthy].
Qed.

(** A failure body whose [detail] is a non-empty string: that string is the
    message. *)
Lemma safeJsonFetch_detail (P : Type) (HP : Payload P) (status : N)
    (members : list (string * json)) (c : ascii) (rest : string) :
  lookup "detail" members = Some (JStr (String c rest)) ->
  safeJsonFetch (Responded (NotOk status (Some (JObj members))) : fetched P)
  = inl (Error (String c rest)).
Proof.
  intros Hdetail. unfold safeJsonFetch, get_property. rewrite Hdetail. reflexivity.
Qed.

(** A failure body that is an object without [detail]: its raw JSON is the
    message. *)
Lemma safeJsonFetch_raw_json (P : Type) (HP : Payload P) (status : N)
    (members : list (string * json)) :
  lookup "detail" members = None ->
  safeJsonFetch (Responded (NotOk status (Some (JObj members))) : fetched P)
  = inl (Error (stringify (JObj members))).
Proof.
  intros Hdetail. unfold safeJsonFetch, get_property. rewrite Hdetail. reflexivity.
Qed.

(** C4. On a non-success response whose body is not JSON the payload falls
    back to the empty object, whose raw JSON is the two-character text of an
    empty object; that text is truthy, so it becomes the message and the
    status fallback is never taken: the message is not the HTTP status. *)
Theorem safeJsonFetch_unparsed_failure_message :
  forall (P : Type) (HP : Payload P) (status : N),
    safeJsonFetch (Responded (NotOk status None) : fetched P) = inl (Error "{}")
    /\ message (Error "{}") <> "Request failed with status " ++ N_to_string status.
Proof.
  intros P HP status. split.
  - reflexivity.
  - simpl. discriminate.
Qed.

(** C10. A success response whose body is not JSON resolves with the empty
    object, and whenever a response makes [safeJsonFetch] throw, the response
    has a non-success status: a body that fails to parse is never the cause. *)
Theorem safeJsonFetch_ok_resolves :
  forall (P : Type) (HP : Payload P) (status : N),
    safeJsonFetch (Responded (Ok_ status None) : fetched P) = inr empty_object
    /\ safeJsonFetch (Responded (Ok_ status None) : fetched json) = inr (JObj [])
    /\ stringify (JObj []) = "{}"
    /\ (forall (body : option P),
          exists payload, safeJsonFetch (Responded (Ok_ status body)) = inr payload)
    /\ (forall (r : response P) (e : exn),
          safeJsonFetch (Responded r) = inl e ->
          exists code body, r = NotOk code body).
Proof.
  intros P HP status.
  split; [reflexivity|]. split; [reflexivity|]. split; [reflexivity|]. split.
  - intros body. simpl. eexists. reflexivity.
  - intros r e Hthrow. destruct r as [code body | code body].
    + simpl in Hthrow. discriminate.
    + exists code, body. reflexivity.
Qed.

(** ** Field bookkeeping *)

Lemma appendLog_state (text : string) (w : World) : state (appendLog text w) = state w.
Proof. reflexivity. Qed.

Lemma appendLog_page (text : string) (w : World) : page (appendLog text w) = page w.
Proof. reflexivity. Qed.

Lemma appendLog_network (text : string) (w : World) :
  network (appendLog text w) = network w.
Proof. reflexivity. Qed.

(** ** Geometry capture *)

(** C1. A rectangle drawn on the Google adapter, whatever its two corners,
    reaches the canonicalizer as a polygon whose single ring has exactly five
    positions in the order south-west, south-east, north-east, north-west,
    south-west; the listener does not throw. *)
Theorem rectangle_draw_canonical_ring :
  forall (bounds : LatLngBounds) (w : World),
    let sw := getSouthWest bounds in
    let ne := getNorthEast bounds in
    let ring := [ JArr [JNum (lng sw); JNum (lat sw)];
                  JArr [JNum (lng ne); JNum (lat sw)];
                  JArr [JNum (lng ne); JNum (lat ne)];
                  JArr [JNum (lng sw); JNum (lat ne)];
                  JArr [JNum (lng sw); JNum (lat sw)] ] in
    let geojson := JObj [("type", JStr "Polygon"); ("coordinates", JArr [JArr ring])] in
    let before :=
      on_google (set_polygon (Some (RECTANGLE bounds)))
        (match polygon (google (state w)) with
         | Some _ => on_google (fun g => set_google_removed (S (google_removed g)) g) w
         | None => w
         end) in
    overlaycomplete (RECTANGLE bounds) w = (setDrawnGeometry geojson before, inr tt)
    /\ drawnGeoJson (state (dispatch (overlaycomplete (RECTANGLE bounds)) w)) = geojson
    /\ area_geojson (page (dispatch (overlaycomplete (RECTANGLE bounds)) w))
       = stringify geojson
    /\ length ring = 5
    /\ hd_error ring = Some (nth 4 ring JNull).
Proof.
  intros bounds w sw ne ring geojson before.
  assert (Hrun : overlaycomplete (RECTANGLE bounds) w
                 = (setDrawnGeometry geojson before, inr tt)) by reflexivity.
  split; [exact Hrun|].
  unfold dispatch. rewrite Hrun. repeat split.
Qed.

(** ** Route planning *)

Lemma formData_delete_absent (key : string) (data : FormData) :
  filter (fun kv => String.eqb (fst kv) key) (formData_delete key data) = [].
Proof.
  induction data as [|[k v] rest IH]; simpl; [reflexivity|].
  destruct (String.eqb k key) eqn:Hk; simpl.
  - exact IH.
  - rewrite Hk. exact IH.
Qed.

Lemma formData_get_set (key text : string) (data : FormData) :
  formData_get key (formData_set key text data) = Some (FormText text).
Proof.
  unfold formData_get.
  induction data as [|[k v] rest IH]; simpl.
  - rewrite String.eqb_refl. reflexivity.
  - destruct (String.eqb k key) eqn:Hk; simpl.
    + rewrite String.eqb_refl. reflexivity.
    + rewrite Hk. exact IH.
Qed.

Lemma formData_set_once (key text : string) (data : FormData) :
  filter (fun kv => String.eqb (fst kv) key) (formData_set key text data)
  = [(key, FormText text)].
Proof.
  induction data as [|[k v] rest IH]; simpl.
  - rewrite String.eqb_refl. reflexivity.
  - destruct (String.eqb k key) eqn:Hk; simpl.
    + rewrite String.eqb_refl, formData_delete_absent. reflexivity.
    + rewrite Hk. exact IH.
Qed.

Lemma submitRoute_request (entries : FormData) (w : World) :
  truthy (Some (drawnGeoJson (state w))) = true ->
  network (submitRoute entries w)
  = (network w
     ++ [{| url := "/plan-route"; method := "POST";
            body := Some (formData_set "area_geojson"
                            (stringify (drawnGeoJson (state w))) entries) |}])%list.
Proof. intros Hset. unfold submitRoute. rewrite Hset. reflexivity. Qed.

(** C2. When a geometry is set, whatever entries the route form holds at
    submit time, the request sent to the route planner carries exactly one
    [area_geojson] entry, and it is the JSON text of the geometry the state
    holds at that moment. *)
Theorem submitRoute_sends_current_geometry :
  forall (entries : FormData) (w : World),
    truthy (Some (drawnGeoJson (state w))) = true ->
    exists data,
      network (submitRoute entries w)
      = (network w ++ [{| url := "/plan-route"; method := "POST";
                          body := Some data |}])%list
      /\ formData_get "area_geojson" data
         = Some (FormText (stringify (drawnGeoJson (state w))))
      /\ filter (fun kv => String.eqb (fst kv) "area_geojson") data
         = [("area_geojson", FormText (stringify (drawnGeoJson (state w))))].
Proof.
  intros entries w Hset.
  exists (formData_set "area_geojson" (stringify (drawnGeoJson (state w))) entries).
  split; [apply submitRoute_request, Hset|]. split.
  - apply formData_get_set.
  - apply formData_set_once.
Qed.

(** A geometry drawn just before submitting is the one that is sent. *)
Lemma submitRoute_after_draw (geojson : json) (entries : FormData) (w : World) :
  truthy (Some geojson) = true ->
  exists data,
    body (last (network (submitRoute entries (setDrawnGeometry geojson w)))
               {| url := ""; method := ""; body := None |}) = Some data
    /\ formData_get "area_geojson" data = Some (FormText (stringify geojson)).
Proof.
  intros Hset.
  exists (formData_set "area_geojson" (stringify geojson) entries).
  rewrite (submitRoute_request entries (setDrawnGeometry geojson w) Hset), last_last.
  split; [reflexivity | apply formData_get_set].
Qed.

(** ** Survey captures *)

(** C3. When the request for the survey days fails, the handler does nothing
    but put one entry holding the failure message at the head of the log:
    the stored collection, the whole page (the rendered list with it) and
    the network trace are as before. *)
Theorem loadSurveyDays_failure_keeps_collection :
  forall (settled : fetched CapturesPayload) (error : exn) (w : World),
    safeJsonFetch settled = inl error ->
    let w' := loadSurveyDays_settled settled w in
    surveyCaptures (state w') = surveyCaptures (state w)
    /\ state w' = state w
    /\ page w' = page w
    /\ network w' = network w
    /\ logPanel w'
       = toISOString (clock w) ++ ": " ++ "Failed to load survey days: "
           ++ message error ++ newline ++ logPanel w.
Proof.
  intros settled error w Hfail w'.
  assert (Hw' : w' = appendLog ("Failed to load survey days: " ++ message error) w).
  { unfold w', loadSurveyDays_settled, try_catch. rewrite Hfail. reflexivity. }
  rewrite Hw'. repeat split.
Qed.

(** By contrast, a success response whose body is not JSON is no failing
    fetch: the payload is the empty object, the stored collection becomes
    [undefined] and the list is emptied before the [TypeError] of the
    renderer is caught and logged. *)
Lemma loadSurveyDays_unparsed_success (status : N) (w : World) :
  let w' := loadSurveyDays_settled (Responded (Ok_ status None)) w in
  surveyCaptures (state w') = None
  /\ survey_days (survey_panel (page w')) = []
  /\ logPanel w'
     = toISOString (clock w) ++ ": " ++ "Failed to load survey days: "
         ++ typeErrorMessage "read property forEach of undefined"
         ++ newline ++ logPanel w.
Proof. repeat split. Qed.

(** ** Frame rules for procedures *)

Section Frame.

Context {X : Type} (obs : World -> X).

Lemma preservesM_ret {A : Type} (a : A) : preservesM obs (ret a).
Proof. intros w. reflexivity. Qed.

Lemma preservesM_throw {A : Type} (e : exn) : preservesM obs (throw e : M A).
Proof. intros w. reflexivity. Qed.

Lemma preservesM_exec (f : World -> World) :
  preserves obs f -> preservesM obs (exec f).
Proof. intros Hf w. apply Hf. Qed.

Lemma preservesM_bind {A B : Type} (m : M A) (k : A -> M B) :
  preservesM obs m -> (forall a, preservesM obs (k a)) -> preservesM obs (bind m k).
Proof.
  intros Hm Hk w. unfold bind. specialize (Hm w).
  destruct (m w) as [w' [e | a]]; simpl in *.
  - exact Hm.
  - rewrite Hk. exact Hm.
Qed.

Lemma preservesM_forEach {A : Type} (f : A -> M unit) (entries : list A) :
  (forall x, preservesM obs (f x)) -> preservesM obs (forEach f entries).
Proof.
  intros Hf. induction entries as [|x rest IH]; simpl.
  - apply preservesM_ret.
  - apply preservesM_bind; [apply Hf | intros _; exact IH].
Qed.

(** A procedure that reads the world before acting. *)
Lemma preservesM_reading {A : Type} (m : World -> M A) :
  (forall w0, preservesM obs (m w0)) -> preservesM obs (fun w => m w w).
Proof. intros Hm w. apply Hm. Qed.

Lemma preserves_try_catch (m : M unit) (handler : exn -> World -> World) :
  preservesM obs m -> (forall e, preserves obs (handler e)) ->
  preserves obs (try_catch m handler).
Proof.
  intros Hm Hh w. unfold try_catch. specialize (Hm w).
  destruct (m w) as [w' [e | u]]; simpl in *.
  - rewrite Hh. exact Hm.
  - exact Hm.
Qed.

Lemma preserves_dispatch (m : M unit) : preservesM obs m -> preserves obs (dispatch m).
Proof. intros Hm w. apply Hm. Qed.

Lemma preserves_fold_left {A : Type} (f : World -> A -> World) (entries : list A) :
  (forall x, preserves obs (fun w => f w x)) ->
  preserves obs (fun w => fold_left f entries w).
Proof.
  intros Hf. induction entries as [|x rest IH]; intros w; simpl.
  - reflexivity.
  - rewrite IH. apply (Hf x).
Qed.

Lemma preserves_iter (n : nat) (f : World -> World) :
  preserves obs f -> preserves obs (Nat.iter n f).
Proof.
  intros Hf. induction n as [|n IH]; intros w; simpl.
  - reflexivity.
  - rewrite Hf. apply IH.
Qed.

End Frame.

(** ** Loops *)

Lemma forEach_exec {A : Type} (f : A -> World -> World) (entries : list A) (w : World) :
  forEach (fun x => exec (f x)) entries w
  = (fold_left (fun acc x => f x acc) entries w, inr tt).
Proof.
  revert w. induction entries as [|x rest IH]; intros w; simpl.
  - reflexivity.
  - unfold bind, exec at 1. simpl. apply IH.
Qed.

(** ** Finance tables *)

Lemma rows_of_set_rows (tbody : Tbody) (rows : list FinanceRow) (w : World) :
  rows_of tbody (finance_panel (page (set_rows tbody rows w))) = Some rows.
Proof. destruct tbody; reflexivity. Qed.

Lemma set_rows_twice (tbody : Tbody) (rows1 rows2 : list FinanceRow) (w : World) :
  set_rows tbody rows2 (set_rows tbody rows1 w) = set_rows tbody rows2 w.
Proof. destruct tbody; reflexivity. Qed.

Lemma appendChild_rows (tbody : Tbody) (current : option string)
    (entries : list Transaction) (rows : list FinanceRow) (w : World) :
  current_selection w = current ->
  fold_left (fun acc transaction =>
               appendChild tbody
                 (transaction_row (selectedId (finance (state acc))) transaction) acc)
            entries (set_rows tbody rows w)
  = set_rows tbody (rows ++ map (transaction_row current) entries) w.
Proof.
  intros Hsel. revert rows.
  induction entries as [|t rest IH]; intros rows; simpl.
  - rewrite app_nil_r. reflexivity.
  - unfold appendChild at 2. rewrite rows_of_set_rows, set_rows_twice.
    fold (current_selection w). rewrite Hsel.
    rewrite IH, <- app_assoc. reflexivity.
Qed.

(** [renderRows] on a defined list: the body holds the rendered rows and
    nothing else changes. *)
Lemma renderRows_defined (tbody : Tbody) (entries : list Transaction) (w : World) :
  renderRows tbody (Some entries) w
  = (set_rows tbody (rendered_rows (current_selection w) entries) w, inr tt).
Proof.
  unfold renderRows, bind. unfold exec at 1.
  destruct entries as [|t rest].
  - unfold exec, appendChild. rewrite rows_of_set_rows, set_rows_twice. reflexivity.
  - rewrite forEach_exec.
    rewrite (appendChild_rows tbody (current_selection w)) by reflexivity.
    reflexivity.
Qed.

(** A complete render: both bodies in the page, both lists in the snapshot. *)
Lemma renderFinanceTables_defined (s : FinanceSnapshot)
    (incomes outgoings : list Transaction) (w : World) :
  income_body (finance_panel (page w)) <> None ->
  expense_body (finance_panel (page w)) <> None ->
  income s = Some incomes ->
  expenses s = Some outgoings ->
  renderFinanceTables (Some s) w
  = (bindFinanceDuplicateButtons
       (set_rows expenseBody (rendered_rows (current_selection w) outgoings)
          (set_rows incomeBody (rendered_rows (current_selection w) incomes)
             (on_finance (set_snapshot (Some s)) w))),
     inr tt).
Proof.
  intros Hi He Hincomes Houtgoings.
  unfold renderFinanceTables, bind. unfold exec at 1. simpl.
  destruct (income_body (finance_panel (page w))) as [ri|]; [|congruence].
  destruct (expense_body (finance_panel (page w))) as [re|]; [|congruence].
  rewrite Hincomes, Houtgoings.
  rewrite renderRows_defined. rewrite renderRows_defined. reflexivity.
Qed.

Lemma rows_after_render (s : FinanceSnapshot) (incomes outgoings : list Transaction)
    (w : World) :
  income_body (finance_panel (page w)) <> None ->
  expense_body (finance_panel (page w)) <> None ->
  income s = Some incomes ->
  expenses s = Some outgoings ->
  let w' := fst (renderFinanceTables (Some s) w) in
  income_body (finance_panel (page w'))
  = Some (map bound_row (rendered_rows (current_selection w) incomes))
  /\ expense_body (finance_panel (page w'))
     = Some (map bound_row (rendered_rows (current_selection w) outgoings))
  /\ current_selection w' = current_selection w
  /\ snapshot (finance (state w')) = Some s.
Proof.
  intros Hi He Hincomes Houtgoings w'. unfold w'.
  rewrite (renderFinanceTables_defined s incomes outgoings w Hi He Hincomes Houtgoings).
  repeat split.
Qed.

(** C7. A finance table rendered from an empty list holds exactly one row,
    the placeholder with its explanatory text, and that row has no duplicate
    button: so for [renderRows] on either body, and so for each body after a
    complete render of a snapshot. *)
Theorem empty_list_renders_placeholder :
  forall (s : FinanceSnapshot) (incomes outgoings : list Transaction) (w : World),
    income_body (finance_panel (page w)) <> None ->
    expense_body (finance_panel (page w)) <> None ->
    income s = Some incomes ->
    expenses s = Some outgoings ->
    let w' := fst (renderFinanceTables (Some s) w) in
    (incomes = [] -> income_body (finance_panel (page w')) = Some [placeholder_row])
    /\ (outgoings = [] -> expense_body (finance_panel (page w')) = Some [placeholder_row])
    /\ (forall tbody,
          rows_of tbody (finance_panel (page (fst (renderRows tbody (Some []) w))))
          = Some [placeholder_row])
    /\ cells placeholder_row = [Td 6 "No entries recorded yet."]
    /\ duplicate_button (cells placeholder_row) = None.
Proof.
  intros s incomes outgoings w Hi He Hincomes Houtgoings w'.
  destruct (rows_after_render s incomes outgoings w Hi He Hincomes Houtgoings)
    as [Hrows_i [Hrows_e _]].
  fold w' in Hrows_i, Hrows_e.
  split; [|split; [|split; [|split]]].
  - intros ->. exact Hrows_i.
  - intros ->. exact Hrows_e.
  - intros tbody. rewrite renderRows_defined. simpl. apply rows_of_set_rows.
  - reflexivity.
  - reflexivity.
Qed.

(** ** Finance selection *)

Lemma write_finance_output_spec (text : string) (w : World) :
  state (write_finance_output text w) = state w
  /\ network (write_finance_output text w) = network w
  /\ logPanel (write_finance_output text w) = logPanel w
  /\ finance_output (finance_panel (page (write_finance_output text w)))
     = option_map (fun _ => text) (finance_output (finance_panel (page w)))
  /\ finance_duplicate_form (finance_panel (page (write_finance_output text w)))
     = finance_duplicate_form (finance_panel (page w))
  /\ finance_selection_summary (finance_panel (page (write_finance_output text w)))
     = finance_selection_summary (finance_panel (page w))
  /\ finance_rows (write_finance_output text w) = finance_rows w.
Proof.
  unfold write_finance_output.
  destruct (finance_output (finance_panel (page w))) eqn:Hout; simpl;
    rewrite ?Hout; repeat split.
Qed.

(** C5. Submitting the duplicate form while its source transaction field is
    empty sends nothing: the network trace is as before, the script state
    (finance snapshot and selection with it) is as before, and the finance
    output area, where the page has one, shows the guidance message. *)
Theorem submitFinanceDuplicate_without_selection :
  forall (w : World) (form : FormElement),
    finance_duplicate_form (finance_panel (page w)) = Some form ->
    source_transaction_id (controls form) = "" ->
    let w' := submitFinanceDuplicate w in
    network w' = network w
    /\ state w' = state w
    /\ finance_rows w' = finance_rows w
    /\ finance_duplicate_form (finance_panel (page w')) = Some form
    /\ finance_output (finance_panel (page w'))
       = option_map (fun _ => "Choose an entry to duplicate before submitting.")
           (finance_output (finance_panel (page w)))
    /\ w' = write_finance_output "Choose an entry to duplicate before submitting." w.
Proof.
  intros w form Hform Hempty w'.
  assert (Hw' : w' = write_finance_output
                       "Choose an entry to duplicate before submitting." w).
  { unfold w', submitFinanceDuplicate. rewrite Hform, Hempty. reflexivity. }
  rewrite Hw'.
  destruct (write_finance_output_spec
              "Choose an entry to duplicate before submitting." w)
    as [Hs [Hn [_ [Ho [Hf [_ Hr]]]]]].
  repeat split; try assumption.
  rewrite Hf. exact Hform.
Qed.

Lemma find_some_iff {A : Type} (test : A -> bool) (entries : list A) (x : A) :
  find test entries = Some x <->
  exists before after,
    entries = (before ++ x :: after)%list
    /\ test x = true
    /\ forall y, In y before -> test y = false.
Proof.
  induction entries as [|a rest IH]; simpl.
  - split; [discriminate|].
    intros [before [after [Hsplit _]]]. destruct before; discriminate.
  - destruct (test a) eqn:Ha.
    + split.
      * intros Heq. injection Heq as <-. exists [], rest.
        split; [reflexivity|]. split; [exact Ha|]. intros y [].
      * intros [before [after [Hsplit [Hx Hbefore]]]].
        destruct before as [|b before]; simpl in Hsplit; injection Hsplit as Hhead _.
        -- rewrite Hhead. reflexivity.
        -- subst b. rewrite (Hbefore a (or_introl eq_refl)) in Ha. discriminate.
    + rewrite IH. split.
      * intros [before [after [Hsplit [Hx Hbefore]]]].
        exists (a :: before), after. split; [rewrite Hsplit; reflexivity|].
        split; [exact Hx|]. intros y [<- | Hy]; [exact Ha | apply Hbefore, Hy].
      * intros [before [after [Hsplit [Hx Hbefore]]]].
        destruct before as [|b before]; simpl in Hsplit; injection Hsplit as Hhead Htail.
        -- subst a. rewrite Hx in Ha. discriminate.
        -- exists before, after. split; [exact Htail|]. split; [exact Hx|].
           intros y Hy. apply Hbefore. right. exact Hy.
Qed.

Lemma find_none_iff {A : Type} (test : A -> bool) (entries : list A) :
  find test entries = None <-> forall y, In y entries -> test y = false.
Proof.
  induction entries as [|a rest IH]; simpl.
  - split; [intros _ y [] | reflexivity].
  - destruct (test a) eqn:Ha.
    + split; [discriminate|]. intros Hall.
      rewrite (Hall a (or_introl eq_refl)) in Ha. discriminate.
    + rewrite IH. split.
      * intros Hall y [<- | Hy]; [exact Ha | apply Hall, Hy].
      * intros Hall y Hy. apply Hall. right. exact Hy.
Qed.

(** C9. With both lists of the current snapshot in place,
    [findFinanceTransaction] returns the first transaction of income followed
    by expenses that carries the identifier, and [null] exactly when none
    does; in that case the listener of a duplicate button, and a click on any
    button carrying that identifier, leave the whole world (form, selection
    and summary with it) as it was. *)
Theorem findFinanceTransaction_first_match :
  forall (id : string) (w : World) (s : FinanceSnapshot)
         (incomes outgoings : list Transaction),
    snapshot (finance (state w)) = Some s ->
    income s = Some incomes ->
    expenses s = Some outgoings ->
    (forall found,
        findFinanceTransaction id w = inr (Some found) <->
        exists before after,
          (incomes ++ outgoings)%list = (before ++ found :: after)%list
          /\ transaction_id found = id
          /\ forall other, In other before -> transaction_id other <> id)
    /\ (findFinanceTransaction id w = inr None <->
        forall other, In other (incomes ++ outgoings)%list -> transaction_id other <> id)
    /\ ((forall other, In other (incomes ++ outgoings)%list -> transaction_id other <> id) ->
        duplicate_listener id w = (w, inr tt)
        /\ forall tbody index rows row n,
             rows_of tbody (finance_panel (page w)) = Some rows ->
             nth_error rows index = Some row ->
             duplicate_button (cells row) = Some (id, n) ->
             duplicate_click tbody index w = w).
Proof.
  intros id w s incomes outgoings Hsnap Hincomes Houtgoings.
  set (test := fun entry : Transaction => String.eqb (transaction_id entry) id).
  assert (Hfind : findFinanceTransaction id w
                  = inr (find test (incomes ++ outgoings)%list)).
  { unfold findFinanceTransaction. rewrite Hsnap, Hincomes, Houtgoings. reflexivity. }
  assert (Hfalse : forall t, test t = false <-> transaction_id t <> id).
  { intros t. unfold test. apply String.eqb_neq. }
  assert (Htrue : forall t, test t = true <-> transaction_id t = id).
  { intros t. unfold test. apply String.eqb_eq. }
  assert (Hnone : findFinanceTransaction id w = inr None <->
                  forall other, In other (incomes ++ outgoings)%list ->
                                transaction_id other <> id).
  { rewrite Hfind. split.
    - intros Heq other Hin. injection Heq as Heq.
      apply Hfalse. apply (proj1 (find_none_iff test _) Heq). exact Hin.
    - intros Hall. f_equal. apply find_none_iff.
      intros y Hy. apply Hfalse, Hall, Hy. }
  split; [|split; [exact Hnone|]].
  - intros found. rewrite Hfind. split.
    + intros Heq. injection Heq as Heq.
      apply find_some_iff in Heq. destruct Heq as [before [after [Hsplit [Hx Hbefore]]]].
      exists before, after. split; [exact Hsplit|]. split; [apply Htrue, Hx|].
      intros other Hin. apply Hfalse, Hbefore, Hin.
    + intros [before [after [Hsplit [Hid Hbefore]]]].
      f_equal. apply find_some_iff. exists before, after.
      split; [exact Hsplit|]. split; [apply Htrue, Hid|].
      intros y Hy. apply Hfalse, Hbefore, Hy.
  - intros Hall. apply Hnone in Hall.
    assert (Hlisten : duplicate_listener id w = (w, inr tt)).
    { unfold duplicate_listener. rewrite Hall. reflexivity. }
    split; [exact Hlisten|].
    intros tbody index rows row n Hrows Hrow Hbutton.
    unfold duplicate_click. rewrite Hrows, Hrow, Hbutton. clear Hbutton.
    induction n as [|n IHn]; simpl.
    + reflexivity.
    + rewrite IHn. unfold dispatch. rewrite Hlisten. reflexivity.
Qed.

(** ** What each listener leaves alone *)

Lemma kept_appendLog (text : string) : preserves kept (appendLog text).
Proof. intros w. reflexivity. Qed.

Lemma kept_profile_click : preserves kept profile_click.
Proof. intros w. reflexivity. Qed.

Lemma kept_toggleMap (provider : string) : preserves kept (dispatch (toggleMap provider)).
Proof.
  intros w. unfold dispatch, toggleMap, bind, exec, toggle_hidden. simpl.
  destruct (leaflet_map_element (page w)); [|reflexivity]. simpl.
  destruct (google_map_element (page w)); reflexivity.
Qed.

Lemma kept_setDrawnGeometry (geojson : json) : preserves kept (setDrawnGeometry geojson).
Proof. intros w. reflexivity. Qed.

Lemma kept_leaflet_created (geojson : json) : preserves kept (leaflet_created geojson).
Proof. intros w. reflexivity. Qed.

Lemma kept_leaflet_edited (layers : list json) : preserves kept (leaflet_edited layers).
Proof.
  apply (preserves_fold_left kept (fun acc geojson => setDrawnGeometry geojson acc)).
  intros geojson. apply kept_setDrawnGeometry.
Qed.

Lemma kept_overlaycomplete (drawn : DrawnOverlay) :
  preserves kept (dispatch (overlaycomplete drawn)).
Proof.
  intros w. unfold dispatch, overlaycomplete, bind, exec. simpl.
  destruct (polygon (google (state w))); destruct drawn as [bounds | [|first path]];
    reflexivity.
Qed.

Lemma kept_fetch (address verb : string) (data : option FormData) :
  preserves kept (fetch address verb data).
Proof. intros w. reflexivity. Qed.

Lemma kept_write_output (area : OutputArea) (text : string) :
  preserves kept (write_output area text).
Proof. intros w. reflexivity. Qed.

Lemma kept_print_settled (area : OutputArea) (action : string) (settled : fetched json) :
  preserves kept (print_settled area action settled).
Proof.
  intros w. unfold print_settled.
  destruct (safeJsonFetch settled); apply kept_write_output.
Qed.

Lemma kept_submitRoute (entries : FormData) : preserves kept (submitRoute entries).
Proof. intros w. unfold submitRoute. apply kept_fetch. Qed.

Lemma kept_submitAnnotation_settled (settled : fetched json) :
  preserves kept (submitAnnotation_settled settled).
Proof.
  intros w. unfold submitAnnotation_settled.
  destruct (safeJsonFetch settled); reflexivity.
Qed.

Lemma kept_updateMapOverlay (capture : SurveyCapture) :
  preserves kept (updateMapOverlay capture).
Proof.
  intros w. unfold updateMapOverlay.
  destruct (leaflet_map (leaflet (state w)));
    match goal with |- context [if ?b then _ else _] => destruct b end; reflexivity.
Qed.

Lemma kept_showSurveyDetails (capture : SurveyCapture) :
  preserves kept (showSurveyDetails capture).
Proof.
  intros w. unfold showSurveyDetails. rewrite kept_updateMapOverlay. reflexivity.
Qed.

Lemma kept_capture_click (index : nat) : preserves kept (capture_click index).
Proof.
  intros w. unfold capture_click.
  destruct (nth_error (survey_days (survey_panel (page w))) index);
    [apply kept_showSurveyDetails | reflexivity].
Qed.

Lemma kept_set_rows (tbody : Tbody) (rows : list FinanceRow) :
  preserves kept (set_rows tbody rows).
Proof. intros w. destruct tbody; reflexivity. Qed.

Lemma kept_appendChild (tbody : Tbody) (row : FinanceRow) :
  preserves kept (appendChild tbody row).
Proof.
  intros w. unfold appendChild.
  destruct (rows_of tbody (finance_panel (page w))); [apply kept_set_rows | reflexivity].
Qed.

Lemma kept_renderRows (tbody : Tbody) (entries : option (list Transaction)) :
  preservesM kept (renderRows tbody entries).
Proof.
  unfold renderRows. apply preservesM_bind.
  - apply preservesM_exec, kept_set_rows.
  - intros _. destruct entries as [[|t rest]|].
    + apply preservesM_exec, kept_appendChild.
    + apply preservesM_forEach. intros transaction. apply preservesM_exec.
      intros w. apply kept_appendChild.
    + apply preservesM_throw.
Qed.

Lemma kept_renderFinanceTables (received : option FinanceSnapshot) :
  preservesM kept (renderFinanceTables received).
Proof.
  unfold renderFinanceTables. apply preservesM_bind.
  - apply preservesM_exec. intros w. reflexivity.
  - intros _ w.
    destruct (income_body (finance_panel (page w))); [|reflexivity].
    destruct (expense_body (finance_panel (page w))); [|reflexivity].
    destruct received as [s|]; [|reflexivity].
    apply (preservesM_bind kept); [apply kept_renderRows|].
    intros _. apply preservesM_bind; [apply kept_renderRows|].
    intros _. apply preservesM_exec. intros w'. reflexivity.
Qed.

Lemma kept_write_finance_output (text : string) :
  preserves kept (write_finance_output text).
Proof.
  intros w. unfold write_finance_output.
  destruct (finance_output (finance_panel (page w))); reflexivity.
Qed.

Lemma kept_loadFinanceTransactions_settled (settled : fetched FinanceSnapshot) :
  preserves kept (loadFinanceTransactions_settled settled).
Proof.
  unfold loadFinanceTransactions_settled. apply preserves_try_catch.
  - destruct (safeJsonFetch settled);
      [apply preservesM_throw | apply kept_renderFinanceTables].
  - intros e. apply kept_write_finance_output.
Qed.

Lemma kept_finance_form_input (typed : FinanceForm) :
  preserves kept (finance_form_input typed).
Proof.
  intros w. unfold finance_form_input.
  destruct (finance_duplicate_form (finance_panel (page w))); reflexivity.
Qed.

Lemma kept_submitFinanceDuplicate : preserves kept submitFinanceDuplicate.
Proof.
  intros w. unfold submitFinanceDuplicate.
  destruct (finance_duplicate_form (finance_panel (page w))) as [form|]; [|reflexivity].
  destruct (string_truthy (source_transaction_id (controls form)));
    [apply kept_fetch | apply kept_write_finance_output].
Qed.

Lemma kept_submitFinanceDuplicate_settled (settled : fetched DuplicatePayload) :
  preserves kept (submitFinanceDuplicate_settled settled).
Proof.
  intros w. unfold submitFinanceDuplicate_settled.
  destruct (finance_duplicate_form (finance_panel (page w))) as [form|]; [|reflexivity].
  apply preserves_try_catch.
  - destruct (safeJsonFetch settled) as [error | payload]; [apply preservesM_throw|].
    apply preservesM_bind; [apply kept_renderFinanceTables|].
    intros _. apply preservesM_bind; [apply preservesM_exec, kept_write_finance_output|].
    intros _. apply preservesM_exec. intros w'.
    destruct (finance_duplicate_form (finance_panel (page w')));
      [apply kept_appendLog | reflexivity].
  - intros e. apply kept_write_finance_output.
Qed.

(** Every event but a settled survey request and the two selection clicks. *)
Lemma kept_step (e : Event) (w : World) :
  selects e = false ->
  (forall settled, e <> SurveyDaysSettled settled) ->
  kept (step e w) = kept w.
Proof.
  intros Hselects Hsurvey. destruct e; simpl in Hselects; try discriminate; simpl.
  - apply kept_profile_click.
  - apply kept_toggleMap.
  - destruct (draw_listeners (leaflet (state w))); [apply kept_leaflet_created | reflexivity].
  - destruct (draw_listeners (leaflet (state w))); [apply kept_leaflet_edited | reflexivity].
  - destruct (draw_listeners (leaflet (state w))); [apply kept_setDrawnGeometry | reflexivity].
  - destruct (drawingManager (google (state w))); [apply kept_overlaycomplete | reflexivity].
  - apply kept_submitRoute.
  - apply kept_print_settled.
  - apply kept_fetch.
  - apply kept_print_settled.
  - apply kept_fetch.
  - apply kept_print_settled.
  - apply kept_fetch.
  - apply kept_print_settled.
  - apply kept_fetch.
  - apply kept_submitAnnotation_settled.
  - exfalso. apply (Hsurvey settled). reflexivity.
  - apply kept_capture_click.
  - apply kept_loadFinanceTransactions_settled.
  - apply kept_finance_form_input.
  - apply kept_submitFinanceDuplicate.
  - apply kept_submitFinanceDuplicate_settled.
Qed.

(** ** The selection across renders *)

Lemma same_id_true (a b : option string) :
  same_id a b = true <-> exists id, a = Some id /\ b = Some id.
Proof.
  destruct a as [x|], b as [y|]; simpl.
  - rewrite String.eqb_eq. split.
    + intros ->. exists y. split; reflexivity.
    + intros [id [Hx Hy]]. congruence.
  - split; [discriminate | intros [id [_ H]]; discriminate].
  - split; [discriminate | intros [id [H _]]; discriminate].
  - split; [discriminate | intros [id [H _]]; discriminate].
Qed.

Lemma highlight_rendered (current : option string) (entries : list Transaction) :
  highlight_matches current (map bound_row (rendered_rows current entries)).
Proof.
  intros row Hin. apply in_map_iff in Hin. destruct Hin as [r [<- Hr]].
  destruct entries as [|t rest].
  - destruct Hr as [<- | []]. simpl.
    split; [discriminate | intros [id [H _]]; discriminate].
  - unfold rendered_rows in Hr. apply in_map_iff in Hr. destruct Hr as [t' [<- _]].
    simpl. rewrite same_id_true. split.
    + intros [id [Hc Hid]]. exists id. split; [exact Hid | exact Hc].
    + intros [id [Hid Hc]]. exists id. split; [exact Hc | exact Hid].
Qed.

Lemma highlight_matches_app (current : option string) (rows1 rows2 : list FinanceRow) :
  highlight_matches current rows1 -> highlight_matches current rows2 ->
  highlight_matches current (rows1 ++ rows2).
Proof.
  intros H1 H2 row Hin. apply in_app_or in Hin. destruct Hin; [apply H1 | apply H2]; assumption.
Qed.

(** After a complete render the two bodies hold the rendered rows, the
    selection is the one found before, and the highlighting matches it. *)
Lemma render_keeps_selection (s : FinanceSnapshot) (incomes outgoings : list Transaction)
    (w : World) :
  income_body (finance_panel (page w)) <> None ->
  expense_body (finance_panel (page w)) <> None ->
  income s = Some incomes ->
  expenses s = Some outgoings ->
  let w' := fst (renderFinanceTables (Some s) w) in
  current_selection w' = current_selection w
  /\ finance_rows w'
     = (map bound_row (rendered_rows (current_selection w) incomes)
        ++ map bound_row (rendered_rows (current_selection w) outgoings))%list
  /\ highlight_matches (current_selection w') (finance_rows w').
Proof.
  intros Hi He Hincomes Houtgoings w'.
  destruct (rows_after_render s incomes outgoings w Hi He Hincomes Houtgoings)
    as [Hrows_i [Hrows_e [Hsel _]]].
  fold w' in Hrows_i, Hrows_e, Hsel.
  assert (Hrows : finance_rows w'
                  = (map bound_row (rendered_rows (current_selection w) incomes)
                     ++ map bound_row (rendered_rows (current_selection w) outgoings))%list).
  { unfold finance_rows. rewrite Hrows_i, Hrows_e. reflexivity. }
  split; [exact Hsel|]. split; [exact Hrows|].
  rewrite Hrows, Hsel. apply highlight_matches_app; apply highlight_rendered.
Qed.

Lemma selection_renderSurveyList (captures : option (list SurveyCapture)) :
  preservesM current_selection (renderSurveyList captures).
Proof.
  unfold renderSurveyList. apply preservesM_bind.
  - apply preservesM_exec. intros w. reflexivity.
  - intros _. destruct captures as [entries|]; [|apply preservesM_throw].
    apply preservesM_bind.
    + apply preservesM_forEach. intros capture.
      destruct (parse_has_button (button_markup capture));
        [apply preservesM_exec; intros w; reflexivity | apply preservesM_throw].
    + intros _. apply preservesM_exec. intros w. reflexivity.
Qed.

Section Selects.

Context {X : Type} (obs : World -> X).
Hypothesis obs_base : forall options, preserves obs (on_survey_panel (set_base_capture_select options)).
Hypothesis obs_target : forall options, preserves obs (on_survey_panel (set_target_capture_select options)).

Lemma preservesM_populateSurveySelects (captures : option (list SurveyCapture)) :
  preservesM obs (populateSurveySelects captures).
Proof.
  unfold populateSurveySelects. apply preservesM_bind.
  - apply preservesM_exec, obs_base.
  - intros _. destruct captures as [entries|]; [|apply preservesM_throw].
    apply preservesM_bind.
    + apply preservesM_forEach. intros capture. apply preservesM_exec.
      intros w. apply (obs_base _ w).
    + intros _. apply preservesM_bind.
      * apply preservesM_exec, obs_target.
      * intros _. apply preservesM_forEach. intros capture. apply preservesM_exec.
        intros w. apply (obs_target _ w).
Qed.

End Selects.

Lemma selection_loadSurveyDays_settled (settled : fetched CapturesPayload) :
  preserves current_selection (loadSurveyDays_settled settled).
Proof.
  unfold loadSurveyDays_settled. apply preserves_try_catch.
  - destruct (safeJsonFetch settled) as [error | payload]; [apply preservesM_throw|].
    apply preservesM_bind; [apply preservesM_exec; intros w; reflexivity|].
    intros _. apply preservesM_bind.
    + apply (preservesM_reading current_selection
               (fun w0 => renderSurveyList (surveyCaptures (state w0)))).
      intros w0. apply selection_renderSurveyList.
    + intros _.
      apply (preservesM_reading current_selection
               (fun w0 => populateSurveySelects (surveyCaptures (state w0)))).
      intros w0. apply preservesM_populateSurveySelects; intros options w; reflexivity.
  - intros e w. reflexivity.
Qed.

Lemma selection_step (e : Event) (w : World) :
  selects e = false -> current_selection (step e w) = current_selection w.
Proof.
  intros Hselects.
  assert (Hkept : (forall settled, e <> SurveyDaysSettled settled) ->
                  current_selection (step e w) = current_selection w).
  { intros Hsurvey. pose proof (kept_step e w Hselects Hsurvey) as Hk.
    unfold kept in Hk. congruence. }
  destruct e; try (apply Hkept; intros; discriminate).
  apply selection_loadSurveyDays_settled.
Qed.

Lemma finance_rows_appendLog (text : string) (w : World) :
  finance_rows (appendLog text w) = finance_rows w.
Proof. reflexivity. Qed.

(** A settled duplication whose render completes: the output shows the new
    transaction and the log records the duplication. *)
Lemma submitFinanceDuplicate_settled_rendered (status : N) (payload : DuplicatePayload)
    (form : FormElement) (w rendered : World) :
  finance_duplicate_form (finance_panel (page w)) = Some form ->
  renderFinanceTables (duplicated_snapshot payload) w = (rendered, inr tt) ->
  let shown := write_finance_output
                 match duplicated_transaction payload with
                 | Some j => stringify_pretty j
                 | None => ""
                 end rendered in
  submitFinanceDuplicate_settled (Responded (Ok_ status (Some payload))) w
  = match finance_duplicate_form (finance_panel (page shown)) with
    | Some form' =>
        appendLog ("Duplicated transaction "
                     ++ source_transaction_id (controls form') ++ ".") shown
    | None => shown
    end.
Proof.
  intros Hform Hrender shown.
  unfold submitFinanceDuplicate_settled. rewrite Hform.
  unfold try_catch, bind. cbn [safeJsonFetch]. rewrite Hrender. reflexivity.
Qed.

(** The render that follows a successful duplication. *)
Lemma duplicate_settled_keeps_selection (status : N) (raw : value) (s : FinanceSnapshot)
    (incomes outgoings : list Transaction) (w : World) :
  finance_duplicate_form (finance_panel (page w)) <> None ->
  income_body (finance_panel (page w)) <> None ->
  expense_body (finance_panel (page w)) <> None ->
  income s = Some incomes ->
  expenses s = Some outgoings ->
  let w' := submitFinanceDuplicate_settled
              (Responded (Ok_ status (Some {| duplicated_transaction := raw;
                                              duplicated_snapshot := Some s |}))) w in
  current_selection w' = current_selection w
  /\ snapshot (finance (state w')) = Some s
  /\ finance_rows w'
     = (map bound_row (rendered_rows (current_selection w) incomes)
        ++ map bound_row (rendered_rows (current_selection w) outgoings))%list
  /\ highlight_matches (current_selection w') (finance_rows w').
Proof.
  intros Hform Hi He Hincomes Houtgoings w'.
  destruct (render_keeps_selection s incomes outgoings w Hi He Hincomes Houtgoings)
    as [Hsel [Hrows Hmatch]].
  destruct (rows_after_render s incomes outgoings w Hi He Hincomes Houtgoings)
    as [_ [_ [_ Hsnap]]].
  pose proof (renderFinanceTables_defined s incomes outgoings w Hi He Hincomes Houtgoings)
    as Hrender.
  remember (fst (renderFinanceTables (Some s) w)) as rendered eqn:Hrendered.
  assert (Hrun : renderFinanceTables (Some s) w = (rendered, inr tt)).
  { rewrite Hrendered, Hrender. reflexivity. }
  destruct (finance_duplicate_form (finance_panel (page w))) as [form|] eqn:Hpresent;
    [|congruence].
  pose proof (submitFinanceDuplicate_settled_rendered status
                {| duplicated_transaction := raw; duplicated_snapshot := Some s |}
                form w rendered Hpresent Hrun) as Hw'.
  cbv zeta in Hw'. fold w' in Hw'. simpl duplicated_transaction in Hw'.
  set (text := match raw with Some j => stringify_pretty j | None => "" end) in Hw'.
  destruct (write_finance_output_spec text rendered)
    as [Hstate [_ [_ [_ [_ [_ Hkeeprows]]]]]].
  assert (Hfinal : state w' = state rendered /\ finance_rows w' = finance_rows rendered).
  { rewrite Hw'.
    destruct (finance_duplicate_form
                (finance_panel (page (write_finance_output text rendered)))).
    - rewrite finance_rows_appendLog, appendLog_state. split; assumption.
    - split; assumption. }
  destruct Hfinal as [Hf1 Hf2].
  unfold current_selection in *. rewrite Hf1, Hf2.
  split; [exact Hsel|]. split; [exact Hsnap|]. split; [exact Hrows | exact Hmatch].
Qed.

Lemma prepareFinanceForm_selects (transaction : Transaction) (w : World) :
  finance_duplicate_form (finance_panel (page w)) <> None ->
  current_selection (prepareFinanceForm transaction w)
  = Some (transaction_id transaction).
Proof.
  intros Hform. unfold prepareFinanceForm.
  destruct (finance_duplicate_form (finance_panel (page w))); [|congruence].
  unfold updateFinanceSelectionSummary. simpl.
  destruct (finance_selection_summary (finance_panel (page w))); reflexivity.
Qed.

Lemma clearFinanceSelection_clears (w : World) :
  finance_duplicate_form (finance_panel (page w)) <> None ->
  current_selection (clearFinanceSelection w) = None.
Proof.
  intros Hform. unfold clearFinanceSelection.
  destruct (finance_duplicate_form (finance_panel (page w))); [|congruence].
  unfold updateFinanceSelectionSummary. simpl.
  destruct (finance_selection_summary (finance_panel (page w))); reflexivity.
Qed.

Lemma rendered_row_pinned (current : option string) (entries : list Transaction)
    (index : nat) (transaction : Transaction) :
  nth_error entries index = Some transaction ->
  exists row,
    nth_error (map bound_row (rendered_rows current entries)) index = Some row
    /\ dataset_transactionId row = Some (transaction_id transaction)
    /\ (selected row = true <-> current = Some (transaction_id transaction)).
Proof.
  intros Hnth. exists (bound_row (transaction_row current transaction)).
  split; [|split].
  - destruct entries as [|t rest]; [destruct index; discriminate|].
    unfold rendered_rows. rewrite !nth_error_map, Hnth. reflexivity.
  - reflexivity.
  - simpl. rewrite same_id_true. split.
    + intros [id [Hc Hid]]. congruence.
    + intros Hc. exists (transaction_id transaction). split; [exact Hc | reflexivity].
Qed.

Lemma rendered_rows_length (current : option string) (entries : list Transaction) :
  length (map bound_row (rendered_rows current entries)) = Nat.max 1 (length entries).
Proof.
  destruct entries as [|t rest]; [reflexivity|].
  unfold rendered_rows. rewrite !length_map. reflexivity.
Qed.

Lemma rows_of_write_finance_output (tbody : Tbody) (text : string) (w : World) :
  rows_of tbody (finance_panel (page (write_finance_output text w)))
  = rows_of tbody (finance_panel (page w)).
Proof.
  unfold write_finance_output.
  destruct (finance_output (finance_panel (page w))); destruct tbody; reflexivity.
Qed.

(** The bodies after the render that follows a successful duplication. *)
Lemma duplicate_settled_rows (status : N) (raw : value) (s : FinanceSnapshot)
    (incomes outgoings : list Transaction) (tbody : Tbody) (w : World) :
  finance_duplicate_form (finance_panel (page w)) <> None ->
  income_body (finance_panel (page w)) <> None ->
  expense_body (finance_panel (page w)) <> None ->
  income s = Some incomes ->
  expenses s = Some outgoings ->
  rows_of tbody
    (finance_panel
       (page (submitFinanceDuplicate_settled
                (Responded (Ok_ status (Some {| duplicated_transaction := raw;
                                                duplicated_snapshot := Some s |}))) w)))
  = rows_of tbody (finance_panel (page (fst (renderFinanceTables (Some s) w)))).
Proof.
  intros Hform Hi He Hincomes Houtgoings.
  pose proof (renderFinanceTables_defined s incomes outgoings w Hi He Hincomes Houtgoings)
    as Hrender.
  remember (fst (renderFinanceTables (Some s) w)) as rendered eqn:Hrendered.
  assert (Hrun : renderFinanceTables (Some s) w = (rendered, inr tt)).
  { rewrite Hrendered, Hrender. reflexivity. }
  destruct (finance_duplicate_form (finance_panel (page w))) as [form|] eqn:Hpresent;
    [|congruence].
  rewrite (submitFinanceDuplicate_settled_rendered status
             {| duplicated_transaction := raw; duplicated_snapshot := Some s |}
             form w rendered Hpresent Hrun).
  cbv zeta.
  match goal with
  | |- context [write_finance_output ?text rendered] =>
      destruct (finance_duplicate_form
                  (finance_panel (page (write_finance_output text rendered))));
      [change (page (appendLog ?t ?x)) with (page x)|];
      apply rows_of_write_finance_output
  end.
Qed.

(** C6. No event other than a click on a duplicate button or on the clear
    button changes the selected identifier, and a render of the finance
    tables never does.  After a complete render, the one that follows a
    successful duplication included, every transaction has its row at its
    own place in its table, carrying its identifier, and that row has the
    [selected] class exactly when the identifier is the selected one; each
    body holds nothing but these rows (or the placeholder row for an empty
    list), and no other row of the panel has the class. *)
Theorem selection_survives_rerender :
  (forall (e : Event) (w : World),
      selects e = false -> current_selection (step e w) = current_selection w)
  /\ (forall (received : option FinanceSnapshot) (w : World),
        current_selection (fst (renderFinanceTables received w)) = current_selection w)
  /\ (forall (s : FinanceSnapshot) (incomes outgoings : list Transaction) (w : World),
        income_body (finance_panel (page w)) <> None ->
        expense_body (finance_panel (page w)) <> None ->
        income s = Some incomes ->
        expenses s = Some outgoings ->
        let w' := fst (renderFinanceTables (Some s) w) in
        (forall tbody index transaction,
            nth_error (entries_of tbody incomes outgoings) index = Some transaction ->
            exists row,
              option_map (fun rows => nth_error rows index)
                (rows_of tbody (finance_panel (page w'))) = Some (Some row)
              /\ dataset_transactionId row = Some (transaction_id transaction)
              /\ (selected row = true
                  <-> current_selection w = Some (transaction_id transaction)))
        /\ (forall tbody,
              option_map (@length FinanceRow) (rows_of tbody (finance_panel (page w')))
              = Some (Nat.max 1 (length (entries_of tbody incomes outgoings))))
        /\ finance_rows w'
           = (map bound_row (rendered_rows (current_selection w) incomes)
              ++ map bound_row (rendered_rows (current_selection w) outgoings))%list
        /\ highlight_matches (current_selection w') (finance_rows w'))
  /\ (forall (status : N) (raw : value) (s : FinanceSnapshot)
             (incomes outgoings : list Transaction) (w : World),
        finance_duplicate_form (finance_panel (page w)) <> None ->
        income_body (finance_panel (page w)) <> None ->
        expense_body (finance_panel (page w)) <> None ->
        income s = Some incomes ->
        expenses s = Some outgoings ->
        let w' := submitFinanceDuplicate_settled
                    (Responded (Ok_ status (Some {| duplicated_transaction := raw;
                                                    duplicated_snapshot := Some s |}))) w in
        current_selection w' = current_selection w
        /\ (forall tbody index transaction,
              nth_error (entries_of tbody incomes outgoings) index = Some transaction ->
              exists row,
                option_map (fun rows => nth_error rows index)
                  (rows_of tbody (finance_panel (page w'))) = Some (Some row)
                /\ dataset_transactionId row = Some (transaction_id transaction)
                /\ (selected row = true
                    <-> current_selection w = Some (transaction_id transaction)))
        /\ (forall tbody,
              option_map (@length FinanceRow) (rows_of tbody (finance_panel (page w')))
              = Some (Nat.max 1 (length (entries_of tbody incomes outgoings))))
        /\ highlight_matches (current_selection w') (finance_rows w')).
Proof.
  assert (Hbodies : forall (s : FinanceSnapshot) (incomes outgoings : list Transaction)
                           (w : World) (tbody : Tbody),
             income_body (finance_panel (page w)) <> None ->
             expense_body (finance_panel (page w)) <> None ->
             income s = Some incomes ->
             expenses s = Some outgoings ->
             rows_of tbody (finance_panel (page (fst (renderFinanceTables (Some s) w))))
             = Some (map bound_row
                       (rendered_rows (current_selection w)
                          (entries_of tbody incomes outgoings)))).
  { intros s incomes outgoings w tbody Hi He Hincomes Houtgoings.
    destruct (rows_after_render s incomes outgoings w Hi He Hincomes Houtgoings)
      as [Hrows_i [Hrows_e _]].
    destruct tbody; assumption. }
  split; [exact selection_step|]. split; [|split].
  - intros received w.
    pose proof (kept_renderFinanceTables received w) as Hk. unfold kept in Hk. congruence.
  - intros s incomes outgoings w Hi He Hincomes Houtgoings w'.
    destruct (render_keeps_selection s incomes outgoings w Hi He Hincomes Houtgoings)
      as [_ [Hrows Hmatch]].
    split; [|split; [|split; assumption]].
    + intros tbody index transaction Hnth. unfold w'.
      rewrite (Hbodies s incomes outgoings w tbody Hi He Hincomes Houtgoings).
      destruct (rendered_row_pinned (current_selection w) _ index transaction Hnth)
        as [row [Hrow Hpinned]].
      exists row. split; [simpl; rewrite Hrow; reflexivity | exact Hpinned].
    + intros tbody. unfold w'.
      rewrite (Hbodies s incomes outgoings w tbody Hi He Hincomes Houtgoings).
      simpl. rewrite rendered_rows_length. reflexivity.
  - intros status raw s incomes outgoings w Hform Hi He Hincomes Houtgoings w'.
    destruct (duplicate_settled_keeps_selection status raw s incomes outgoings w
                Hform Hi He Hincomes Houtgoings) as [Hsel [_ [_ Hmatch]]].
    split; [exact Hsel|]. split; [|split; [|exact Hmatch]].
    + intros tbody index transaction Hnth. unfold w'.
      rewrite (duplicate_settled_rows status raw s incomes outgoings tbody w
                 Hform Hi He Hincomes Houtgoings).
      rewrite (Hbodies s incomes outgoings w tbody Hi He Hincomes Houtgoings).
      destruct (rendered_row_pinned (current_selection w) _ index transaction Hnth)
        as [row [Hrow Hpinned]].
      exists row. split; [simpl; rewrite Hrow; reflexivity | exact Hpinned].
    + intros tbody. unfold w'.
      rewrite (duplicate_settled_rows status raw s incomes outgoings tbody w
                 Hform Hi He Hincomes Houtgoings).
      rewrite (Hbodies s incomes outgoings w tbody Hi He Hincomes Houtgoings).
      simpl. rewrite rendered_rows_length. reflexivity.
Qed.

(** ** The survey list and the stored collection *)

Lemma survey_days_appended (entries : list SurveyCapture) (days : list CaptureButton)
    (w : World) :
  forEach (fun capture =>
             if parse_has_button (button_markup capture)
             then exec (on_survey_panel
                          (fun p => set_survey_days
                                      (survey_days p ++ [capture_button capture]) p))
             else throw (TypeError "read property addEventListener of null"))
          entries (on_survey_panel (set_survey_days days) w)
  = (on_survey_panel (set_survey_days (days ++ rendered_items entries)) w,
     if buttons_found entries then inr tt
     else inl (TypeError "read property addEventListener of null")).
Proof.
  revert days. induction entries as [|capture rest IH]; intros days; simpl.
  - rewrite app_nil_r. reflexivity.
  - unfold bind. destruct (parse_has_button (button_markup capture)); simpl.
    + unfold exec at 1.
      change (on_survey_panel
                (fun p => set_survey_days (survey_days p ++ [capture_button capture]) p)
                (on_survey_panel (set_survey_days days) w))
        with (on_survey_panel (set_survey_days (days ++ [capture_button capture])) w).
      rewrite IH, <- app_assoc. reflexivity.
    + rewrite app_nil_r. reflexivity.
Qed.

Lemma renderSurveyList_defined (entries : list SurveyCapture) (w : World) :
  renderSurveyList (Some entries) w
  = if buttons_found entries
    then (appendLog "Survey list rendered."
            (on_survey_panel (set_survey_days (rendered_items entries)) w), inr tt)
    else (on_survey_panel (set_survey_days (rendered_items entries)) w,
          inl (TypeError "read property addEventListener of null")).
Proof.
  unfold renderSurveyList, bind. unfold exec at 1.
  rewrite survey_days_appended.
  destruct (buttons_found entries); reflexivity.
Qed.

Lemma rendered_items_complete (entries : list SurveyCapture) :
  buttons_found entries = true -> rendered_items entries = map capture_button entries.
Proof.
  unfold buttons_found.
  induction entries as [|capture rest IH]; simpl; [reflexivity|].
  destruct (parse_has_button (button_markup capture)); simpl; [|discriminate].
  intros Hrest. rewrite IH by exact Hrest. reflexivity.
Qed.

Lemma rendered_items_nth (entries : list SurveyCapture) (index : nat)
    (button : CaptureButton) :
  nth_error (rendered_items entries) index = Some button ->
  nth_error entries index = Some (listener_capture button)
  /\ button = capture_button (listener_capture button).
Proof.
  revert index. induction entries as [|capture rest IH]; intros index; simpl.
  - destruct index; discriminate.
  - destruct (parse_has_button (button_markup capture)).
    + destruct index as [|index]; simpl.
      * intros Heq. injection Heq as <-. split; reflexivity.
      * apply IH.
    + destruct index; discriminate.
Qed.

Lemma rendered_items_length (entries : list SurveyCapture) :
  length (rendered_items entries) <= length entries.
Proof.
  induction entries as [|capture rest IH]; simpl; [lia|].
  destruct (parse_has_button (button_markup capture)); simpl; lia.
Qed.

(** What a settled survey request does to the stored collection and to the
    list: nothing on failure; on success the collection is replaced by the
    received one and the list rebuilt from it. *)
Lemma loadSurveyDays_settled_view (settled : fetched CapturesPayload) (w : World) :
  survey_view (loadSurveyDays_settled settled w)
  = match safeJsonFetch settled with
    | inl _ => survey_view w
    | inr payload =>
        (captures payload,
         rendered_items match captures payload with
                        | Some entries => entries
                        | None => []
                        end)
    end.
Proof.
  unfold loadSurveyDays_settled, try_catch.
  destruct (safeJsonFetch settled) as [error | payload]; [reflexivity|].
  unfold bind. unfold exec at 1.
  set (w1 := on_state (set_surveyCaptures (captures payload)) w).
  change (surveyCaptures (state w1)) with (captures payload).
  destruct (captures payload) as [entries|]; [|reflexivity].
  rewrite renderSurveyList_defined.
  destruct (buttons_found entries); [|reflexivity].
  set (w2 := appendLog "Survey list rendered."
               (on_survey_panel (set_survey_days (rendered_items entries)) w1)).
  pose proof (preservesM_populateSurveySelects survey_view
                (fun options w0 => eq_refl) (fun options w0 => eq_refl)
                (surveyCaptures (state w2)) w2) as Hview.
  destruct (populateSurveySelects (surveyCaptures (state w2)) w2) as [w3 [e | u]];
    simpl in Hview.
  - unfold survey_view in *. rewrite appendLog_state, appendLog_page. exact Hview.
  - exact Hview.
Qed.

Lemma follow_store_view (w w' : World) :
  survey_view w' = survey_view w -> buttons_follow_store w -> buttons_follow_store w'.
Proof.
  unfold survey_view, buttons_follow_store, stored_captures.
  intros Hview Hw. injection Hview as Hc Hd. rewrite Hd, Hc. exact Hw.
Qed.

Lemma kept_view (w w' : World) : kept w' = kept w -> survey_view w' = survey_view w.
Proof. unfold kept, survey_view. intros Hk. injection Hk as _ Hc Hd. congruence. Qed.

Lemma view_highlightFinanceSelection (w : World) :
  survey_view (highlightFinanceSelection w) = survey_view w.
Proof. reflexivity. Qed.

Lemma view_updateFinanceSelectionSummary (transaction : option Transaction) (w : World) :
  survey_view (updateFinanceSelectionSummary transaction w) = survey_view w.
Proof.
  unfold updateFinanceSelectionSummary.
  destruct (finance_selection_summary (finance_panel (page w))); reflexivity.
Qed.

Lemma view_prepareFinanceForm (transaction : Transaction) :
  preserves survey_view (prepareFinanceForm transaction).
Proof.
  intros w. unfold prepareFinanceForm.
  destruct (finance_duplicate_form (finance_panel (page w))); [|reflexivity].
  rewrite view_highlightFinanceSelection, view_updateFinanceSelectionSummary.
  reflexivity.
Qed.

Lemma view_clearFinanceSelection : preserves survey_view clearFinanceSelection.
Proof.
  intros w. unfold clearFinanceSelection.
  destruct (finance_duplicate_form (finance_panel (page w))); [|reflexivity].
  rewrite view_highlightFinanceSelection, view_updateFinanceSelectionSummary.
  reflexivity.
Qed.

Lemma view_duplicate_click (tbody : Tbody) (index : nat) :
  preserves survey_view (duplicate_click tbody index).
Proof.
  intros w. unfold duplicate_click.
  destruct (rows_of tbody (finance_panel (page w))) as [rows|]; [|reflexivity].
  destruct (nth_error rows index) as [row|]; [|reflexivity].
  destruct (duplicate_button (cells row)) as [[id n]|]; [|reflexivity].
  apply preserves_iter. intros w0. unfold dispatch, duplicate_listener.
  destruct (findFinanceTransaction id w0) as [e | [transaction|]];
    [reflexivity | apply view_prepareFinanceForm | reflexivity].
Qed.

Lemma kept_initialiseLeafletMap : preservesM kept initialiseLeafletMap.
Proof.
  intros w. unfold initialiseLeafletMap.
  destruct (leaflet_map_element (page w)); [|reflexivity].
  destruct (leaflet_script (page w)); [|reflexivity].
  destruct (leaflet_draw (page w)); reflexivity.
Qed.

Lemma kept_initialiseGoogleMap : preservesM kept initialiseGoogleMap.
Proof.
  intros w. unfold initialiseGoogleMap.
  destruct (google_map_element (page w)); [|reflexivity].
  destruct (google_script (page w)); [|reflexivity].
  destruct (google_drawing (page w)); reflexivity.
Qed.

Lemma kept_DOMContentLoaded : preserves kept DOMContentLoaded.
Proof.
  unfold DOMContentLoaded. apply preserves_dispatch.
  apply preservesM_bind; [apply kept_initialiseLeafletMap|]. intros _.
  apply preservesM_bind; [apply kept_initialiseGoogleMap|]. intros _.
  apply preservesM_bind; [apply preservesM_exec, kept_fetch|]. intros _.
  apply preservesM_exec, kept_fetch.
Qed.

Lemma follow_store_step (e : Event) (w : World) :
  buttons_follow_store w -> buttons_follow_store (step e w).
Proof.
  intros Hw.
  assert (Hkept : selects e = false ->
                  (forall settled, e <> SurveyDaysSettled settled) ->
                  buttons_follow_store (step e w)).
  { intros Hselects Hsurvey. apply (follow_store_view w); [|exact Hw].
    apply kept_view, kept_step; assumption. }
  destruct e; try (apply Hkept; [reflexivity | intros; discriminate]).
  - unfold buttons_follow_store, stored_captures.
    pose proof (loadSurveyDays_settled_view settled w) as Hview.
    simpl step. unfold survey_view in Hview.
    destruct (safeJsonFetch settled) as [error | payload].
    + injection Hview as Hc Hd. rewrite Hd, Hc. exact Hw.
    + injection Hview as Hc Hd. rewrite Hd, Hc. reflexivity.
  - apply (follow_store_view w); [apply view_duplicate_click | exact Hw].
  - simpl. destruct (finance_clear_selection (finance_panel (page w))); [|exact Hw].
    apply (follow_store_view w); [apply view_clearFinanceSelection | exact Hw].
Qed.

Lemma follow_store_reachable (w : World) : reachable w -> buttons_follow_store w.
Proof.
  intros Hreach. induction Hreach as [w [Hstate [_ Hdays]] | w e _ IH].
  - apply (follow_store_view w).
    + apply kept_view, kept_DOMContentLoaded.
    + unfold buttons_follow_store, stored_captures. rewrite Hdays, Hstate. reflexivity.
  - apply follow_store_step, IH.
Qed.

(** C8.  A capture is selected by a click on its button in the survey
    list.  In every world the page can reach, a click on the list either
    finds no button there and changes nothing, or shows the capture that
    the current stored collection holds at that place, the one the button
    was built from; no button is bound to a capture whose identifier the
    current collection lacks, so such a capture cannot be selected: whatever
    is clicked, nothing is shown for that identifier; and the list never
    holds more items than the collection has captures: it holds one per
    capture where the parser finds the button in each markup. *)
Theorem survey_list_follows_store :
  forall (w : World),
    reachable w ->
    (forall index,
        (nth_error (survey_days (survey_panel (page w))) index = None
         /\ capture_click index w = w)
        \/ exists capture,
             nth_error (stored_captures w) index = Some capture
             /\ nth_error (survey_days (survey_panel (page w))) index
                = Some {| item_markup := button_markup capture;
                          listener_capture := capture |}
             /\ capture_click index w = showSurveyDetails capture w)
    /\ (forall id,
          (forall capture, In capture (stored_captures w) -> capture_id capture <> id) ->
          (forall button, In button (survey_days (survey_panel (page w))) ->
                          capture_id (listener_capture button) <> id)
          /\ forall index,
               capture_click index w = w
               \/ exists capture,
                    In capture (stored_captures w)
                    /\ capture_id capture <> id
                    /\ capture_click index w = showSurveyDetails capture w)
    /\ length (survey_days (survey_panel (page w))) <= length (stored_captures w)
    /\ (forallb (fun capture => parse_has_button (button_markup capture))
                (stored_captures w) = true ->
        length (survey_days (survey_panel (page w))) = length (stored_captures w)).
Proof.
  intros w Hreach. pose proof (follow_store_reachable w Hreach) as Hfollow.
  unfold buttons_follow_store in Hfollow.
  split; [|split; [|split]].
  - intros index. unfold capture_click.
    destruct (nth_error (survey_days (survey_panel (page w))) index) as [button|] eqn:Hnth.
    + right. exists (listener_capture button).
      rewrite Hfollow in Hnth. apply rendered_items_nth in Hnth.
      destruct Hnth as [Hstored Hbutton].
      split; [exact Hstored|]. split; [|reflexivity].
      f_equal. exact Hbutton.
    + left. split; reflexivity.
  - intros id Habsent. split.
    + intros button Hin. apply In_nth_error in Hin.
      destruct Hin as [index Hnth]. rewrite Hfollow in Hnth.
      apply rendered_items_nth in Hnth. destruct Hnth as [Hstored _].
      apply Habsent. apply nth_error_In in Hstored. exact Hstored.
    + intros index. unfold capture_click.
      destruct (nth_error (survey_days (survey_panel (page w))) index)
        as [button|] eqn:Hnth; [right | left; reflexivity].
      exists (listener_capture button).
      rewrite Hfollow in Hnth. apply rendered_items_nth in Hnth.
      destruct Hnth as [Hstored _]. apply nth_error_In in Hstored.
      split; [exact Hstored|]. split; [apply Habsent, Hstored | reflexivity].
  - rewrite Hfollow. apply rendered_items_length.
  - intros Hfound. rewrite Hfollow, rendered_items_complete by exact Hfound.
    apply length_map.
Qed.

(** * Footprints

    What every listener may touch, stated once for any reflexive and
    transitive relation between the world before and the world after that
    the elementary updates respect. *)

Section Footprint.

Context (R : World -> World -> Prop).
Hypothesis R_refl : forall w, R w w.
Hypothesis R_trans : forall a b c, R a b -> R b c -> R a c.

Ltac after H := eapply R_trans; [|apply H].

Lemma respectsM_ret {A : Type} (a : A) : respectsM R (ret a).
Proof. intros w. apply R_refl. Qed.

Lemma respectsM_throw {A : Type} (e : exn) : respectsM R (throw e : M A).
Proof. intros w. apply R_refl. Qed.

Lemma respectsM_exec (f : World -> World) : respects R f -> respectsM R (exec f).
Proof. intros Hf w. apply Hf. Qed.

Lemma respectsM_bind {A B : Type} (m : M A) (k : A -> M B) :
  respectsM R m -> (forall a, respectsM R (k a)) -> respectsM R (bind m k).
Proof.
  intros Hm Hk w. unfold bind. specialize (Hm w).
  destruct (m w) as [w' [e | a]]; simpl in *.
  - exact Hm.
  - eapply R_trans; [exact Hm | apply Hk].
Qed.

Lemma respectsM_forEach {A : Type} (f : A -> M unit) (entries : list A) :
  (forall x, respectsM R (f x)) -> respectsM R (forEach f entries).
Proof.
  intros Hf. induction entries as [|x rest IH]; simpl.
  - apply respectsM_ret.
  - apply respectsM_bind; [apply Hf | intros _; exact IH].
Qed.

Lemma respects_try_catch (m : M unit) (handler : exn -> World -> World) :
  respectsM R m -> (forall e, respects R (handler e)) -> respects R (try_catch m handler).
Proof.
  intros Hm Hh w. unfold try_catch. specialize (Hm w).
  destruct (m w) as [w' [e | u]]; simpl in *.
  - eapply R_trans; [exact Hm | apply Hh].
  - exact Hm.
Qed.

Lemma respects_fold_left {A : Type} (f : World -> A -> World) (entries : list A) :
  (forall x w, R w (f w x)) -> respects R (fun w => fold_left f entries w).
Proof.
  intros Hf. induction entries as [|x rest IH]; intros w; simpl.
  - apply R_refl.
  - eapply R_trans; [apply Hf | apply IH].
Qed.

Lemma respects_iter (n : nat) (f : World -> World) :
  respects R f -> respects R (Nat.iter n f).
Proof.
  intros Hf. induction n as [|n IH]; intros w; simpl.
  - apply R_refl.
  - eapply R_trans; [apply IH | apply Hf].
Qed.

(** The elementary updates. *)
Hypothesis R_log : forall text w, R w (appendLog text w).
Hypothesis R_fetch : forall address verb data w, R w (fetch address verb data w).
Hypothesis R_output : forall area text w, R w (write_output area text w).
Hypothesis R_survey_panel : forall f w, R w (on_survey_panel f w).
Hypothesis R_finance_panel : forall f w, R w (on_finance_panel f w).
Hypothesis R_finance : forall f w, R w (on_finance f w).
Hypothesis R_leaflet : forall f w, R w (on_leaflet f w).
Hypothesis R_google : forall f w, R w (on_google f w).
Hypothesis R_captures : forall v w, R w (on_state (set_surveyCaptures v) w).
Hypothesis R_activeMap : forall v w, R w (on_state (set_activeMap v) w).
Hypothesis R_drawn : forall v w, R w (on_state (set_drawnGeoJson v) w).
Hypothesis R_area : forall v w, R w (on_page (set_area_geojson v) w).
Hypothesis R_leaflet_element : forall v w, R w (on_page (set_leaflet_map_element v) w).
Hypothesis R_google_element : forall v w, R w (on_page (set_google_map_element v) w).
Hypothesis R_profile : forall w, R w (profile_click w).

Lemma respects_setDrawnGeometry (geojson : json) : respects R (setDrawnGeometry geojson).
Proof.
  intros w. unfold setDrawnGeometry. after R_log. after R_area. apply R_drawn.
Qed.

Lemma respects_initialiseLeafletMap : respectsM R initialiseLeafletMap.
Proof.
  intros w. unfold initialiseLeafletMap.
  destruct (leaflet_map_element (page w)); [|apply R_refl].
  destruct (leaflet_script (page w)); [|apply R_refl].
  destruct (leaflet_draw (page w)); simpl; [|apply R_leaflet].
  after R_log. after R_leaflet. apply R_leaflet.
Qed.

Lemma respects_initialiseGoogleMap : respectsM R initialiseGoogleMap.
Proof.
  intros w. unfold initialiseGoogleMap.
  destruct (google_map_element (page w)); [|apply R_refl].
  destruct (google_script (page w)); simpl; [|apply R_log].
  destruct (google_drawing (page w)); simpl; [|apply R_google].
  after R_log. after R_google. apply R_google.
Qed.

Lemma respects_leaflet_created (geojson : json) : respects R (leaflet_created geojson).
Proof.
  intros w. unfold leaflet_created. after respects_setDrawnGeometry. apply R_leaflet.
Qed.

Lemma respects_leaflet_edited (layers : list json) : respects R (leaflet_edited layers).
Proof.
  apply (respects_fold_left (fun acc geojson => setDrawnGeometry geojson acc)).
  intros geojson w. apply respects_setDrawnGeometry.
Qed.

Lemma respects_overlaycomplete (drawn : DrawnOverlay) :
  respects R (dispatch (overlaycomplete drawn)).
Proof.
  intros w. unfold dispatch.
  apply (respectsM_bind (exec _) _); [|intros _; apply respectsM_bind].
  - apply respectsM_exec. intros w0.
    destruct (polygon (google (state w0))); [apply R_google | apply R_refl].
  - apply respectsM_exec. intros w0. apply R_google.
  - intros _. destruct drawn as [bounds | path].
    + apply respectsM_exec, respects_setDrawnGeometry.
    + destruct (polygon_ring path);
        [apply respectsM_throw | apply respectsM_exec, respects_setDrawnGeometry].
Qed.

Lemma respects_toggleMap (provider : string) : respects R (dispatch (toggleMap provider)).
Proof.
  intros w. unfold dispatch.
  apply (respectsM_bind (exec _) _); [|intros _; apply respectsM_bind;
                                        [|intros _; apply respectsM_bind]].
  - apply respectsM_exec. intros w0. apply R_activeMap.
  - intros w0. destruct (toggle_hidden (leaflet_map_element (page w0)) _); simpl;
      [apply R_refl | apply R_leaflet_element].
  - intros w0. destruct (toggle_hidden (google_map_element (page w0)) _); simpl;
      [apply R_refl | apply R_google_element].
  - intros _. apply respectsM_exec. intros w0. apply R_log.
Qed.

Lemma respects_print_settled (area : OutputArea) (action : string)
    (settled : fetched json) : respects R (print_settled area action settled).
Proof.
  intros w. unfold print_settled. destruct (safeJsonFetch settled); apply R_output.
Qed.

Lemma respects_submitRoute (entries : FormData) : respects R (submitRoute entries).
Proof. intros w. unfold submitRoute. apply R_fetch. Qed.

Lemma respects_submitAnnotation_settled (settled : fetched json) :
  respects R (submitAnnotation_settled settled).
Proof.
  intros w. unfold submitAnnotation_settled.
  destruct (safeJsonFetch settled); [apply R_output|].
  unfold loadSurveyDays. after R_fetch. apply R_output.
Qed.

Lemma respectsM_renderSurveyList (captures : option (list SurveyCapture)) :
  respectsM R (renderSurveyList captures).
Proof.
  unfold renderSurveyList. apply respectsM_bind.
  - apply respectsM_exec. intros w. apply R_survey_panel.
  - intros _. destruct captures as [entries|]; [|apply respectsM_throw].
    apply respectsM_bind.
    + apply respectsM_forEach. intros capture.
      destruct (parse_has_button (button_markup capture));
        [|apply respectsM_throw].
      apply respectsM_exec. intros w. apply R_survey_panel.
    + intros _. apply respectsM_exec. intros w. apply R_log.
Qed.

Lemma respectsM_populateSurveySelects (captures : option (list SurveyCapture)) :
  respectsM R (populateSurveySelects captures).
Proof.
  unfold populateSurveySelects. apply respectsM_bind.
  - apply respectsM_exec. intros w. apply R_survey_panel.
  - intros _. destruct captures as [entries|]; [|apply respectsM_throw].
    apply respectsM_bind.
    + apply respectsM_forEach. intros capture. apply respectsM_exec.
      intros w. apply R_survey_panel.
    + intros _. apply respectsM_bind.
      * apply respectsM_exec. intros w. apply R_survey_panel.
      * intros _. apply respectsM_forEach. intros capture. apply respectsM_exec.
        intros w. apply R_survey_panel.
Qed.

Lemma respects_loadSurveyDays_settled (settled : fetched CapturesPayload) :
  respects R (loadSurveyDays_settled settled).
Proof.
  unfold loadSurveyDays_settled. apply respects_try_catch.
  - destruct (safeJsonFetch settled) as [error | payload]; [apply respectsM_throw|].
    apply respectsM_bind; [apply respectsM_exec; intros w; apply R_captures|].
    intros _. apply respectsM_bind.
    + intros w. apply respectsM_renderSurveyList.
    + intros _ w. apply respectsM_populateSurveySelects.
  - intros e w. apply R_log.
Qed.

Lemma respects_updateMapOverlay (capture : SurveyCapture) :
  respects R (updateMapOverlay capture).
Proof.
  intros w. unfold updateMapOverlay.
  destruct (leaflet_map (leaflet (state w))).
  - match goal with |- context [if ?b then _ else _] => destruct b end;
      [after R_google|]; apply R_leaflet.
  - match goal with |- context [if ?b then _ else _] => destruct b end;
      [apply R_google | apply R_refl].
Qed.

Lemma respects_showSurveyDetails (capture : SurveyCapture) :
  respects R (showSurveyDetails capture).
Proof.
  intros w. unfold showSurveyDetails.
  after respects_updateMapOverlay. after R_log. apply R_survey_panel.
Qed.

Lemma respects_capture_click (index : nat) : respects R (capture_click index).
Proof.
  intros w. unfold capture_click.
  destruct (nth_error (survey_days (survey_panel (page w))) index);
    [apply respects_showSurveyDetails | apply R_refl].
Qed.

Lemma respects_set_rows (tbody : Tbody) (rows : list FinanceRow) :
  respects R (set_rows tbody rows).
Proof. intros w. unfold set_rows. apply R_finance_panel. Qed.

Lemma respects_appendChild (tbody : Tbody) (row : FinanceRow) :
  respects R (appendChild tbody row).
Proof.
  intros w. unfold appendChild.
  destruct (rows_of tbody (finance_panel (page w))); [apply respects_set_rows | apply R_refl].
Qed.

Lemma respectsM_renderRows (tbody : Tbody) (entries : option (list Transaction)) :
  respectsM R (renderRows tbody entries).
Proof.
  unfold renderRows. apply respectsM_bind.
  - apply respectsM_exec, respects_set_rows.
  - intros _. destruct entries as [[|t rest]|].
    + apply respectsM_exec, respects_appendChild.
    + apply respectsM_forEach. intros transaction. apply respectsM_exec.
      intros w. apply respects_appendChild.
    + apply respectsM_throw.
Qed.

Lemma respectsM_renderFinanceTables (received : option FinanceSnapshot) :
  respectsM R (renderFinanceTables received).
Proof.
  unfold renderFinanceTables. apply respectsM_bind.
  - apply respectsM_exec. intros w. apply R_finance.
  - intros _ w.
    destruct (income_body (finance_panel (page w))); [|apply R_refl].
    destruct (expense_body (finance_panel (page w))); [|apply R_refl].
    destruct received as [s|]; [|apply R_refl].
    apply (respectsM_bind (renderRows _ _)); [apply respectsM_renderRows|].
    intros _. apply respectsM_bind; [apply respectsM_renderRows|].
    intros _. apply respectsM_exec. intros w'. apply R_finance_panel.
Qed.

Lemma respects_write_finance_output (text : string) :
  respects R (write_finance_output text).
Proof.
  intros w. unfold write_finance_output.
  destruct (finance_output (finance_panel (page w))); [apply R_finance_panel | apply R_refl].
Qed.

Lemma respects_loadFinanceTransactions_settled (settled : fetched FinanceSnapshot) :
  respects R (loadFinanceTransactions_settled settled).
Proof.
  unfold loadFinanceTransactions_settled. apply respects_try_catch.
  - destruct (safeJsonFetch settled);
      [apply respectsM_throw | apply respectsM_renderFinanceTables].
  - intros e. apply respects_write_finance_output.
Qed.

Lemma respects_updateFinanceSelectionSummary (transaction : option Transaction) :
  respects R (updateFinanceSelectionSummary transaction).
Proof.
  intros w. unfold updateFinanceSelectionSummary.
  destruct (finance_selection_summary (finance_panel (page w)));
    [apply R_finance_panel | apply R_refl].
Qed.

Lemma respects_highlightFinanceSelection : respects R highlightFinanceSelection.
Proof. intros w. unfold highlightFinanceSelection. apply R_finance_panel. Qed.

Lemma respects_prepareFinanceForm (transaction : Transaction) :
  respects R (prepareFinanceForm transaction).
Proof.
  intros w. unfold prepareFinanceForm.
  destruct (finance_duplicate_form (finance_panel (page w))); [|apply R_refl].
  after respects_highlightFinanceSelection. after respects_updateFinanceSelectionSummary.
  after R_finance. apply R_finance_panel.
Qed.

Lemma respects_clearFinanceSelection : respects R clearFinanceSelection.
Proof.
  intros w. unfold clearFinanceSelection.
  destruct (finance_duplicate_form (finance_panel (page w))); [|apply R_refl].
  after respects_highlightFinanceSelection. after respects_updateFinanceSelectionSummary.
  after R_finance. apply R_finance_panel.
Qed.

Lemma respects_duplicate_click (tbody : Tbody) (index : nat) :
  respects R (duplicate_click tbody index).
Proof.
  intros w. unfold duplicate_click.
  destruct (rows_of tbody (finance_panel (page w))) as [rows|]; [|apply R_refl].
  destruct (nth_error rows index) as [row|]; [|apply R_refl].
  destruct (duplicate_button (cells row)) as [[id n]|]; [|apply R_refl].
  apply respects_iter. intros w0. unfold dispatch, duplicate_listener.
  destruct (findFinanceTransaction id w0) as [e | [transaction|]]; simpl;
    [apply R_refl | apply respects_prepareFinanceForm | apply R_refl].
Qed.

Lemma respects_finance_form_input (typed : FinanceForm) :
  respects R (finance_form_input typed).
Proof.
  intros w. unfold finance_form_input.
  destruct (finance_duplicate_form (finance_panel (page w)));
    [apply R_finance_panel | apply R_refl].
Qed.

Lemma respects_submitFinanceDuplicate : respects R submitFinanceDuplicate.
Proof.
  intros w. unfold submitFinanceDuplicate.
  destruct (finance_duplicate_form (finance_panel (page w))) as [form|]; [|apply R_refl].
  destruct (string_truthy (source_transaction_id (controls form)));
    [apply R_fetch | apply respects_write_finance_output].
Qed.

Lemma respects_submitFinanceDuplicate_settled (settled : fetched DuplicatePayload) :
  respects R (submitFinanceDuplicate_settled settled).
Proof.
  intros w. unfold submitFinanceDuplicate_settled.
  destruct (finance_duplicate_form (finance_panel (page w))) as [form|]; [|apply R_refl].
  apply respects_try_catch.
  - destruct (safeJsonFetch settled) as [error | payload]; [apply respectsM_throw|].
    apply respectsM_bind; [apply respectsM_renderFinanceTables|].
    intros _. apply respectsM_bind;
      [apply respectsM_exec, respects_write_finance_output|].
    intros _. apply respectsM_exec. intros w'.
    destruct (finance_duplicate_form (finance_panel (page w')));
      [apply R_log | apply R_refl].
  - intros e. apply respects_write_finance_output.
Qed.

Lemma respects_DOMContentLoaded : respects R DOMContentLoaded.
Proof.
  intros w. unfold DOMContentLoaded, dispatch.
  apply respectsM_bind; [apply respects_initialiseLeafletMap|]. intros _.
  apply respectsM_bind; [apply respects_initialiseGoogleMap|]. intros _.
  apply respectsM_bind; [apply respectsM_exec; intros w0; apply R_fetch|]. intros _.
  apply respectsM_exec. intros w0. apply R_fetch.
Qed.

(** Whatever the event, its listener only moves the world along [R]. *)
Lemma respects_step (e : Event) : respects R (step e).
Proof.
  intros w. destruct e; simpl.
  - apply R_profile.
  - apply respects_toggleMap.
  - destruct (draw_listeners (leaflet (state w))); [apply respects_leaflet_created | apply R_refl].
  - destruct (draw_listeners (leaflet (state w))); [apply respects_leaflet_edited | apply R_refl].
  - destruct (draw_listeners (leaflet (state w)));
      [apply respects_setDrawnGeometry | apply R_refl].
  - destruct (drawingManager (google (state w))); [apply respects_overlaycomplete | apply R_refl].
  - apply respects_submitRoute.
  - apply respects_print_settled.
  - apply R_fetch.
  - apply respects_print_settled.
  - apply R_fetch.
  - apply respects_print_settled.
  - apply R_fetch.
  - apply respects_print_settled.
  - apply R_fetch.
  - apply respects_submitAnnotation_settled.
  - apply respects_loadSurveyDays_settled.
  - apply respects_capture_click.
  - apply respects_loadFinanceTransactions_settled.
  - apply respects_duplicate_click.
  - apply respects_finance_form_input.
  - apply respects_submitFinanceDuplicate.
  - apply respects_submitFinanceDuplicate_settled.
  - destruct (finance_clear_selection (finance_panel (page w)));
      [apply respects_clearFinanceSelection | apply R_refl].
Qed.

End Footprint.

(** ** Relations the listeners respect *)

Lemma same_refl {X : Type} (obs : World -> X) (w : World) : same obs w w.
Proof. reflexivity. Qed.

Lemma same_trans {X : Type} (obs : World -> X) (a b c : World) :
  same obs a b -> same obs b c -> same obs a c.
Proof. unfold same. congruence. Qed.

(** Picks the footprint of the listener at hand and checks that the
    elementary updates it is made of leave the observation alone. *)
Ltac footprint :=
  unfold submitRoute_settled, submitUpload_settled, runClassification_settled,
    submitComparison_settled, leaflet_deleted;
  match goal with
  | |- ?obs ?x = ?obs ?w => change (same obs w x)
  | _ => idtac
  end;
  first [ apply respects_toggleMap | apply respects_leaflet_created
        | apply respects_leaflet_edited | apply respects_setDrawnGeometry
        | apply respects_overlaycomplete | apply respects_print_settled
        | apply respects_submitRoute | apply respects_submitAnnotation_settled
        | apply respects_loadSurveyDays_settled | apply respects_capture_click
        | apply respects_loadFinanceTransactions_settled
        | apply respects_duplicate_click | apply respects_finance_form_input
        | apply respects_submitFinanceDuplicate
        | apply respects_submitFinanceDuplicate_settled
        | apply respects_clearFinanceSelection | apply respects_DOMContentLoaded ];
  first [ apply same_refl | apply same_trans | intros; reflexivity ].

Lemma string_append_assoc (a b c : string) : (a ++ b) ++ c = a ++ (b ++ c).
Proof. induction a as [|ch a IH]; simpl; [reflexivity | rewrite IH; reflexivity]. Qed.

Lemma log_grows_refl (w : World) : log_grows w w.
Proof. split; [exists ""; reflexivity | apply le_n]. Qed.

Lemma log_grows_trans (a b c : World) : log_grows a b -> log_grows b c -> log_grows a c.
Proof.
  intros [[added Hab] Hclock] [[added' Hbc] Hclock']. split.
  - exists (added' ++ added). rewrite Hbc, Hab, string_append_assoc. reflexivity.
  - exact (Nat.le_trans _ _ _ Hclock Hclock').
Qed.

Lemma log_grows_appendLog (text : string) (w : World) : log_grows w (appendLog text w).
Proof.
  split.
  - exists (toISOString (clock w) ++ ": " ++ text ++ newline).
    unfold appendLog. simpl logPanel.
    rewrite (string_append_assoc (toISOString (clock w))). f_equal.
    simpl. rewrite string_append_assoc. reflexivity.
  - simpl. apply Nat.le_succ_diag_r.
Qed.

Lemma log_grows_quiet (w w' : World) :
  logPanel w' = logPanel w -> clock w' = clock w -> log_grows w w'.
Proof. intros Hlog Hclock. split; [exists ""; exact Hlog | rewrite Hclock; apply le_n]. Qed.

(** X1. The log panel is only ever written by putting text in front of what
    it holds: whatever the event, and at page load, the earlier log is still
    there as the tail of the later one, and the clock reading never goes
    back. *)
Theorem log_only_grows :
  forall (w : World),
    (forall e, exists added,
        logPanel (step e w) = added ++ logPanel w /\ clock w <= clock (step e w))
    /\ exists added,
         logPanel (DOMContentLoaded w) = added ++ logPanel w
         /\ clock w <= clock (DOMContentLoaded w).
Proof.
  intros w.
  assert (Hstep : forall e, log_grows w (step e w)).
  { intros e.
    apply (respects_step log_grows log_grows_refl log_grows_trans log_grows_appendLog);
      intros; apply log_grows_quiet; reflexivity. }
  assert (Hload : log_grows w (DOMContentLoaded w)).
  { apply (respects_DOMContentLoaded log_grows log_grows_refl log_grows_trans
             log_grows_appendLog);
      intros; apply log_grows_quiet; reflexivity. }
  split.
  - intros e. destruct (Hstep e) as [[added Hadded] Hclock]. exists added. split; assumption.
  - destruct Hload as [[added Hadded] Hclock]. exists added. split; assumption.
Qed.

Lemma trace_grows_refl (w : World) : trace_grows w w.
Proof. exists []. rewrite app_nil_r. reflexivity. Qed.

Lemma trace_grows_trans (a b c : World) :
  trace_grows a b -> trace_grows b c -> trace_grows a c.
Proof.
  intros [added Hab] [added' Hbc]. exists (added ++ added')%list.
  rewrite Hbc, Hab, app_assoc. reflexivity.
Qed.

Lemma trace_grows_quiet (w w' : World) : network w' = network w -> trace_grows w w'.
Proof. intros Hnet. exists []. rewrite app_nil_r. exact Hnet. Qed.

Lemma silent_step (e : Event) (w : World) :
  sends e = false -> network (step e w) = network w.
Proof.
  intros Hsends.
  change (same network w (step e w)).
  destruct e; try discriminate Hsends; simpl step;
    try (destruct (draw_listeners (leaflet (state w))); [|apply same_refl]);
    try (destruct (drawingManager (google (state w))); [|apply same_refl]);
    try (destruct (finance_clear_selection (finance_panel (page w))); [|apply same_refl]);
    try reflexivity; footprint.
Qed.

(** X2. Requests already made are never dropped or rewritten, an event
    sends at most one request, and the events that are neither a form
    submission, the classify button nor a settled annotation send none:
    map events, list and table clicks and the other settled responses leave
    the network alone. *)
Theorem one_request_at_most :
  forall (e : Event) (w : World),
    (exists added,
        network (step e w) = (network w ++ added)%list /\ length added <= 1)
    /\ (sends e = false -> network (step e w) = network w).
Proof.
  intros e w. split; [|apply silent_step].
  destruct (sends e) eqn:Hsends.
  - destruct e; try discriminate Hsends; simpl step;
      try (eexists; split; [reflexivity | apply le_n]).
    + unfold submitAnnotation_settled.
      destruct (safeJsonFetch settled).
      * exists []. split; [rewrite app_nil_r; reflexivity | apply Nat.le_0_l].
      * eexists. split; [reflexivity | apply le_n].
    + unfold submitFinanceDuplicate.
      destruct (finance_duplicate_form (finance_panel (page w))) as [form|].
      * destruct (string_truthy (source_transaction_id (controls form))).
        -- eexists. split; [reflexivity | apply le_n].
        -- exists []. split; [|apply Nat.le_0_l]. rewrite app_nil_r.
           unfold write_finance_output.
           destruct (finance_output (finance_panel (page w))); reflexivity.
      * exists []. split; [rewrite app_nil_r; reflexivity | apply Nat.le_0_l].
  - exists []. split; [|apply Nat.le_0_l].
    rewrite app_nil_r. apply silent_step, Hsends.
Qed.

(** ** The geometry input *)

Lemma synced_setDrawnGeometry (geojson : json) (w : World) :
  geometry_synced (setDrawnGeometry geojson w).
Proof. unfold geometry_synced. simpl. reflexivity. Qed.

Lemma synced_view (w w' : World) :
  geometry_view w' = geometry_view w -> geometry_synced w -> geometry_synced w'.
Proof.
  unfold geometry_view, geometry_synced. intros Hview Hw.
  injection Hview as Hd Ha. rewrite Ha, Hd. exact Hw.
Qed.

Lemma undrawn_step (e : Event) (w : World) :
  draws e = false -> geometry_view (step e w) = geometry_view w.
Proof.
  intros Hdraws.
  change (same geometry_view w (step e w)).
  destruct e; try discriminate Hdraws; simpl step;
    try (destruct (finance_clear_selection (finance_panel (page w))); [|apply same_refl]);
    try reflexivity; footprint.
Qed.

Lemma synced_leaflet_edited (layers : list json) (w : World) :
  geometry_synced w -> geometry_synced (leaflet_edited layers w).
Proof.
  unfold leaflet_edited. revert w.
  induction layers as [|geojson rest IH]; intros w Hw; simpl.
  - exact Hw.
  - apply IH, synced_setDrawnGeometry.
Qed.

Lemma synced_overlaycomplete (drawn : DrawnOverlay) (w : World) :
  geometry_synced w -> geometry_synced (dispatch (overlaycomplete drawn) w).
Proof.
  intros Hw. unfold dispatch, overlaycomplete, bind, exec. simpl.
  destruct drawn as [bounds | [|first path]]; simpl.
  - apply synced_setDrawnGeometry.
  - destruct (polygon (google (state w))); exact Hw.
  - apply synced_setDrawnGeometry.
Qed.

(** X3. Once the [area-geojson] input agrees with [state.drawnGeoJson] (the
    JSON text of the geometry, or nothing when none is drawn), it agrees
    after page load and after every event: the two are only ever written
    together. *)
Theorem geometry_input_stays_synced :
  forall (w : World),
    geometry_synced w ->
    geometry_synced (DOMContentLoaded w)
    /\ forall e, geometry_synced (step e w).
Proof.
  intros w Hw. split.
  - apply (synced_view w); [|exact Hw].
    change (same geometry_view w (DOMContentLoaded w)). footprint.
  - intros e. destruct (draws e) eqn:Hdraws.
    + destruct e; try discriminate Hdraws; simpl step.
      * destruct (draw_listeners (leaflet (state w))); [|exact Hw].
        apply synced_setDrawnGeometry.
      * destruct (draw_listeners (leaflet (state w))); [|exact Hw].
        apply synced_leaflet_edited, Hw.
      * destruct (draw_listeners (leaflet (state w))); [|exact Hw].
        apply synced_setDrawnGeometry.
      * destruct (drawingManager (google (state w))); [|exact Hw].
        apply synced_overlaycomplete, Hw.
    + apply (synced_view w); [apply undrawn_step, Hdraws | exact Hw].
Qed.

(** ** Drawing on the two adapters *)

(** X4. A polygon drawn on the Google adapter reaches the canonicalizer as
    a closed ring: the positions of the path in order, then the first one
    again, so one more position than the path has points; the drawn overlay
    replaces the stored one.  On an empty path the listener throws once the
    overlay is stored, and leaves the geometry, its input and the log as
    they were. *)
Theorem polygon_draw_closed_ring :
  forall (first : LatLng) (rest : list LatLng) (w : World),
    let path := first :: rest in
    let ring := (map (fun point => JArr [JNum (lng point); JNum (lat point)]) path
                 ++ [JArr [JNum (lng first); JNum (lat first)]])%list in
    let w' := dispatch (overlaycomplete (POLYGON path)) w in
    snd (overlaycomplete (POLYGON path) w) = inr tt
    /\ drawnGeoJson (state w')
       = JObj [("type", JStr "Polygon"); ("coordinates", JArr [JArr ring])]
    /\ area_geojson (page w') = stringify (drawnGeoJson (state w'))
    /\ length ring = S (length path)
    /\ hd_error ring = Some (last ring JNull)
    /\ polygon (google (state w')) = Some (POLYGON path)
    /\ (let failed := dispatch (overlaycomplete (POLYGON [])) w in
        snd (overlaycomplete (POLYGON []) w)
        = inl (TypeError "read property lng of undefined")
        /\ polygon (google (state failed)) = Some (POLYGON [])
        /\ geometry_view failed = geometry_view w
        /\ logPanel failed = logPanel w).
Proof.
  intros first rest w path ring w'.
  split; [reflexivity|]. split; [reflexivity|]. split; [reflexivity|].
  split; [unfold ring; rewrite length_app, length_map, Nat.add_comm; reflexivity|].
  split; [unfold ring; rewrite last_last; reflexivity|].
  split; [reflexivity|].
  split; [reflexivity|]. split; [reflexivity|].
  unfold dispatch, overlaycomplete, bind, exec. simpl.
  destruct (polygon (google (state w))); split; reflexivity.
Qed.

Lemma last_cons {A : Type} (x : A) (l : list A) (d : A) : last (x :: l) d = last l x.
Proof.
  revert x d. induction l as [|y l IH]; intros x d; [reflexivity|].
  change (last (x :: y :: l) d) with (last (y :: l) d).
  rewrite (IH y d), (IH y x). reflexivity.
Qed.

Lemma leaflet_edited_last (layers : list json) (w : World) :
  drawnGeoJson (state (leaflet_edited layers w)) = last layers (drawnGeoJson (state w))
  /\ clock (leaflet_edited layers w) = length layers + clock w
  /\ leaflet (state (leaflet_edited layers w)) = leaflet (state w).
Proof.
  unfold leaflet_edited. revert w.
  induction layers as [|geojson rest IH]; intros w.
  - repeat split.
  - destruct (IH (setDrawnGeometry geojson w)) as [Hlast [Hclock Hleaflet]].
    cbn [fold_left]. rewrite Hlast, Hclock, Hleaflet, last_cons.
    split; [reflexivity|]. split; [|reflexivity].
    simpl. apply Nat.add_succ_r.
Qed.

(** X5. On the Leaflet adapter a finished drawing leaves exactly that one
    layer in the drawn items and becomes the geometry; an edit makes the
    last edited layer the geometry (the geometry stays when no layer was
    edited) and logs once per edited layer; a deletion leaves no geometry
    and an empty input; and a drawing made after that is again the only
    layer. *)
Theorem leaflet_draw_edit_delete :
  forall (geojson again : json) (layers : list json) (w : World),
    let drawn := leaflet_created geojson w in
    let edited := leaflet_edited layers drawn in
    let cleared := leaflet_deleted edited in
    let redrawn := leaflet_created again cleared in
    drawnItems (leaflet (state drawn)) = [geojson]
    /\ drawnGeoJson (state drawn) = geojson
    /\ drawnGeoJson (state edited) = last layers geojson
    /\ clock edited = length layers + clock drawn
    /\ drawnGeoJson (state cleared) = JNull
    /\ area_geojson (page cleared) = ""
    /\ drawnItems (leaflet (state redrawn)) = [again]
    /\ drawnGeoJson (state redrawn) = again.
Proof.
  intros geojson again layers w drawn edited cleared redrawn.
  destruct (leaflet_edited_last layers drawn) as [Hlast [Hclock _]].
  split; [reflexivity|]. split; [reflexivity|].
  split; [exact Hlast|]. split; [exact Hclock|].
  repeat split.
Qed.

(** X6. Choosing a map provider records it and hides each map container
    unless it is that provider's: with both containers in the page the two
    are never shown together, and a provider that is neither [osm] nor
    [google] hides both.  Without the Leaflet container the listener throws
    after recording the provider: the page and the log stay as they were. *)
Theorem toggleMap_shows_one_provider :
  forall (provider : string) (w : World),
    let w' := dispatch (toggleMap provider) w in
    activeMap (state w') = provider
    /\ (leaflet_map_element (page w) <> None ->
        google_map_element (page w) <> None ->
        leaflet_map_element (page w') = Some (negb (String.eqb provider "osm"))
        /\ google_map_element (page w') = Some (negb (String.eqb provider "google"))
        /\ (leaflet_map_element (page w') = Some true
            \/ google_map_element (page w') = Some true)
        /\ logPanel w'
           = toISOString (clock w) ++ ": " ++ "Switched basemap to " ++ provider
               ++ "." ++ newline ++ logPanel w)
    /\ (leaflet_map_element (page w) = None ->
        page w' = page w /\ logPanel w' = logPanel w).
Proof.
  intros provider w w'. unfold w', dispatch, toggleMap, bind, exec, toggle_hidden. simpl.
  split; [|split].
  - destruct (leaflet_map_element (page w)); simpl; [|reflexivity].
    destruct (google_map_element (page w)); reflexivity.
  - intros Hl Hg.
    destruct (leaflet_map_element (page w)) as [l|]; [|congruence]. simpl.
    destruct (google_map_element (page w)) as [g|]; [|congruence]. simpl.
    split; [reflexivity|]. split; [reflexivity|].
    split; [|rewrite ?string_append_assoc; reflexivity].
    destruct (String.eqb provider "osm") eqn:Hosm; [|left; reflexivity].
    apply String.eqb_eq in Hosm. subst provider. right. reflexivity.
  - intros Hl. rewrite Hl. split; reflexivity.
Qed.

(** ** Plain form controllers *)

Lemma get_set_output (area other : OutputArea) (text : string) (o : Outputs) :
  get_output other (set_output area text o)
  = if match area, other with
       | route_output, route_output | upload_output, upload_output
       | classify_output, classify_output | comparison_output, comparison_output
       | annotation_output, annotation_output => true
       | _, _ => false
       end
    then text else get_output other o.
Proof. destruct area, other; reflexivity. Qed.

(** X7. A settled route, upload, classification or comparison request
    writes its own output area and nothing else: the pretty-printed payload
    on success, one line made of the action name and the failure message
    otherwise; the other output areas, the script state, the survey and
    finance panels, the log and the network trace are left alone. *)
Theorem settled_request_writes_own_output :
  forall (area : OutputArea) (action : string) (settled : fetched json) (w : World),
    let w' := print_settled area action settled w in
    get_output area (outputs (page w'))
    = match safeJsonFetch settled with
      | inr payload => stringify_pretty payload
      | inl error => action ++ " failed: " ++ message error
      end
    /\ (forall other, other <> area ->
          get_output other (outputs (page w')) = get_output other (outputs (page w)))
    /\ state w' = state w
    /\ survey_panel (page w') = survey_panel (page w)
    /\ finance_panel (page w') = finance_panel (page w)
    /\ area_geojson (page w') = area_geojson (page w)
    /\ logPanel w' = logPanel w
    /\ network w' = network w
    /\ submitRoute_settled = print_settled route_output "Route planning"
    /\ submitUpload_settled = print_settled upload_output "Upload"
    /\ runClassification_settled = print_settled classify_output "Classification"
    /\ submitComparison_settled = print_settled comparison_output "Comparison".
Proof.
  intros area action settled w w'. unfold w', print_settled.
  split; [|split].
  - destruct (safeJsonFetch settled); unfold write_output; simpl;
      rewrite get_set_output; destruct area; reflexivity.
  - intros other Hother.
    destruct (safeJsonFetch settled); unfold write_output; simpl;
      rewrite get_set_output; destruct area, other; congruence.
  - destruct (safeJsonFetch settled); repeat split.
Qed.

(** X8. A settled annotation request prints like the others; on success,
    and only then, it asks for the survey days again with one GET request;
    the stored captures change only when that request settles. *)
Theorem annotation_success_refreshes :
  forall (settled : fetched json) (w : World),
    let w' := submitAnnotation_settled settled w in
    state w' = state w
    /\ survey_panel (page w') = survey_panel (page w)
    /\ (forall payload, safeJsonFetch settled = inr payload ->
          network w' = (network w ++ [{| url := "/survey-days"; method := "GET";
                                         body := None |}])%list
          /\ annotation_text (outputs (page w')) = stringify_pretty payload)
    /\ (forall error, safeJsonFetch settled = inl error ->
          network w' = network w
          /\ annotation_text (outputs (page w'))
             = "Annotation failed: " ++ message error).
Proof.
  intros settled w w'. unfold w', submitAnnotation_settled.
  destruct (safeJsonFetch settled) as [error | payload].
  - split; [reflexivity|]. split; [reflexivity|]. split.
    + intros payload Heq. discriminate.
    + intros error' Heq. injection Heq as <-. split; reflexivity.
  - split; [reflexivity|]. split; [reflexivity|]. split.
    + intros payload' Heq. injection Heq as <-. split; reflexivity.
    + intros error Heq. discriminate.
Qed.

(** ** Survey captures *)

Lemma options_appended (set : list (string * string) -> SurveyPanel -> SurveyPanel)
    (get : SurveyPanel -> list (string * string)) (entries : list SurveyCapture)
    (options : list (string * string)) (w : World) :
  (forall v p, get (set v p) = v) ->
  (forall v v' p, set v' (set v p) = set v' p) ->
  fold_left (fun acc capture =>
               on_survey_panel (fun p => set (get p ++ [capture_option capture])%list p) acc)
            entries (on_survey_panel (set options) w)
  = on_survey_panel (set (options ++ map capture_option entries)%list) w.
Proof.
  intros Hget Hset. revert options.
  induction entries as [|capture rest IH]; intros options; simpl.
  - rewrite app_nil_r. reflexivity.
  - replace (on_survey_panel
               (fun p => set (get p ++ [capture_option capture])%list p)
               (on_survey_panel (set options) w))
      with (on_survey_panel (set (options ++ [capture_option capture])%list) w).
    + rewrite IH, <- app_assoc. reflexivity.
    + unfold on_survey_panel, on_page. simpl. rewrite Hget, Hset. reflexivity.
Qed.

Lemma populateSurveySelects_defined (entries : list SurveyCapture) (w : World) :
  populateSurveySelects (Some entries) w
  = (on_survey_panel (set_target_capture_select (map capture_option entries))
       (on_survey_panel (set_base_capture_select (map capture_option entries)) w),
     inr tt).
Proof.
  unfold populateSurveySelects, bind. unfold exec at 1.
  rewrite forEach_exec.
  rewrite (options_appended set_base_capture_select base_capture_select)
    by (intros; reflexivity).
  unfold exec at 1. rewrite forEach_exec.
  rewrite (options_appended set_target_capture_select target_capture_select)
    by (intros; reflexivity).
  reflexivity.
Qed.

Lemma rendered_items_stopped (shown : list SurveyCapture) (capture : SurveyCapture)
    (rest : list SurveyCapture) :
  buttons_found shown = true ->
  parse_has_button (button_markup capture) = false ->
  rendered_items (shown ++ capture :: rest) = map capture_button shown
  /\ buttons_found (shown ++ capture :: rest) = false.
Proof.
  unfold buttons_found. intros Hshown Hcapture.
  induction shown as [|c shown IH]; simpl in *.
  - rewrite Hcapture. split; reflexivity.
  - destruct (parse_has_button (button_markup c)); [|discriminate].
    destruct (IH Hshown) as [Hitems Hfound]. rewrite Hitems, Hfound.
    split; reflexivity.
Qed.

(** X9. When the survey days arrive, the stored collection is replaced by
    the received one whatever it held; the finance state, the geometry and
    the network trace are left alone.  Where the parser finds a button in
    the markup of every capture, the list and both comparison selectors are
    rebuilt from the collection: one item and one option per capture, in the
    received order, nothing left of the earlier ones, each item holding the
    markup written for its capture and a listener bound to that capture,
    and one log entry records the rendering.  Where it finds none for some
    capture, the list stops in front of that capture, the selectors keep
    their options, and the one log entry is the caught failure. *)
Theorem survey_days_replace_wholesale :
  forall (status : N) (entries : list SurveyCapture) (w : World),
    let w' := loadSurveyDays_settled
                (Responded (Ok_ status (Some {| captures := Some entries |}))) w in
    let item := fun capture =>
      {| item_markup :=
           "<button type=" ++ dquote ++ "button" ++ dquote
             ++ " data-capture=" ++ dquote ++ capture_id capture ++ dquote ++ ">"
             ++ name capture ++ " – " ++ captured_on capture ++ "</button>";
         listener_capture := capture |} in
    surveyCaptures (state w') = Some entries
    /\ finance (state w') = finance (state w)
    /\ drawnGeoJson (state w') = drawnGeoJson (state w)
    /\ network w' = network w
    /\ (forallb (fun capture => parse_has_button (button_markup capture)) entries = true ->
        survey_days (survey_panel (page w')) = map item entries
        /\ length (survey_days (survey_panel (page w'))) = length entries
        /\ base_capture_select (survey_panel (page w')) = map capture_option entries
        /\ target_capture_select (survey_panel (page w')) = map capture_option entries
        /\ logPanel w'
           = toISOString (clock w) ++ ": " ++ "Survey list rendered." ++ newline
               ++ logPanel w)
    /\ (forall shown capture rest,
          entries = (shown ++ capture :: rest)%list ->
          forallb (fun capture => parse_has_button (button_markup capture)) shown = true ->
          parse_has_button (button_markup capture) = false ->
          survey_days (survey_panel (page w')) = map item shown
          /\ base_capture_select (survey_panel (page w'))
             = base_capture_select (survey_panel (page w))
          /\ target_capture_select (survey_panel (page w'))
             = target_capture_select (survey_panel (page w))
          /\ logPanel w'
             = toISOString (clock w) ++ ": " ++ "Failed to load survey days: "
                 ++ typeErrorMessage "read property addEventListener of null"
                 ++ newline ++ logPanel w).
Proof.
  intros status entries w w' item.
  assert (Hw' : w'
                = if buttons_found entries
                  then on_survey_panel
                         (set_target_capture_select (map capture_option entries))
                         (on_survey_panel
                            (set_base_capture_select (map capture_option entries))
                            (appendLog "Survey list rendered."
                               (on_survey_panel
                                  (set_survey_days (rendered_items entries))
                                  (on_state (set_surveyCaptures (Some entries)) w))))
                  else appendLog
                         ("Failed to load survey days: "
                            ++ typeErrorMessage "read property addEventListener of null")
                         (on_survey_panel
                            (set_survey_days (rendered_items entries))
                            (on_state (set_surveyCaptures (Some entries)) w))).
  { unfold w', loadSurveyDays_settled, try_catch, bind. cbn [safeJsonFetch].
    unfold exec at 1. cbn [captures].
    change (surveyCaptures (state (on_state (set_surveyCaptures (Some entries)) w)))
      with (Some entries).
    rewrite renderSurveyList_defined.
    destruct (buttons_found entries); [|reflexivity].
    change (surveyCaptures
              (state (appendLog "Survey list rendered."
                        (on_survey_panel (set_survey_days (rendered_items entries))
                           (on_state (set_surveyCaptures (Some entries)) w)))))
      with (Some entries).
    rewrite populateSurveySelects_defined. reflexivity. }
  assert (Hframe : surveyCaptures (state w') = Some entries
                   /\ finance (state w') = finance (state w)
                   /\ drawnGeoJson (state w') = drawnGeoJson (state w)
                   /\ network w' = network w).
  { rewrite Hw'. destruct (buttons_found entries); repeat split. }
  destruct Hframe as [Hstored [Hfinance [Hdrawn Hnetwork]]].
  split; [exact Hstored|]. split; [exact Hfinance|]. split; [exact Hdrawn|].
  split; [exact Hnetwork|]. split.
  - intros Hfound. fold (buttons_found entries) in Hfound.
    rewrite Hw', Hfound. cbn [page survey_panel survey_days base_capture_select
                              target_capture_select on_survey_panel on_page set_page
                              set_survey_panel set_target_capture_select
                              set_base_capture_select logPanel].
    rewrite (rendered_items_complete entries Hfound).
    split; [reflexivity|]. split; [|repeat split].
    simpl. apply length_map.
  - intros shown capture rest Hentries Hshown Hcapture.
    fold (buttons_found shown) in Hshown.
    destruct (rendered_items_stopped shown capture rest Hshown Hcapture)
      as [Hitems Hfound].
    rewrite Hw', Hentries, Hfound, Hitems. repeat split.
Qed.

Lemma string_truthy_nonempty (s : string) : string_truthy s = true -> s <> "".
Proof. destruct s; [discriminate | intros _; discriminate]. Qed.

Lemma asset_notes_written (asset : Asset) :
  asset_notes asset <> ""
  /\ (String.concat "; " (annotations asset) <> "" ->
      asset_notes asset = String.concat "; " (annotations asset))
  /\ (String.concat "; " (annotations asset) = "" -> asset_notes asset = "—").
Proof.
  unfold asset_notes.
  destruct (String.concat "; " (annotations asset)) as [|c joined]; simpl.
  - split; [discriminate|]. split; [intros H; contradiction | reflexivity].
  - split; [discriminate|]. split; [reflexivity | discriminate].
Qed.

Lemma updateMapOverlay_frame (capture : SurveyCapture) (w : World) :
  page (updateMapOverlay capture w) = page w
  /\ logPanel (updateMapOverlay capture w) = logPanel w
  /\ network (updateMapOverlay capture w) = network w
  /\ finance (state (updateMapOverlay capture w)) = finance (state w)
  /\ surveyCaptures (state (updateMapOverlay capture w)) = surveyCaptures (state w)
  /\ drawnGeoJson (state (updateMapOverlay capture w)) = drawnGeoJson (state w)
  /\ polygon (google (state (updateMapOverlay capture w))) = polygon (google (state w))
  /\ drawnItems (leaflet (state (updateMapOverlay capture w)))
     = drawnItems (leaflet (state w)).
Proof.
  unfold updateMapOverlay.
  destruct (leaflet_map (leaflet (state w))); simpl;
    destruct (google_map (google (state w)) && google_script (page w)); repeat split.
Qed.

(** X10. Showing a capture replaces the content of the asset table by one
    row per asset, in order; the markup written into a row carries the
    asset's identifier, its class, its volume printed with two decimals and
    its notes, which are the annotations joined by a semicolon and a space,
    or a dash where that text is empty: the notes written are never empty.
    The summary names the capture, its date and its asset count.  It logs
    once, and touches neither the stored collection, the finance state, the
    drawn geometry, the survey list nor the network trace. *)
Theorem showSurveyDetails_fills_asset_table :
  forall (capture : SurveyCapture) (w : World),
    let w' := showSurveyDetails capture w in
    length (asset_table (survey_panel (page w'))) = length (assets capture)
    /\ (forall index asset,
          nth_error (assets capture) index = Some asset ->
          exists notes,
            nth_error (asset_table (survey_panel (page w'))) index
            = Some (newline ++ "      <td>" ++ asset_id asset ++ "</td>"
                      ++ newline ++ "      <td>" ++ classification asset ++ "</td>"
                      ++ newline ++ "      <td>" ++ toFixed2 (volume_cubic_m asset)
                      ++ "</td>"
                      ++ newline ++ "      <td>" ++ notes ++ "</td>"
                      ++ newline ++ "    ")
            /\ notes <> ""
            /\ (String.concat "; " (annotations asset) <> "" ->
                notes = String.concat "; " (annotations asset))
            /\ (String.concat "; " (annotations asset) = "" -> notes = "—"))
    /\ survey_summary (survey_panel (page w'))
       = name capture ++ " captured on " ++ captured_on capture ++ ". "
           ++ num_to_string (asset_count capture) ++ " assets detected."
    /\ logPanel w'
       = toISOString (clock w) ++ ": " ++ "Loaded survey details for "
           ++ capture_id capture ++ "." ++ newline ++ logPanel w
    /\ surveyCaptures (state w') = surveyCaptures (state w)
    /\ finance (state w') = finance (state w)
    /\ drawnGeoJson (state w') = drawnGeoJson (state w)
    /\ survey_days (survey_panel (page w')) = survey_days (survey_panel (page w))
    /\ network w' = network w.
Proof.
  intros capture w w'. unfold w', showSurveyDetails.
  match goal with
  | |- context [updateMapOverlay capture ?x] =>
      destruct (updateMapOverlay_frame capture x)
        as [Hpage [Hlog [Hnet [Hfin [Hcap [Hgeo _]]]]]]
  end.
  rewrite Hpage, Hlog, Hnet, Hfin, Hcap, Hgeo. simpl.
  split; [apply length_map|]. split; [|split].
  - intros index asset Hnth. exists (asset_notes asset).
    rewrite nth_error_map, Hnth.
    split; [reflexivity | apply asset_notes_written].
  - reflexivity.
  - repeat split. rewrite !string_append_assoc. reflexivity.
Qed.


(** ** Finance rows *)

Lemma colon_in_append (a b : string) :
  In ":"%char (list_ascii_of_string (a ++ ": " ++ b)).
Proof.
  induction a as [|c a IH]; simpl; [left; reflexivity | right; exact IH].
Qed.

Lemma concat_head (sep first : string) (others : list string) :
  exists tail, String.concat sep (first :: others) = first ++ tail.
Proof.
  destruct others as [|second others]; simpl.
  - exists "". induction first as [|c first IH]; simpl; [reflexivity | rewrite <- IH; reflexivity].
  - eexists. reflexivity.
Qed.

(** X12. The metadata cell of a finance row shows the dash exactly when the
    transaction has no metadata or an empty one; otherwise it starts with
    the first key followed by a colon, and it is never blank. *)
Theorem metadata_summary_dash_iff_empty :
  forall (metadata : option (list (string * json))),
    (renderMetadataSummary metadata = "—" <-> metadata = None \/ metadata = Some [])
    /\ renderMetadataSummary metadata <> ""
    /\ (forall key v others,
          metadata = Some ((key, v) :: others) ->
          exists tail,
            renderMetadataSummary metadata = key ++ ": " ++ json_to_string v ++ tail).
Proof.
  intros metadata.
  assert (Hhead : forall key v others,
             exists tail,
               renderMetadataSummary (Some ((key, v) :: others))
               = key ++ ": " ++ json_to_string v ++ tail).
  { intros key v others. unfold renderMetadataSummary. cbn [map].
    destruct (concat_head ", " (key ++ ": " ++ json_to_string v)
                (map (fun kv : string * json =>
                        let (k, x) := kv in k ++ ": " ++ json_to_string x) others))
      as [tail Htail].
    exists tail. rewrite Htail, !string_append_assoc. reflexivity. }
  destruct metadata as [[|[key v] others]|].
  - split; [|split].
    + split; [right; reflexivity | reflexivity].
    + discriminate.
    + intros key v others Heq. discriminate.
  - destruct (Hhead key v others) as [tail Htail].
    split; [|split].
    + split.
      * intros Hdash. exfalso. rewrite Htail in Hdash.
        pose proof (colon_in_append key (json_to_string v ++ tail)) as Hcolon.
        rewrite Hdash in Hcolon. simpl in Hcolon.
        repeat (destruct Hcolon as [Hcolon | Hcolon]; [discriminate Hcolon|]).
        exact Hcolon.
      * intros [Hnone | Hempty]; discriminate.
    + rewrite Htail. intros Hblank.
      pose proof (colon_in_append key (json_to_string v ++ tail)) as Hcolon.
      rewrite Hblank in Hcolon. exact Hcolon.
    + intros key' v' others' Heq. injection Heq as <- <- <-. exact (Hhead key v others).
  - split; [|split].
    + split; [left; reflexivity | reflexivity].
    + discriminate.
    + intros key v others Heq. discriminate.
Qed.

(** ** Duplicate buttons *)

Lemma rendered_row_at (current : option string) (entries : list Transaction)
    (index : nat) (transaction : Transaction) :
  nth_error entries index = Some transaction ->
  nth_error (map bound_row (rendered_rows current entries)) index
  = Some (bound_row (transaction_row current transaction)).
Proof.
  intros Hnth. destruct entries as [|t rest].
  - destruct index; discriminate.
  - unfold rendered_rows. rewrite !nth_error_map, Hnth. reflexivity.
Qed.

Lemma rows_of_after_render (tbody : Tbody) (s : FinanceSnapshot)
    (incomes outgoings : list Transaction) (w : World) :
  income_body (finance_panel (page w)) <> None ->
  expense_body (finance_panel (page w)) <> None ->
  income s = Some incomes ->
  expenses s = Some outgoings ->
  rows_of tbody (finance_panel (page (fst (renderFinanceTables (Some s) w))))
  = Some (map bound_row
            (rendered_rows (current_selection w) (entries_of tbody incomes outgoings))).
Proof.
  intros Hi He Hincomes Houtgoings.
  destruct (rows_after_render s incomes outgoings w Hi He Hincomes Houtgoings)
    as [Hrows_i [Hrows_e _]].
  destruct tbody; assumption.
Qed.

Lemma duplicate_button_bound (content : list Cell) :
  duplicate_button (map add_listener content)
  = match duplicate_button content with
    | Some (data, n) => Some (data, S n)
    | None => None
    end.
Proof.
  induction content as [|[colspan text | data n] rest IH]; simpl;
    [reflexivity | exact IH | reflexivity].
Qed.

(** X13. After a complete render every transaction has its row at its own
    position in its table: the row carries the transaction's identifier in
    its data set, and its content is what the parser makes of the markup
    written for the transaction, each duplicate button with exactly one
    listener.  A click on the first of them looks up the identifier that the
    parser read from the button.  Where that is the transaction's identifier
    as written, the click runs [prepareFinanceForm] once, on the first
    transaction of income followed by expenses that carries it; where no
    transaction carries what the parser read, the click changes nothing. *)
Theorem rendered_button_selects_its_transaction :
  forall (s : FinanceSnapshot) (incomes outgoings : list Transaction)
         (tbody : Tbody) (index : nat) (transaction : Transaction) (data : string)
         (w : World),
    income_body (finance_panel (page w)) <> None ->
    expense_body (finance_panel (page w)) <> None ->
    income s = Some incomes ->
    expenses s = Some outgoings ->
    nth_error (entries_of tbody incomes outgoings) index = Some transaction ->
    duplicate_button (map fresh_cell (parse_row (row_markup transaction)))
    = Some (data, 0) ->
    let w' := fst (renderFinanceTables (Some s) w) in
    row_markup transaction
    = newline ++ "        <td>" ++ description transaction ++ "</td>"
        ++ newline ++ "        <td>" ++ category transaction ++ "</td>"
        ++ newline ++ "        <td>" ++ formatCurrency (amount transaction) ++ "</td>"
        ++ newline ++ "        <td>" ++ occurred_on transaction ++ "</td>"
        ++ newline ++ "        <td>" ++ renderMetadataSummary (metadata transaction)
        ++ "</td>"
        ++ newline ++ "        <td><button type=" ++ dquote ++ "button" ++ dquote
        ++ " class=" ++ dquote ++ "duplicate-transaction" ++ dquote
        ++ " data-transaction=" ++ dquote ++ transaction_id transaction ++ dquote
        ++ ">Duplicate</button></td>"
        ++ newline ++ "      "
    /\ (exists row,
          option_map (fun rows => nth_error rows index)
            (rows_of tbody (finance_panel (page w'))) = Some (Some row)
          /\ dataset_transactionId row = Some (transaction_id transaction)
          /\ cells row
             = map add_listener (map fresh_cell (parse_row (row_markup transaction)))
          /\ duplicate_button (cells row) = Some (data, 1))
    /\ duplicate_click tbody index w' = dispatch (duplicate_listener data) w'
    /\ (data = transaction_id transaction ->
        exists found,
          find (fun entry => String.eqb (transaction_id entry) (transaction_id transaction))
               (incomes ++ outgoings)%list = Some found
          /\ transaction_id found = transaction_id transaction
          /\ duplicate_click tbody index w' = prepareFinanceForm found w')
    /\ ((forall entry, In entry (incomes ++ outgoings)%list ->
                       transaction_id entry <> data) ->
        duplicate_click tbody index w' = w').
Proof.
  intros s incomes outgoings tbody index transaction data w
         Hi He Hincomes Houtgoings Hnth Hparsed w'.
  pose proof (rows_of_after_render tbody s incomes outgoings w Hi He Hincomes Houtgoings)
    as Hrows.
  destruct (rows_after_render s incomes outgoings w Hi He Hincomes Houtgoings)
    as [_ [_ [_ Hsnap]]].
  fold w' in Hrows, Hsnap.
  assert (Hbutton : duplicate_button
                      (cells (bound_row (transaction_row (current_selection w) transaction)))
                    = Some (data, 1)).
  { simpl. rewrite duplicate_button_bound, Hparsed. reflexivity. }
  assert (Hclick : duplicate_click tbody index w' = dispatch (duplicate_listener data) w').
  { unfold duplicate_click. rewrite Hrows, (rendered_row_at _ _ _ _ Hnth), Hbutton.
    reflexivity. }
  assert (Hlookup : findFinanceTransaction data w'
                    = inr (find (fun entry => String.eqb (transaction_id entry) data)
                             (incomes ++ outgoings)%list)).
  { unfold findFinanceTransaction. rewrite Hsnap, Hincomes, Houtgoings. reflexivity. }
  split; [reflexivity|]. split; [|split; [exact Hclick|split]].
  - exists (bound_row (transaction_row (current_selection w) transaction)).
    split; [rewrite Hrows; simpl; rewrite (rendered_row_at _ _ _ _ Hnth); reflexivity|].
    split; [reflexivity|]. split; [reflexivity | exact Hbutton].
  - intros ->.
    set (test := fun entry : Transaction =>
                   String.eqb (transaction_id entry) (transaction_id transaction)) in *.
    assert (Hin : In transaction (incomes ++ outgoings)%list).
    { apply in_or_app. apply nth_error_In in Hnth.
      destruct tbody; [left | right]; exact Hnth. }
    destruct (find test (incomes ++ outgoings)%list) as [found|] eqn:Hfind.
    + exists found. split; [reflexivity|]. split.
      * apply find_some in Hfind. apply String.eqb_eq, (proj2 Hfind).
      * rewrite Hclick. unfold dispatch, duplicate_listener. rewrite Hlookup.
        reflexivity.
    + exfalso. pose proof (find_none _ _ Hfind transaction Hin) as Hno.
      unfold test in Hno. rewrite String.eqb_refl in Hno. discriminate.
  - intros Habsent. rewrite Hclick. unfold dispatch, duplicate_listener.
    rewrite Hlookup.
    replace (find (fun entry => String.eqb (transaction_id entry) data)
               (incomes ++ outgoings)%list) with (@None Transaction); [reflexivity|].
    symmetry. apply find_none_iff. intros entry Hentry.
    apply String.eqb_neq, Habsent, Hentry.
Qed.

(** ** Choosing and clearing *)

Lemma highlight_recomputed (current : option string) (rows : list FinanceRow) :
  highlight_matches current
    (map (fun row => {| dataset_transactionId := dataset_transactionId row;
                        cells := cells row;
                        selected := same_id (dataset_transactionId row) current |})
         rows).
Proof.
  intros row Hin. apply in_map_iff in Hin. destruct Hin as [r [<- _]]. simpl.
  apply same_id_true.
Qed.

Lemma finance_rows_highlight (w : World) :
  finance_rows (highlightFinanceSelection w)
  = map (fun row => {| dataset_transactionId := dataset_transactionId row;
                       cells := cells row;
                       selected := same_id (dataset_transactionId row)
                                           (current_selection w) |})
        (finance_rows w).
Proof.
  unfold finance_rows, highlightFinanceSelection, current_selection. simpl.
  rewrite map_app.
  destruct (income_body (finance_panel (page w)));
    destruct (expense_body (finance_panel (page w))); reflexivity.
Qed.

Lemma highlighted_after_highlight (w : World) : rows_highlighted (highlightFinanceSelection w).
Proof.
  unfold rows_highlighted, finance_rows, highlightFinanceSelection, current_selection.
  simpl.
  apply highlight_matches_app.
  - destruct (income_body (finance_panel (page w))); simpl;
      [apply highlight_recomputed | intros row []].
  - destruct (expense_body (finance_panel (page w))); simpl;
      [apply highlight_recomputed | intros row []].
Qed.

Lemma summary_frame (transaction : option Transaction) (w : World) :
  state (updateFinanceSelectionSummary transaction w) = state w
  /\ finance_duplicate_form
       (finance_panel (page (updateFinanceSelectionSummary transaction w)))
     = finance_duplicate_form (finance_panel (page w))
  /\ finance_rows (updateFinanceSelectionSummary transaction w) = finance_rows w
  /\ finance_output (finance_panel (page (updateFinanceSelectionSummary transaction w)))
     = finance_output (finance_panel (page w))
  /\ network (updateFinanceSelectionSummary transaction w) = network w
  /\ logPanel (updateFinanceSelectionSummary transaction w) = logPanel w.
Proof.
  unfold updateFinanceSelectionSummary.
  destruct (finance_selection_summary (finance_panel (page w))); repeat split.
Qed.

Lemma summary_cleared (w : World) :
  finance_selection_summary (finance_panel (page (updateFinanceSelectionSummary None w)))
  = option_map (fun _ => "Select an entry to duplicate its details.")
      (finance_selection_summary (finance_panel (page w))).
Proof.
  unfold updateFinanceSelectionSummary.
  destruct (finance_selection_summary (finance_panel (page w))) eqn:Hsummary; simpl;
    [reflexivity | exact Hsummary].
Qed.

Lemma prepareFinanceForm_present (transaction : Transaction) (form : FormElement)
    (w : World) :
  finance_duplicate_form (finance_panel (page w)) = Some form ->
  prepareFinanceForm transaction w
  = highlightFinanceSelection
      (updateFinanceSelectionSummary (Some transaction)
         (on_finance (set_selectedId (Some (transaction_id transaction)))
            (on_finance_panel
               (set_finance_duplicate_form
                  (Some (set_controls (filled_from transaction) form))) w))).
Proof. intros Hform. unfold prepareFinanceForm. rewrite Hform. reflexivity. Qed.

Lemma prepareFinanceForm_effect (transaction : Transaction) (form : FormElement)
    (w : World) :
  finance_duplicate_form (finance_panel (page w)) = Some form ->
  let w' := prepareFinanceForm transaction w in
  current_selection w' = Some (transaction_id transaction)
  /\ finance_duplicate_form (finance_panel (page w'))
     = Some {| controls := filled_from transaction; defaults := defaults form |}
  /\ snapshot (finance (state w')) = snapshot (finance (state w))
  /\ network w' = network w
  /\ logPanel w' = logPanel w
  /\ rows_highlighted w'.
Proof.
  intros Hform w'. unfold w'.
  rewrite (prepareFinanceForm_present transaction form w Hform).
  split; [|split; [|split; [|split; [|split; [|apply highlighted_after_highlight]]]]];
    unfold highlightFinanceSelection, updateFinanceSelectionSummary, current_selection;
    simpl; destruct (finance_selection_summary (finance_panel (page w))); reflexivity.
Qed.

(** X14. Choosing a transaction for duplication, with the form in the page,
    makes its identifier the selection, fills every control of the form
    from it (the defaults of the form are kept), and leaves the [selected]
    class on exactly the rows with that identifier; the snapshot, the log
    and the network trace are left alone.  Without the form it does
    nothing at all. *)
Theorem prepareFinanceForm_selects_and_fills :
  forall (transaction : Transaction) (w : World),
    let w' := prepareFinanceForm transaction w in
    (forall form,
        finance_duplicate_form (finance_panel (page w)) = Some form ->
        current_selection w' = Some (transaction_id transaction)
        /\ finance_duplicate_form (finance_panel (page w'))
           = Some {| controls := filled_from transaction; defaults := defaults form |}
        /\ source_transaction_id (filled_from transaction) = transaction_id transaction
        /\ snapshot (finance (state w')) = snapshot (finance (state w))
        /\ network w' = network w
        /\ logPanel w' = logPanel w
        /\ highlight_matches (Some (transaction_id transaction)) (finance_rows w'))
    /\ (finance_duplicate_form (finance_panel (page w)) = None -> w' = w).
Proof.
  intros transaction w w'. split.
  - intros form Hform.
    destruct (prepareFinanceForm_effect transaction form w Hform)
      as [Hsel [Hfilled [Hsnap [Hnet [Hlog Hrows]]]]].
    fold w' in Hsel, Hfilled, Hsnap, Hnet, Hlog, Hrows.
    unfold rows_highlighted in Hrows. rewrite Hsel in Hrows.
    repeat (split; [assumption || reflexivity|]). exact Hrows.
  - intros Hform. unfold w', prepareFinanceForm. rewrite Hform. reflexivity.
Qed.

Lemma no_row_selected (rows : list FinanceRow) :
  Forall (fun row => selected row = false)
    (map (fun row => {| dataset_transactionId := dataset_transactionId row;
                        cells := cells row;
                        selected := same_id (dataset_transactionId row) None |})
         rows).
Proof.
  apply Forall_forall. intros row Hin. apply in_map_iff in Hin.
  destruct Hin as [r [<- _]]. simpl. destruct (dataset_transactionId r); reflexivity.
Qed.

(** X15. Clearing the selection, with the form in the page, resets every
    control of the form to its default and then empties the source
    transaction, leaves no selection and no row carrying the [selected]
    class, and puts the invitation back in the summary; a submission right
    after is refused without a request.  Without the form it does nothing
    at all. *)
Theorem clearFinanceSelection_resets :
  forall (w : World),
    let w' := clearFinanceSelection w in
    (forall form,
        finance_duplicate_form (finance_panel (page w)) = Some form ->
        current_selection w' = None
        /\ finance_duplicate_form (finance_panel (page w'))
           = Some {| controls :=
                       {| source_transaction_id := "";
                          form_description := form_description (defaults form);
                          form_category := form_category (defaults form);
                          form_amount := form_amount (defaults form);
                          form_occurred_on := form_occurred_on (defaults form);
                          form_transaction_type := form_transaction_type (defaults form);
                          form_metadata := form_metadata (defaults form) |};
                     defaults := defaults form |}
        /\ Forall (fun row => selected row = false) (finance_rows w')
        /\ finance_selection_summary (finance_panel (page w'))
           = option_map (fun _ => "Select an entry to duplicate its details.")
               (finance_selection_summary (finance_panel (page w)))
        /\ snapshot (finance (state w')) = snapshot (finance (state w))
        /\ network (submitFinanceDuplicate w') = network w)
    /\ (finance_duplicate_form (finance_panel (page w)) = None -> w' = w).
Proof.
  intros w w'. split.
  - intros form Hform.
    assert (Hw' : w' = highlightFinanceSelection
                         (updateFinanceSelectionSummary None
                            (on_finance (set_selectedId None)
                               (on_finance_panel
                                  (set_finance_duplicate_form
                                     (Some (set_controls
                                              {| source_transaction_id := "";
                                                 form_description := form_description (defaults form);
                                                 form_category := form_category (defaults form);
                                                 form_amount := form_amount (defaults form);
                                                 form_occurred_on := form_occurred_on (defaults form);
                                                 form_transaction_type :=
                                                   form_transaction_type (defaults form);
                                                 form_metadata := form_metadata (defaults form) |}
                                              form))) w)))).
    { unfold w', clearFinanceSelection. rewrite Hform. reflexivity. }
    match type of Hw' with
    | _ = highlightFinanceSelection (updateFinanceSelectionSummary None ?x) =>
        set (blanked := x) in Hw'
    end.
    set (inner := updateFinanceSelectionSummary None blanked) in Hw'.
    destruct (summary_frame None blanked) as [Hstate [Hkeep [Hrows0 [Hout0 [Hnet0 _]]]]].
    fold inner in Hstate, Hkeep, Hrows0, Hout0, Hnet0.
    assert (Hsel : current_selection inner = None).
    { unfold current_selection. rewrite Hstate. reflexivity. }
    assert (Hrows : finance_rows inner = finance_rows w).
    { rewrite Hrows0. reflexivity. }
    assert (Hsnap : snapshot (finance (state inner)) = snapshot (finance (state w))).
    { rewrite Hstate. reflexivity. }
    assert (Hnet : network inner = network w).
    { rewrite Hnet0. reflexivity. }
    assert (Hsummary : finance_selection_summary (finance_panel (page inner))
                       = option_map (fun _ => "Select an entry to duplicate its details.")
                           (finance_selection_summary (finance_panel (page w)))).
    { unfold inner. rewrite summary_cleared. reflexivity. }
    assert (Hform' : finance_duplicate_form (finance_panel (page w'))
                     = finance_duplicate_form (finance_panel (page inner))).
    { rewrite Hw'. reflexivity. }
    assert (Hpresent :
              finance_duplicate_form (finance_panel (page inner))
              = Some {| controls :=
                          {| source_transaction_id := "";
                             form_description := form_description (defaults form);
                             form_category := form_category (defaults form);
                             form_amount := form_amount (defaults form);
                             form_occurred_on := form_occurred_on (defaults form);
                             form_transaction_type := form_transaction_type (defaults form);
                             form_metadata := form_metadata (defaults form) |};
                        defaults := defaults form |}).
    { rewrite Hkeep. reflexivity. }
    split; [rewrite Hw'; exact Hsel|].
    split; [rewrite Hform'; exact Hpresent|].
    split.
    { rewrite Hw', finance_rows_highlight, Hsel. apply no_row_selected. }
    split; [rewrite Hw'; exact Hsummary|].
    split; [rewrite Hw'; exact Hsnap|].
    unfold submitFinanceDuplicate. rewrite Hform', Hpresent. simpl.
    unfold write_finance_output.
    destruct (finance_output (finance_panel (page w'))); simpl; rewrite Hw'; exact Hnet.
  - intros Hform. unfold w', clearFinanceSelection. rewrite Hform. reflexivity.
Qed.

(** X16. Choosing a first transaction and then a second one leaves the form
    exactly as choosing the second alone would: only the second one's
    fields are in it, the selection is the second one's identifier, and a
    submission then sends one POST to the duplication endpoint whose source
    is that identifier. *)
Theorem second_choice_replaces_first :
  forall (first second : Transaction) (form : FormElement) (w : World),
    finance_duplicate_form (finance_panel (page w)) = Some form ->
    transaction_id second <> "" ->
    let w' := prepareFinanceForm second (prepareFinanceForm first w) in
    finance_duplicate_form (finance_panel (page w'))
    = finance_duplicate_form (finance_panel (page (prepareFinanceForm second w)))
    /\ current_selection w' = Some (transaction_id second)
    /\ exists data,
         network (submitFinanceDuplicate w')
         = (network w ++ [{| url := "/finance/duplicate"; method := "POST";
                             body := Some data |}])%list
         /\ formData_get "source_transaction_id" data
            = Some (FormText (transaction_id second))
         /\ formData_get "description" data = Some (FormText (description second))
         /\ formData_get "transaction_type" data
            = Some (FormText (transaction_type second)).
Proof.
  intros first second form w Hform Hid w'.
  destruct (prepareFinanceForm_effect first form w Hform)
    as [_ [Hform1 [_ [Hnet1 _]]]].
  destruct (prepareFinanceForm_effect second _ (prepareFinanceForm first w) Hform1)
    as [Hsel2 [Hform2 [_ [Hnet2 _]]]].
  destruct (prepareFinanceForm_effect second form w Hform) as [_ [Hdirect _]].
  fold w' in Hsel2, Hform2, Hnet2. simpl defaults in Hform2.
  split; [rewrite Hform2, Hdirect; reflexivity|]. split; [exact Hsel2|].
  exists (FormData_of (filled_from second)).
  unfold submitFinanceDuplicate. rewrite Hform2. simpl controls.
  assert (Htruthy : string_truthy (source_transaction_id (filled_from second)) = true).
  { simpl. destruct (transaction_id second); [congruence | reflexivity]. }
  rewrite Htruthy. unfold fetch. simpl network. rewrite Hnet2, Hnet1.
  repeat split.
Qed.

(** ** The highlighting as an invariant *)

Lemma highlight_view (w w' : World) :
  finance_view w' = finance_view w -> keeps_highlight w w'.
Proof.
  unfold finance_view, keeps_highlight, rows_highlighted, finance_rows.
  intros Hview Hw. injection Hview as Hsel Hi He. rewrite Hsel, Hi, He. exact Hw.
Qed.

Lemma keeps_highlight_refl (w : World) : keeps_highlight w w.
Proof. intros Hw. exact Hw. Qed.

Lemma keeps_highlight_trans (a b c : World) :
  keeps_highlight a b -> keeps_highlight b c -> keeps_highlight a c.
Proof. intros Hab Hbc Ha. apply Hbc, Hab, Ha. Qed.

Lemma highlight_matches_split (current : option string) (rows1 rows2 : list FinanceRow) :
  highlight_matches current (rows1 ++ rows2)
  <-> highlight_matches current rows1 /\ highlight_matches current rows2.
Proof.
  split.
  - intros Hall. split; intros row Hin; apply Hall, in_or_app; [left | right]; exact Hin.
  - intros [H1 H2]. apply highlight_matches_app; assumption.
Qed.

Lemma highlight_rendered_rows (current : option string) (entries : list Transaction) :
  highlight_matches current (rendered_rows current entries).
Proof.
  intros row Hin. destruct entries as [|t rest].
  - destruct Hin as [<- | []]. simpl.
    split; [discriminate | intros [id [H _]]; discriminate].
  - unfold rendered_rows in Hin. apply in_map_iff in Hin. destruct Hin as [t' [<- _]].
    simpl. rewrite same_id_true. split.
    + intros [id [Hc Hid]]. exists id. split; [exact Hid | exact Hc].
    + intros [id [Hid Hc]]. exists id. split; [exact Hc | exact Hid].
Qed.

Lemma highlight_bound (current : option string) (rows : list FinanceRow) :
  highlight_matches current rows -> highlight_matches current (map bound_row rows).
Proof.
  intros Hrows row Hin. apply in_map_iff in Hin. destruct Hin as [r [<- Hr]].
  exact (Hrows r Hr).
Qed.

Lemma keeps_highlight_set_rows (tbody : Tbody) (rows : list FinanceRow) (w : World) :
  highlight_matches (current_selection w) rows ->
  keeps_highlight w (set_rows tbody rows w).
Proof.
  unfold keeps_highlight, rows_highlighted, finance_rows. intros Hrows Hw.
  apply highlight_matches_split in Hw. destruct Hw as [Hi He].
  apply highlight_matches_split.
  destruct tbody; simpl; split; assumption.
Qed.

Lemma keeps_highlight_renderRows (tbody : Tbody) (entries : option (list Transaction)) :
  respectsM keeps_highlight (renderRows tbody entries).
Proof.
  intros w. destruct entries as [transactions|].
  - rewrite renderRows_defined. simpl.
    apply keeps_highlight_set_rows, highlight_rendered_rows.
  - unfold renderRows, bind, exec. simpl.
    apply keeps_highlight_set_rows. intros row [].
Qed.

Lemma keeps_highlight_bind_buttons (w : World) :
  keeps_highlight w (bindFinanceDuplicateButtons w).
Proof.
  unfold keeps_highlight, rows_highlighted, finance_rows, bindFinanceDuplicateButtons,
    current_selection.
  simpl. intros Hw.
  apply highlight_matches_split in Hw. destruct Hw as [Hi He].
  apply highlight_matches_split. split.
  - destruct (income_body (finance_panel (page w))); simpl;
      [apply (highlight_bound _ _ Hi) | exact Hi].
  - destruct (expense_body (finance_panel (page w))); simpl;
      [apply (highlight_bound _ _ He) | exact He].
Qed.

Lemma keeps_highlight_renderFinanceTables (received : option FinanceSnapshot) :
  respectsM keeps_highlight (renderFinanceTables received).
Proof.
  unfold renderFinanceTables.
  apply (respectsM_bind keeps_highlight keeps_highlight_trans).
  - apply respectsM_exec. intros w. apply highlight_view. reflexivity.
  - intros _ w.
    destruct (income_body (finance_panel (page w))); [|apply keeps_highlight_refl].
    destruct (expense_body (finance_panel (page w))); [|apply keeps_highlight_refl].
    destruct received as [s|]; [|apply keeps_highlight_refl].
    apply (respectsM_bind keeps_highlight keeps_highlight_trans (renderRows _ _));
      [apply keeps_highlight_renderRows|].
    intros _. apply (respectsM_bind keeps_highlight keeps_highlight_trans);
      [apply keeps_highlight_renderRows|].
    intros _. apply respectsM_exec. intros w'. apply keeps_highlight_bind_buttons.
Qed.

Lemma keeps_highlight_write_finance_output (text : string) (w : World) :
  keeps_highlight w (write_finance_output text w).
Proof.
  apply highlight_view. unfold write_finance_output.
  destruct (finance_output (finance_panel (page w))); reflexivity.
Qed.

Lemma keeps_highlight_prepare (transaction : Transaction) (w : World) :
  keeps_highlight w (prepareFinanceForm transaction w).
Proof.
  intros Hw. unfold prepareFinanceForm.
  destruct (finance_duplicate_form (finance_panel (page w)));
    [apply highlighted_after_highlight | exact Hw].
Qed.

Lemma keeps_highlight_clear (w : World) : keeps_highlight w (clearFinanceSelection w).
Proof.
  intros Hw. unfold clearFinanceSelection.
  destruct (finance_duplicate_form (finance_panel (page w)));
    [apply highlighted_after_highlight | exact Hw].
Qed.

Lemma keeps_highlight_duplicate_click (tbody : Tbody) (index : nat) (w : World) :
  keeps_highlight w (duplicate_click tbody index w).
Proof.
  unfold duplicate_click.
  destruct (rows_of tbody (finance_panel (page w))) as [rows|]; [|apply keeps_highlight_refl].
  destruct (nth_error rows index) as [row|]; [|apply keeps_highlight_refl].
  destruct (duplicate_button (cells row)) as [[id n]|]; [|apply keeps_highlight_refl].
  apply (respects_iter keeps_highlight keeps_highlight_refl keeps_highlight_trans).
  intros w0. unfold dispatch, duplicate_listener.
  destruct (findFinanceTransaction id w0) as [e | [transaction|]]; simpl;
    [apply keeps_highlight_refl | apply keeps_highlight_prepare | apply keeps_highlight_refl].
Qed.

Lemma keeps_highlight_step (e : Event) (w : World) : keeps_highlight w (step e w).
Proof.
  destruct e; simpl step;
    try (destruct (draw_listeners (leaflet (state w))); [|apply keeps_highlight_refl]);
    try (destruct (drawingManager (google (state w))); [|apply keeps_highlight_refl]);
    try (apply highlight_view; first [reflexivity | footprint]).
  - unfold loadFinanceTransactions_settled.
    apply (respects_try_catch keeps_highlight keeps_highlight_trans).
    + destruct (safeJsonFetch settled);
        [apply (respectsM_throw keeps_highlight keeps_highlight_refl)
        |apply keeps_highlight_renderFinanceTables].
    + intros e w0. apply keeps_highlight_write_finance_output.
  - apply keeps_highlight_duplicate_click.
  - apply highlight_view. unfold finance_form_input.
    destruct (finance_duplicate_form (finance_panel (page w))); reflexivity.
  - unfold submitFinanceDuplicate.
    destruct (finance_duplicate_form (finance_panel (page w))) as [form|];
      [|apply keeps_highlight_refl].
    destruct (string_truthy (source_transaction_id (controls form)));
      [apply highlight_view; reflexivity | apply keeps_highlight_write_finance_output].
  - unfold submitFinanceDuplicate_settled.
    destruct (finance_duplicate_form (finance_panel (page w))) as [form|];
      [|apply keeps_highlight_refl].
    apply (respects_try_catch keeps_highlight keeps_highlight_trans).
    + destruct (safeJsonFetch settled) as [error | payload];
        [apply (respectsM_throw keeps_highlight keeps_highlight_refl)|].
      apply (respectsM_bind keeps_highlight keeps_highlight_trans);
        [apply keeps_highlight_renderFinanceTables|].
      intros _. apply (respectsM_bind keeps_highlight keeps_highlight_trans).
      * apply respectsM_exec. intros w0. apply keeps_highlight_write_finance_output.
      * intros _. apply respectsM_exec. intros w0. apply highlight_view.
        destruct (finance_duplicate_form (finance_panel (page w0))); reflexivity.
    + intros e w0. apply keeps_highlight_write_finance_output.
  - destruct (finance_clear_selection (finance_panel (page w)));
      [apply keeps_highlight_clear | apply keeps_highlight_refl].
Qed.

(** X17. Once the [selected] class sits on exactly the rows whose
    identifier is the selected one, it does so after page load and after
    every event, whatever the event delivers: renders that complete, renders
    that stop half-way on a reply without lists, choices, clearings and
    failed requests included. *)
Theorem highlighting_is_invariant :
  forall (w : World),
    rows_highlighted w ->
    rows_highlighted (DOMContentLoaded w)
    /\ forall e, rows_highlighted (step e w).
Proof.
  intros w Hw. split.
  - revert Hw. apply highlight_view. footprint.
  - intros e. exact (keeps_highlight_step e w Hw).
Qed.

(** ** Finance requests that go wrong *)

(** X18. When the request for the finance transactions, or a duplication
    request, fails, the handler only writes the failure into the finance
    output area, where the page has one: the snapshot, the selection, the
    table rows, the form, the log and the network trace are as before. *)
Theorem finance_failures_leave_tables :
  forall (error : exn) (w : World),
    (forall settled : fetched FinanceSnapshot,
        safeJsonFetch settled = inl error ->
        loadFinanceTransactions_settled settled w
        = write_finance_output ("Failed to load finance data: " ++ message error) w)
    /\ (forall settled : fetched DuplicatePayload,
          safeJsonFetch settled = inl error ->
          finance_duplicate_form (finance_panel (page w)) <> None ->
          submitFinanceDuplicate_settled settled w
          = write_finance_output ("Duplication failed: " ++ message error) w)
    /\ (forall text,
          let w' := write_finance_output text w in
          state w' = state w
          /\ finance_rows w' = finance_rows w
          /\ finance_duplicate_form (finance_panel (page w'))
             = finance_duplicate_form (finance_panel (page w))
          /\ logPanel w' = logPanel w
          /\ network w' = network w
          /\ finance_output (finance_panel (page w'))
             = option_map (fun _ => text) (finance_output (finance_panel (page w)))).
Proof.
  intros error w. split; [|split].
  - intros settled Hfail. unfold loadFinanceTransactions_settled, try_catch.
    rewrite Hfail. reflexivity.
  - intros settled Hfail Hform. unfold submitFinanceDuplicate_settled.
    destruct (finance_duplicate_form (finance_panel (page w))); [|congruence].
    unfold try_catch. rewrite Hfail. reflexivity.
  - intros text w'.
    destruct (write_finance_output_spec text w) as [Hs [Hn [Hl [Ho [Hf [_ Hr]]]]]].
    repeat split; assumption.
Qed.

(** X19. A success reply to the finance request that carries no lists (a
    body that is not JSON gives the empty object) is stored as the snapshot
    all the same; the income body is emptied before the renderer throws, the
    expense body keeps its rows, and the failure is written to the output
    area.  From then on [findFinanceTransaction] throws for every
    identifier, so a click on any duplicate button changes nothing. *)
Theorem finance_reply_without_lists :
  forall (status : N) (income_rows expense_rows : list FinanceRow) (w : World),
    income_body (finance_panel (page w)) = Some income_rows ->
    expense_body (finance_panel (page w)) = Some expense_rows ->
    let w' := loadFinanceTransactions_settled (Responded (Ok_ status None)) w in
    snapshot (finance (state w')) = Some {| income := None; expenses := None |}
    /\ current_selection w' = current_selection w
    /\ income_body (finance_panel (page w')) = Some []
    /\ expense_body (finance_panel (page w')) = Some expense_rows
    /\ finance_output (finance_panel (page w'))
       = option_map
           (fun _ => "Failed to load finance data: "
                       ++ typeErrorMessage "read property length of undefined")
           (finance_output (finance_panel (page w)))
    /\ (forall id, findFinanceTransaction id w' = inl (TypeError "spread income"))
    /\ (forall tbody index, duplicate_click tbody index w' = w').
Proof.
  intros status income_rows expense_rows w Hi He w'.
  set (text := "Failed to load finance data: "
                 ++ typeErrorMessage "read property length of undefined").
  set (emptied := set_rows incomeBody []
                    (on_finance (set_snapshot (Some {| income := None; expenses := None |}))
                       w)).
  assert (Hw' : w' = write_finance_output text emptied).
  { unfold w', loadFinanceTransactions_settled, try_catch. cbn [safeJsonFetch].
    unfold renderFinanceTables, bind, exec. simpl. rewrite Hi, He. reflexivity. }
  destruct (write_finance_output_spec text emptied) as [Hs [_ [_ [Ho _]]]].
  assert (Hbodies : income_body (finance_panel (page w')) = Some []
                    /\ expense_body (finance_panel (page w')) = Some expense_rows).
  { rewrite Hw'. unfold write_finance_output.
    destruct (finance_output (finance_panel (page emptied))); simpl;
      (split; [reflexivity | exact He]). }
  assert (Hfind : forall id, findFinanceTransaction id w' = inl (TypeError "spread income")).
  { intros id. unfold findFinanceTransaction. rewrite Hw', Hs. reflexivity. }
  split; [rewrite Hw', Hs; reflexivity|].
  split; [unfold current_selection; rewrite Hw', Hs; reflexivity|].
  split; [exact (proj1 Hbodies)|]. split; [exact (proj2 Hbodies)|].
  split; [rewrite Hw', Ho; reflexivity|].
  split; [exact Hfind|].
  intros tbody index. unfold duplicate_click.
  destruct (rows_of tbody (finance_panel (page w'))) as [rows|]; [|reflexivity].
  destruct (nth_error rows index) as [row|]; [|reflexivity].
  destruct (duplicate_button (cells row)) as [[id n]|]; [|reflexivity].
  induction n as [|n IH]; simpl; [reflexivity|].
  rewrite IH. unfold dispatch, duplicate_listener. rewrite Hfind. reflexivity.
Qed.

(** ** Route planning, the other fields *)

Lemma lookup_delete_other (key other : string) (data : FormData) :
  other <> key -> lookup other (formData_delete key data) = lookup other data.
Proof.
  intros Hother. induction data as [|[k v] rest IH]; simpl; [reflexivity|].
  destruct (String.eqb k key) eqn:Hk; simpl.
  - apply String.eqb_eq in Hk. subst k.
    destruct (String.eqb key other) eqn:Hko.
    + apply String.eqb_eq in Hko. congruence.
    + exact IH.
  - rewrite IH. reflexivity.
Qed.

Lemma formData_get_set_other (key other text : string) (data : FormData) :
  other <> key ->
  formData_get other (formData_set key text data) = formData_get other data.
Proof.
  intros Hother. unfold formData_get.
  assert (Hneq : String.eqb key other = false).
  { apply String.eqb_neq. congruence. }
  induction data as [|[k v] rest IH]; simpl.
  - rewrite Hneq. reflexivity.
  - destruct (String.eqb k key) eqn:Hk; simpl.
    + apply String.eqb_eq in Hk. subst k. rewrite Hneq.
      apply lookup_delete_other, Hother.
    + rewrite IH. reflexivity.
Qed.

(** X20. Submitting the route form always sends one POST to the route
    planner and touches neither the script state, the page nor the log.
    Every field other than [area_geojson] goes out as the form holds it;
    with no geometry drawn the form data goes out untouched: the script
    does not hold the request back. *)
Theorem submitRoute_keeps_other_fields :
  forall (entries : FormData) (w : World),
    exists data,
      network (submitRoute entries w)
      = (network w ++ [{| url := "/plan-route"; method := "POST";
                          body := Some data |}])%list
      /\ (forall key, key <> "area_geojson" ->
            formData_get key data = formData_get key entries)
      /\ (truthy (Some (drawnGeoJson (state w))) = false -> data = entries)
      /\ state (submitRoute entries w) = state w
      /\ page (submitRoute entries w) = page w
      /\ logPanel (submitRoute entries w) = logPanel w.
Proof.
  intros entries w. unfold submitRoute.
  destruct (truthy (Some (drawnGeoJson (state w)))) eqn:Hset.
  - eexists. split; [reflexivity|]. split; [|split; [discriminate | repeat split]].
    intros key Hkey. apply formData_get_set_other, Hkey.
  - exists entries. split; [reflexivity|]. repeat split.
Qed.

(** ** Page load *)

(** X21. Page load from the script's initial state leaves the page as it
    is and sends the two GET requests for the survey days and the finance
    transactions, in that order, exactly when both map initialisations
    return; otherwise it sends nothing.  The Leaflet one returns unless its
    container is in the page while the global [L] or the drawing plugin is
    missing; without [L] nothing at all has happened, without the plugin the
    map is stored but carries no drawing listener.  The Google one is only
    reached then; it returns unless its container is in the page and the
    Maps script is loaded without the drawing library, in which case the map
    is stored but no drawing manager; a missing Maps script is reported in
    the log.  An adapter without its listeners ignores every drawing
    event. *)
Theorem page_load_initialises_adapters :
  forall (w : World),
    state w = initial_state ->
    let w' := DOMContentLoaded w in
    let leaflet_returns :=
      match leaflet_map_element (page w) with
      | None => true
      | Some _ => leaflet_script (page w) && leaflet_draw (page w)
      end in
    let google_returns :=
      match google_map_element (page w) with
      | None => true
      | Some _ => negb (google_script (page w)) || google_drawing (page w)
      end in
    let requests :=
      [{| url := "/survey-days"; method := "GET"; body := None |};
       {| url := "/finance/transactions"; method := "GET"; body := None |}] in
    page w' = page w
    /\ network w'
       = (network w ++ if leaflet_returns && google_returns then requests else [])%list
    /\ (leaflet_map (leaflet (state w')) = true
        <-> leaflet_map_element (page w) <> None /\ leaflet_script (page w) = true)
    /\ (draw_listeners (leaflet (state w')) = true
        <-> leaflet_map_element (page w) <> None /\ leaflet_script (page w) = true
            /\ leaflet_draw (page w) = true)
    /\ (google_map (google (state w')) = true
        <-> leaflet_returns = true /\ google_map_element (page w) <> None
            /\ google_script (page w) = true)
    /\ (drawingManager (google (state w')) = true
        <-> leaflet_returns = true /\ google_map_element (page w) <> None
            /\ google_script (page w) = true /\ google_drawing (page w) = true)
    /\ (leaflet_map_element (page w) <> None -> leaflet_script (page w) = false ->
        w' = w)
    /\ (draw_listeners (leaflet (state w')) = false ->
        forall geojson layers,
          step (LeafletCreated geojson) w' = w'
          /\ step (LeafletEdited layers) w' = w'
          /\ step LeafletDeleted w' = w')
    /\ (drawingManager (google (state w')) = false ->
        forall drawn, step (GoogleOverlayComplete drawn) w' = w')
    /\ (leaflet_returns = true -> google_map_element (page w) <> None ->
        google_script (page w) = false ->
        logPanel w'
        = toISOString (clock (fst (initialiseLeafletMap w))) ++ ": "
            ++ "Google Maps script not detected. Configure API key to enable."
            ++ newline ++ logPanel (fst (initialiseLeafletMap w)))
    /\ finance (state w') = finance (state w)
    /\ surveyCaptures (state w') = surveyCaptures (state w)
    /\ drawnGeoJson (state w') = drawnGeoJson (state w).
Proof.
  intros w Hstate w' leaflet_returns google_returns requests.
  assert (Hlisten : forall x : World,
             (draw_listeners (leaflet (state x)) = false ->
              forall geojson layers,
                step (LeafletCreated geojson) x = x
                /\ step (LeafletEdited layers) x = x
                /\ step LeafletDeleted x = x)
             /\ (drawingManager (google (state x)) = false ->
                 forall drawn, step (GoogleOverlayComplete drawn) x = x)).
  { intros x. split.
    - intros Hoff geojson layers. cbn [step]. rewrite Hoff. repeat split.
    - intros Hoff drawn. cbn [step]. rewrite Hoff. reflexivity. }
  destruct (Hlisten w') as [Hleaflet_off Hgoogle_off]. clear Hlisten.
  repeat match goal with
         | |- _ /\ _ => split
         end;
    try exact Hleaflet_off; try exact Hgoogle_off; clear Hleaflet_off Hgoogle_off;
    subst w' leaflet_returns google_returns requests;
    destruct w as [st pg lg ck nw]; simpl in Hstate; subst st;
    destruct pg as [le ge ls ld gs gd area out sp fp pe pm];
    unfold DOMContentLoaded, dispatch, bind, initialiseLeafletMap, initialiseGoogleMap,
      exec, loadSurveyDays, loadFinanceTransactions, fetch;
    cbn [page leaflet_map_element google_map_element leaflet_script leaflet_draw
         google_script google_drawing];
    destruct le as [hidden_l|]; destruct ls; destruct ld;
    destruct ge as [hidden_g|]; destruct gs; destruct gd;
    cbn;
    try reflexivity;
    try (rewrite <- app_assoc; reflexivity);
    try (rewrite app_nil_r; reflexivity);
    try (split; [intros H; try discriminate; repeat split; congruence
                |intros H; try reflexivity; decompose [and] H; congruence]);
    try (intros; congruence).
Qed.

Lemma rendered_rows_explicit (current : option string) (entries : list Transaction) :
  map bound_row (rendered_rows current entries)
  = match entries with
    | [] => [{| dataset_transactionId := None;
                cells := [Td 6 "No entries recorded yet."];
                selected := false |}]
    | _ =>
        map (fun transaction =>
               {| dataset_transactionId := Some (transaction_id transaction);
                  cells := map add_listener
                             (map fresh_cell (parse_row (row_markup transaction)));
                  selected := same_id current (Some (transaction_id transaction)) |})
            entries
    end.
Proof.
  destruct entries as [|t rest]; [reflexivity|].
  unfold rendered_rows. rewrite map_map. reflexivity.
Qed.

(** X22. A finance snapshot that arrives with both lists, from the
    transactions request or with a successful duplication, replaces the
    stored snapshot whatever it held, and each table body shows its list and
    nothing else: the placeholder row for an empty list, otherwise one row
    per transaction, in order, with the transaction's identifier in its data
    set, the content the parser makes of the markup written for it, one
    listener on each duplicate button, and the [selected] class exactly
    when the identifier is the selected one.  The transactions request
    writes neither the output area nor the log; the duplication shows the
    new transaction in the output area and logs the source identifier the
    form holds at that moment. *)
Theorem finance_snapshot_replaces_wholesale :
  forall (status : N) (s : FinanceSnapshot) (incomes outgoings : list Transaction)
         (w : World),
    income_body (finance_panel (page w)) <> None ->
    expense_body (finance_panel (page w)) <> None ->
    income s = Some incomes ->
    expenses s = Some outgoings ->
    let shown := fun (w' : World) (tbody : Tbody) =>
      rows_of tbody (finance_panel (page w'))
      = Some match entries_of tbody incomes outgoings with
             | [] => [{| dataset_transactionId := None;
                         cells := [Td 6 "No entries recorded yet."];
                         selected := false |}]
             | _ =>
                 map (fun transaction =>
                        {| dataset_transactionId := Some (transaction_id transaction);
                           cells := map add_listener
                                      (map fresh_cell
                                         (parse_row (row_markup transaction)));
                           selected := same_id (current_selection w)
                                         (Some (transaction_id transaction)) |})
                     (entries_of tbody incomes outgoings)
             end in
    (let w' := loadFinanceTransactions_settled (Responded (Ok_ status (Some s))) w in
     snapshot (finance (state w')) = Some s
     /\ (forall tbody, shown w' tbody)
     /\ finance_output (finance_panel (page w')) = finance_output (finance_panel (page w))
     /\ logPanel w' = logPanel w
     /\ network w' = network w)
    /\ (forall raw form,
          finance_duplicate_form (finance_panel (page w)) = Some form ->
          let w' := submitFinanceDuplicate_settled
                      (Responded (Ok_ status (Some {| duplicated_transaction := Some raw;
                                                      duplicated_snapshot := Some s |})))
                      w in
          snapshot (finance (state w')) = Some s
          /\ (forall tbody, shown w' tbody)
          /\ finance_output (finance_panel (page w'))
             = option_map (fun _ => stringify_pretty raw)
                 (finance_output (finance_panel (page w)))
          /\ logPanel w'
             = toISOString (clock w) ++ ": " ++ "Duplicated transaction "
                 ++ source_transaction_id (controls form) ++ "." ++ newline
                 ++ logPanel w
          /\ network w' = network w).
Proof.
  intros status s incomes outgoings w Hi He Hincomes Houtgoings shown.
  pose proof (renderFinanceTables_defined s incomes outgoings w Hi He Hincomes Houtgoings)
    as Hrender.
  assert (Hbodies : forall tbody, shown (fst (renderFinanceTables (Some s) w)) tbody).
  { intros tbody. unfold shown.
    rewrite (rows_of_after_render tbody s incomes outgoings w Hi He Hincomes Houtgoings).
    rewrite rendered_rows_explicit. reflexivity. }
  remember (fst (renderFinanceTables (Some s) w)) as rendered eqn:Hrendered.
  assert (Hrun : renderFinanceTables (Some s) w = (rendered, inr tt)).
  { rewrite Hrendered, Hrender. reflexivity. }
  assert (Hframe : snapshot (finance (state rendered)) = Some s
                   /\ finance_output (finance_panel (page rendered))
                      = finance_output (finance_panel (page w))
                   /\ finance_duplicate_form (finance_panel (page rendered))
                      = finance_duplicate_form (finance_panel (page w))
                   /\ logPanel rendered = logPanel w
                   /\ clock rendered = clock w
                   /\ network rendered = network w).
  { rewrite Hrendered, Hrender. repeat split. }
  destruct Hframe as [Hsnap [Hout [Hform0 [Hlog [Hclock Hnet]]]]].
  split.
  - assert (Hw' : loadFinanceTransactions_settled (Responded (Ok_ status (Some s))) w
                  = rendered).
    { unfold loadFinanceTransactions_settled, try_catch. cbn [safeJsonFetch].
      rewrite Hrun. reflexivity. }
    cbv zeta. rewrite Hw'. repeat split; assumption.
  - intros raw form Hform w'.
    assert (Hshown : forall tbody, shown w' tbody).
    { intros tbody. unfold shown, w'.
      rewrite (duplicate_settled_rows status (Some raw) s incomes outgoings tbody w)
        by (assumption || congruence).
      rewrite <- Hrendered. apply Hbodies. }
    pose proof (submitFinanceDuplicate_settled_rendered status
                  {| duplicated_transaction := Some raw; duplicated_snapshot := Some s |}
                  form w rendered Hform Hrun) as Hw'.
    cbv beta iota zeta delta [duplicated_transaction] in Hw'. fold w' in Hw'.
    destruct (write_finance_output_spec (stringify_pretty raw) rendered)
      as [Hs [Hn [Hl [Ho [Hf [_ Hr]]]]]].
    rewrite Hf, Hform0, Hform in Hw'.
    split; [|split; [exact Hshown|]]; clear Hshown;
      rewrite Hw'; rewrite ?appendLog_state, ?appendLog_page,
                     ?appendLog_network, ?Hs, ?Ho, ?Hn, ?Hout.
    + exact Hsnap.
    + split; [reflexivity|]. split; [|exact Hnet].
      unfold appendLog. simpl logPanel.
      assert (Hc : clock (write_finance_output (stringify_pretty raw) rendered) = clock w).
      { unfold write_finance_output.
        destruct (finance_output (finance_panel (page rendered))); exact Hclock. }
      rewrite Hc, Hl, Hlog, !string_append_assoc. reflexivity.
Qed.

(** X23. A success reply to the survey request that carries no [captures]
    (a body that is not JSON gives the empty object) still overwrites the
    stored collection, with [undefined]; the list is emptied before the
    renderer throws, so no capture can be selected afterwards; the two
    selectors keep their options, and the one log entry is the caught
    failure. *)
Theorem survey_reply_without_captures :
  forall (status : N) (w : World),
    let w' := loadSurveyDays_settled (Responded (Ok_ status None)) w in
    surveyCaptures (state w') = None
    /\ survey_days (survey_panel (page w')) = []
    /\ (forall index, capture_click index w' = w')
    /\ base_capture_select (survey_panel (page w'))
       = base_capture_select (survey_panel (page w))
    /\ target_capture_select (survey_panel (page w'))
       = target_capture_select (survey_panel (page w))
    /\ survey_summary (survey_panel (page w')) = survey_summary (survey_panel (page w))
    /\ logPanel w'
       = toISOString (clock w) ++ ": " ++ "Failed to load survey days: "
           ++ typeErrorMessage "read property forEach of undefined"
           ++ newline ++ logPanel w
    /\ network w' = network w.
Proof.
  intros status w w'.
  split; [reflexivity|]. split; [reflexivity|]. split.
  - intros index. unfold capture_click.
    change (survey_days (survey_panel (page w'))) with (@nil CaptureButton).
    destruct index; reflexivity.
  - repeat split.
Qed.

End Properties.

(** * The properties at work on the sample page *)

#[local] Existing Instance Sample.host.

Lemma submitRoute_sends_current_geometry_witness :
  truthy (Some (drawnGeoJson (state Sample.busy))) = true
  /\ exists data,
       network (submitRoute Sample.route_entries Sample.busy)
       = (network Sample.busy
          ++ [{| url := "/plan-route"; method := "POST"; body := Some data |}])%list
       /\ formData_get "area_geojson" data
          = Some (FormText (stringify Sample.survey_area)).
Proof.
  split; [reflexivity|].
  destruct (submitRoute_sends_current_geometry Sample.route_entries Sample.busy eq_refl)
    as [data [Hnet [Hget _]]].
  exists data. split; [exact Hnet | exact Hget].
Defined.

Lemma loadSurveyDays_failure_keeps_collection_witness :
  safeJsonFetch Sample.offline = inl (Error "database offline")
  /\ surveyCaptures (state (loadSurveyDays_settled Sample.offline Sample.surveyed))
     = Some [Sample.north_yard]
  /\ page (loadSurveyDays_settled Sample.offline Sample.surveyed) = page Sample.surveyed
  /\ logPanel (loadSurveyDays_settled Sample.offline Sample.surveyed)
     = "2024-05-01T00:00:04.000Z: Failed to load survey days: database offline"
         ++ newline ++ logPanel Sample.surveyed.
Proof.
  split; [reflexivity|].
  destruct (loadSurveyDays_failure_keeps_collection Sample.offline
              (Error "database offline") Sample.surveyed eq_refl)
    as [Hcaptures [_ [Hpage [_ Hlog]]]].
  split; [exact Hcaptures|]. split; [exact Hpage | exact Hlog].
Defined.

Lemma submitFinanceDuplicate_without_selection_witness :
  source_transaction_id Sample.blank_form = ""
  /\ network (submitFinanceDuplicate Sample.busy) = network Sample.busy
  /\ state (submitFinanceDuplicate Sample.busy) = state Sample.busy
  /\ finance_output (finance_panel (page (submitFinanceDuplicate Sample.busy)))
     = Some "Choose an entry to duplicate before submitting.".
Proof.
  split; [reflexivity|].
  destruct (submitFinanceDuplicate_without_selection Sample.busy
              {| controls := Sample.blank_form; defaults := Sample.blank_form |}
              eq_refl eq_refl)
    as [Hnet [Hstate [_ [_ [Hout _]]]]].
  split; [exact Hnet|]. split; [exact Hstate | exact Hout].
Defined.

Lemma selection_survives_rerender_witness :
  current_selection Sample.chosen = Some "t1"
  /\ current_selection (step FinanceSubmit Sample.chosen) = Some "t1"
  /\ current_selection (fst (renderFinanceTables (Some Sample.ledger) Sample.chosen))
     = Some "t1"
  /\ (exists row,
        option_map (fun rows => nth_error rows 0)
          (rows_of incomeBody
             (finance_panel
                (page (fst (renderFinanceTables (Some Sample.ledger) Sample.chosen)))))
        = Some (Some row)
        /\ dataset_transactionId row = Some "t1"
        /\ selected row = true)
  /\ highlight_matches (Some "t1")
       (finance_rows (fst (renderFinanceTables (Some Sample.ledger) Sample.chosen)))
  /\ current_selection
       (submitFinanceDuplicate_settled
          (Responded (Ok_ 200 (Some {| duplicated_transaction := undefined;
                                       duplicated_snapshot := Some Sample.ledger |})))
          Sample.chosen)
     = Some "t1".
Proof.
  destruct (@selection_survives_rerender Sample.host) as [Hstep [Hrender [Hrows Hsettled]]].
  assert (Hchosen : current_selection Sample.chosen = Some "t1")
    by (vm_compute; reflexivity).
  destruct (Hrows Sample.ledger [Sample.invoice] [Sample.fuel] Sample.chosen
              ltac:(vm_compute; discriminate) ltac:(vm_compute; discriminate)
              eq_refl eq_refl) as [Hplaces [_ [_ Hmatch]]].
  destruct (Hplaces incomeBody 0 Sample.invoice eq_refl) as [row [Hrow [Hid Hselected]]].
  split; [exact Hchosen|].
  split; [rewrite <- Hchosen; exact (Hstep FinanceSubmit Sample.chosen eq_refl)|].
  split; [rewrite <- Hchosen; exact (Hrender (Some Sample.ledger) Sample.chosen)|].
  split.
  - exists row. split; [exact Hrow|]. split; [exact Hid|].
    apply (proj2 Hselected). exact Hchosen.
  - split.
    + rewrite <- Hchosen.
      rewrite <- (Hrender (Some Sample.ledger) Sample.chosen). exact Hmatch.
    + rewrite <- Hchosen.
      exact (proj1 (Hsettled 200%N undefined Sample.ledger [Sample.invoice] [Sample.fuel]
                      Sample.chosen ltac:(vm_compute; discriminate)
                      ltac:(vm_compute; discriminate)
                      ltac:(vm_compute; discriminate) eq_refl eq_refl)).
Defined.

Lemma empty_list_renders_placeholder_witness :
  income Sample.expenses_only = Some []
  /\ income_body (finance_panel
                    (page (fst (renderFinanceTables (Some Sample.expenses_only)
                                  Sample.busy))))
     = Some [placeholder_row]
  /\ duplicate_button (cells placeholder_row) = None.
Proof.
  split; [reflexivity|].
  destruct (empty_list_renders_placeholder Sample.expenses_only [] [Sample.fuel]
              Sample.busy ltac:(discriminate) ltac:(discriminate) eq_refl eq_refl)
    as [Hincome [_ [_ [_ Hbutton]]]].
  split; [exact (Hincome eq_refl) | exact Hbutton].
Defined.

Lemma sample_surveyed_reachable : reachable Sample.surveyed.
Proof.
  unfold Sample.surveyed, Sample.busy, Sample.loaded.
  do 3 apply reachable_step. apply reachable_loaded.
  split; [reflexivity|]. split; reflexivity.
Defined.

Lemma survey_list_follows_store_witness :
  stored_captures Sample.surveyed = [Sample.north_yard]
  /\ capture_click 0 Sample.surveyed = showSurveyDetails Sample.north_yard Sample.surveyed
  /\ capture_click 1 Sample.surveyed = Sample.surveyed
  /\ length (survey_days (survey_panel (page Sample.surveyed))) <= 1.
Proof.
  assert (Hstored : stored_captures Sample.surveyed = [Sample.north_yard])
    by (vm_compute; reflexivity).
  assert (Hshown : nth_error (survey_days (survey_panel (page Sample.surveyed))) 0 <> None)
    by (vm_compute; discriminate).
  destruct (survey_list_follows_store Sample.surveyed sample_surveyed_reachable)
    as [Hclick [_ [Hlength _]]].
  rewrite Hstored in Hlength.
  split; [exact Hstored|]. split; [|split; [|exact Hlength]].
  - destruct (Hclick 0) as [[Hnone _] | [capture [Hat [_ Hshow]]]].
    + exfalso. exact (Hshown Hnone).
    + rewrite Hstored in Hat. injection Hat as <-. exact Hshow.
  - destruct (Hclick 1) as [[_ Hsame] | [capture [Hat _]]].
    + exact Hsame.
    + rewrite Hstored in Hat. discriminate Hat.
Defined.

Lemma findFinanceTransaction_first_match_witness :
  snapshot (finance (state Sample.busy)) = Some Sample.ledger
  /\ findFinanceTransaction "t2" Sample.busy = inr (Some Sample.fuel)
  /\ findFinanceTransaction "t9" Sample.busy = inr None
  /\ duplicate_listener "t9" Sample.busy = (Sample.busy, inr tt).
Proof.
  split; [reflexivity|].
  destruct (findFinanceTransaction_first_match "t9" Sample.busy Sample.ledger
              [Sample.invoice] [Sample.fuel] eq_refl eq_refl eq_refl)
    as [_ [Hnone Hclick]].
  assert (Habsent : forall other, In other [Sample.invoice; Sample.fuel] ->
                                  transaction_id other <> "t9").
  { intros other [<- | [<- | []]]; discriminate. }
  split; [reflexivity|].
  split; [exact (proj2 Hnone Habsent) | exact (proj1 (Hclick Habsent))].
Defined.

Lemma safeJsonFetch_ok_resolves_witness :
  safeJsonFetch (Responded (Ok_ 200 None) : @fetched Sample.host json) = inr (JObj [])
  /\ exists code body,
       (NotOk 502 None : @response Sample.host json) = NotOk code body.
Proof.
  destruct (@safeJsonFetch_ok_resolves Sample.host json _ 200%N)
    as [_ [Hempty [_ [_ Hthrow]]]].
  split; [exact Hempty|].
  exact (Hthrow (NotOk 502 None) (Error "{}") eq_refl).
Defined.

(** ** The further properties on the sample page *)

Lemma one_request_at_most_witness :
  sends (CaptureClick 0) = false
  /\ network (step (CaptureClick 0) Sample.surveyed) = network Sample.surveyed.
Proof.
  split; [reflexivity|].
  exact (proj2 (one_request_at_most (CaptureClick 0) Sample.surveyed) eq_refl).
Defined.

Lemma geometry_input_stays_synced_witness :
  geometry_synced Sample.busy
  /\ geometry_synced (step LeafletDeleted Sample.busy)
  /\ geometry_synced (step (GoogleOverlayComplete (RECTANGLE Sample.bounds)) Sample.busy).
Proof.
  assert (Hsynced : geometry_synced Sample.busy) by (vm_compute; reflexivity).
  destruct (geometry_input_stays_synced Sample.busy Hsynced) as [_ Hstep].
  split; [exact Hsynced|].
  split; [exact (Hstep LeafletDeleted)
         |exact (Hstep (GoogleOverlayComplete (RECTANGLE Sample.bounds)))].
Defined.

Lemma toggleMap_shows_one_provider_witness :
  leaflet_map_element (page Sample.loaded) <> None
  /\ google_map_element (page Sample.loaded) <> None
  /\ leaflet_map_element (page (dispatch (toggleMap "google") Sample.loaded))
     = Some (negb (String.eqb "google" "osm"))
  /\ google_map_element (page (dispatch (toggleMap "google") Sample.loaded))
     = Some (negb (String.eqb "google" "google")).
Proof.
  assert (Hl : leaflet_map_element (page Sample.loaded) <> None)
    by (vm_compute; discriminate).
  assert (Hg : google_map_element (page Sample.loaded) <> None)
    by (vm_compute; discriminate).
  destruct (toggleMap_shows_one_provider "google" Sample.loaded) as [_ [Hboth _]].
  destruct (Hboth Hl Hg) as [Hleaflet [Hgoogle _]].
  split; [exact Hl|]. split; [exact Hg|]. split; [exact Hleaflet | exact Hgoogle].
Defined.

Lemma settled_request_writes_own_output_witness :
  upload_output <> route_output
  /\ get_output upload_output
       (outputs (page (print_settled route_output "Route planning"
                         (Rejected (Error "Failed to fetch")) Sample.busy)))
     = get_output upload_output (outputs (page Sample.busy))
  /\ get_output route_output
       (outputs (page (print_settled route_output "Route planning"
                         (Rejected (Error "Failed to fetch")) Sample.busy)))
     = match safeJsonFetch (Rejected (Error "Failed to fetch") : fetched json) with
       | inr payload => stringify_pretty payload
       | inl error => "Route planning" ++ " failed: " ++ message error
       end.
Proof.
  assert (Hother : upload_output <> route_output) by discriminate.
  destruct (settled_request_writes_own_output route_output "Route planning"
              (Rejected (Error "Failed to fetch")) Sample.busy)
    as [Hown [Hothers _]].
  split; [exact Hother|]. split; [exact (Hothers upload_output Hother) | exact Hown].
Defined.

Lemma annotation_success_refreshes_witness :
  safeJsonFetch (Responded (Ok_ 200 (Some (JObj []))) : fetched json) = inr (JObj [])
  /\ network (submitAnnotation_settled (Responded (Ok_ 200 (Some (JObj [])))) Sample.busy)
     = (network Sample.busy
        ++ [{| url := "/survey-days"; method := "GET"; body := None |}])%list.
Proof.
  split; [reflexivity|].
  destruct (annotation_success_refreshes (Responded (Ok_ 200 (Some (JObj []))))
              Sample.busy) as [_ [_ [Hsuccess _]]].
  exact (proj1 (Hsuccess (JObj []) eq_refl)).
Defined.

Lemma survey_days_replace_wholesale_witness :
  forallb (fun capture => parse_has_button (button_markup capture)) [Sample.north_yard]
  = true
  /\ length (survey_days
               (survey_panel
                  (page (loadSurveyDays_settled
                           (Responded (Ok_ 200 (Some {| captures :=
                                                          Some [Sample.north_yard] |})))
                           Sample.busy))))
     = length [Sample.north_yard]
  /\ base_capture_select
       (survey_panel
          (page (loadSurveyDays_settled
                   (Responded (Ok_ 200 (Some {| captures := Some [Sample.north_yard] |})))
                   Sample.busy)))
     = map capture_option [Sample.north_yard].
Proof.
  assert (Hfound : forallb (fun capture => parse_has_button (button_markup capture))
                     [Sample.north_yard] = true) by (vm_compute; reflexivity).
  destruct (survey_days_replace_wholesale 200%N [Sample.north_yard] Sample.busy)
    as [_ [_ [_ [_ [Hcomplete _]]]]].
  destruct (Hcomplete Hfound) as [_ [Hlength [Hbase _]]].
  split; [exact Hfound|]. split; [exact Hlength | exact Hbase].
Defined.

Lemma showSurveyDetails_fills_asset_table_witness :
  nth_error (assets Sample.north_yard) 0 = Some Sample.pump
  /\ exists notes,
       nth_error (asset_table
                    (survey_panel (page (showSurveyDetails Sample.north_yard
                                           Sample.surveyed)))) 0
       = Some (newline ++ "      <td>" ++ asset_id Sample.pump ++ "</td>"
                 ++ newline ++ "      <td>" ++ classification Sample.pump ++ "</td>"
                 ++ newline ++ "      <td>" ++ toFixed2 (volume_cubic_m Sample.pump)
                 ++ "</td>"
                 ++ newline ++ "      <td>" ++ notes ++ "</td>"
                 ++ newline ++ "    ")
       /\ notes <> "".
Proof.
  split; [reflexivity|].
  destruct (showSurveyDetails_fills_asset_table Sample.north_yard Sample.surveyed)
    as [_ [Hrows _]].
  destruct (Hrows 0 Sample.pump eq_refl) as [notes [Hrow [Hnotes _]]].
  exists notes. split; [exact Hrow | exact Hnotes].
Defined.


Lemma metadata_summary_dash_iff_empty_witness :
  renderMetadataSummary (metadata Sample.fuel) = "—"
  /\ exists tail,
       renderMetadataSummary (Some [("site", JStr "North yard")])
       = "site" ++ ": " ++ json_to_string (JStr "North yard") ++ tail.
Proof.
  split.
  - exact (proj2 (proj1 (metadata_summary_dash_iff_empty (metadata Sample.fuel)))
             (or_introl eq_refl)).
  - exact (proj2 (proj2 (metadata_summary_dash_iff_empty
                           (Some [("site", JStr "North yard")])))
             "site" (JStr "North yard") [] eq_refl).
Defined.

Lemma rendered_button_selects_its_transaction_witness :
  nth_error (entries_of expenseBody [Sample.invoice] [Sample.fuel]) 0 = Some Sample.fuel
  /\ duplicate_button (map fresh_cell (parse_row (row_markup Sample.fuel)))
     = Some ("t2", 0)
  /\ (exists row,
        option_map (fun rows => nth_error rows 0)
          (rows_of expenseBody
             (finance_panel (page (fst (renderFinanceTables (Some Sample.ledger)
                                          Sample.loaded)))))
        = Some (Some row)
        /\ duplicate_button (cells row) = Some ("t2", 1))
  /\ exists found,
       transaction_id found = transaction_id Sample.fuel
       /\ duplicate_click expenseBody 0
            (fst (renderFinanceTables (Some Sample.ledger) Sample.loaded))
          = prepareFinanceForm found
              (fst (renderFinanceTables (Some Sample.ledger) Sample.loaded)).
Proof.
  assert (Hparsed : duplicate_button (map fresh_cell (parse_row (row_markup Sample.fuel)))
                    = Some ("t2", 0)) by (vm_compute; reflexivity).
  destruct (rendered_button_selects_its_transaction Sample.ledger
              [Sample.invoice] [Sample.fuel] expenseBody 0 Sample.fuel "t2" Sample.loaded
              ltac:(vm_compute; discriminate) ltac:(vm_compute; discriminate)
              eq_refl eq_refl eq_refl Hparsed)
    as [_ [[row [Hrow [_ [_ Hbutton]]]] [_ [Hchoose _]]]].
  destruct (Hchoose eq_refl) as [found [_ [Hid Hclick]]].
  split; [reflexivity|]. split; [exact Hparsed|]. split.
  - exists row. split; [exact Hrow | exact Hbutton].
  - exists found. split; [exact Hid | exact Hclick].
Defined.

Lemma sample_form_loaded :
  finance_duplicate_form (finance_panel (page Sample.loaded))
  = Some {| controls := Sample.blank_form; defaults := Sample.blank_form |}.
Proof. vm_compute. reflexivity. Defined.

Lemma prepareFinanceForm_selects_and_fills_witness :
  current_selection (prepareFinanceForm Sample.invoice Sample.loaded)
  = Some (transaction_id Sample.invoice)
  /\ finance_duplicate_form
       (finance_panel (page (prepareFinanceForm Sample.invoice Sample.loaded)))
     = Some {| controls := filled_from Sample.invoice;
               defaults := defaults {| controls := Sample.blank_form;
                                       defaults := Sample.blank_form |} |}.
Proof.
  destruct (prepareFinanceForm_selects_and_fills Sample.invoice Sample.loaded)
    as [Hpresent _].
  destruct (Hpresent _ sample_form_loaded) as [Hsel [Hform _]].
  split; [exact Hsel | exact Hform].
Defined.

Lemma sample_form_chosen :
  finance_duplicate_form (finance_panel (page Sample.chosen))
  = Some {| controls := filled_from Sample.invoice; defaults := Sample.blank_form |}.
Proof. vm_compute. reflexivity. Defined.

Lemma clearFinanceSelection_resets_witness :
  current_selection Sample.chosen = Some "t1"
  /\ current_selection (clearFinanceSelection Sample.chosen) = None
  /\ finance_duplicate_form (finance_panel (page (clearFinanceSelection Sample.chosen)))
     = Some {| controls := Sample.blank_form; defaults := Sample.blank_form |}
  /\ Forall (fun row => selected row = false)
       (finance_rows (clearFinanceSelection Sample.chosen))
  /\ network (submitFinanceDuplicate (clearFinanceSelection Sample.chosen))
     = network Sample.chosen.
Proof.
  destruct (clearFinanceSelection_resets Sample.chosen) as [Hpresent _].
  destruct (Hpresent _ sample_form_chosen) as [Hsel [Hform [Hrows [_ [_ Hnet]]]]].
  split; [vm_compute; reflexivity|]. split; [exact Hsel|]. split; [exact Hform|].
  split; [exact Hrows | exact Hnet].
Defined.

Lemma second_choice_replaces_first_witness :
  transaction_id Sample.fuel <> ""
  /\ finance_duplicate_form
       (finance_panel
          (page (prepareFinanceForm Sample.fuel
                   (prepareFinanceForm Sample.invoice Sample.loaded))))
     = finance_duplicate_form
         (finance_panel (page (prepareFinanceForm Sample.fuel Sample.loaded)))
  /\ current_selection
       (prepareFinanceForm Sample.fuel (prepareFinanceForm Sample.invoice Sample.loaded))
     = Some (transaction_id Sample.fuel).
Proof.
  assert (Hid : transaction_id Sample.fuel <> "") by discriminate.
  destruct (second_choice_replaces_first Sample.invoice Sample.fuel _ Sample.loaded
              sample_form_loaded Hid) as [Hform [Hsel _]].
  split; [exact Hid|]. split; [exact Hform | exact Hsel].
Defined.

Lemma sample_loaded_highlighted : rows_highlighted Sample.loaded.
Proof. intros row Hin. vm_compute in Hin. destruct Hin. Defined.

Lemma highlighting_is_invariant_witness :
  rows_highlighted Sample.loaded
  /\ rows_highlighted
       (step (FinanceTransactionsSettled (Responded (Ok_ 200 (Some Sample.ledger))))
          Sample.loaded)
  /\ rows_highlighted (step (DuplicateClick incomeBody 0) Sample.loaded).
Proof.
  destruct (highlighting_is_invariant Sample.loaded sample_loaded_highlighted)
    as [_ Hstep].
  split; [exact sample_loaded_highlighted|].
  split; [exact (Hstep (FinanceTransactionsSettled
                          (Responded (Ok_ 200 (Some Sample.ledger)))))
         |exact (Hstep (DuplicateClick incomeBody 0))].
Defined.

Lemma finance_failures_leave_tables_witness :
  safeJsonFetch (Responded (NotOk 503 (Some (JObj [("detail", JStr "database offline")])))
                 : fetched FinanceSnapshot)
  = inl (Error "database offline")
  /\ loadFinanceTransactions_settled
       (Responded (NotOk 503 (Some (JObj [("detail", JStr "database offline")]))))
       Sample.busy
     = write_finance_output
         ("Failed to load finance data: " ++ message (Error "database offline"))
         Sample.busy.
Proof.
  split; [reflexivity|].
  destruct (finance_failures_leave_tables (Error "database offline") Sample.busy)
    as [Hload _].
  exact (Hload (Responded (NotOk 503 (Some (JObj [("detail", JStr "database offline")]))))
           eq_refl).
Defined.

Lemma finance_reply_without_lists_witness :
  income_body (finance_panel (page Sample.loaded)) = Some []
  /\ expense_body (finance_panel (page Sample.loaded)) = Some []
  /\ snapshot (finance (state (loadFinanceTransactions_settled
                                 (Responded (Ok_ 200 None)) Sample.loaded)))
     = Some {| income := None; expenses := None |}
  /\ duplicate_click incomeBody 0
       (loadFinanceTransactions_settled (Responded (Ok_ 200 None)) Sample.loaded)
     = loadFinanceTransactions_settled (Responded (Ok_ 200 None)) Sample.loaded.
Proof.
  assert (Hi : income_body (finance_panel (page Sample.loaded)) = Some [])
    by (vm_compute; reflexivity).
  assert (He : expense_body (finance_panel (page Sample.loaded)) = Some [])
    by (vm_compute; reflexivity).
  destruct (finance_reply_without_lists 200%N [] [] Sample.loaded Hi He)
    as [Hsnap [_ [_ [_ [_ [_ Hclick]]]]]].
  split; [exact Hi|]. split; [exact He|].
  split; [exact Hsnap | exact (Hclick incomeBody 0)].
Defined.

Lemma submitRoute_keeps_other_fields_witness :
  "altitude" <> "area_geojson"
  /\ truthy (Some (drawnGeoJson (state Sample.loaded))) = false
  /\ exists data,
       network (submitRoute Sample.route_entries Sample.loaded)
       = (network Sample.loaded
          ++ [{| url := "/plan-route"; method := "POST"; body := Some data |}])%list
       /\ formData_get "altitude" data = formData_get "altitude" Sample.route_entries
       /\ data = Sample.route_entries.
Proof.
  assert (Hkey : "altitude" <> "area_geojson") by discriminate.
  assert (Hnone : truthy (Some (drawnGeoJson (state Sample.loaded))) = false)
    by (vm_compute; reflexivity).
  destruct (submitRoute_keeps_other_fields Sample.route_entries Sample.loaded)
    as [data [Hnet [Hother [Hsame _]]]].
  split; [exact Hkey|]. split; [exact Hnone|].
  exists data. split; [exact Hnet|]. split; [exact (Hother "altitude" Hkey)|].
  exact (Hsame Hnone).
Defined.

Lemma page_load_initialises_adapters_witness :
  state Sample.fresh = initial_state
  /\ network (DOMContentLoaded Sample.fresh)
     = [{| url := "/survey-days"; method := "GET"; body := None |};
        {| url := "/finance/transactions"; method := "GET"; body := None |}]
  /\ draw_listeners (leaflet (state (DOMContentLoaded Sample.fresh))) = true
  /\ state Sample.unplugged = initial_state
  /\ DOMContentLoaded Sample.unplugged = Sample.unplugged.
Proof.
  destruct (page_load_initialises_adapters Sample.fresh eq_refl)
    as [_ [Hnet [_ [Hlisten _]]]].
  destruct (page_load_initialises_adapters Sample.unplugged eq_refl)
    as [_ [_ [_ [_ [_ [_ [Hmissing _]]]]]]].
  split; [reflexivity|]. split; [exact Hnet|]. split.
  - apply (proj2 Hlisten). split; [discriminate|]. split; reflexivity.
  - split; [reflexivity|]. apply Hmissing; [discriminate | reflexivity].
Defined.

Lemma finance_snapshot_replaces_wholesale_witness :
  income Sample.ledger = Some [Sample.invoice]
  /\ snapshot (finance (state (loadFinanceTransactions_settled
                                 (Responded (Ok_ 200 (Some Sample.ledger)))
                                 Sample.loaded)))
     = Some Sample.ledger
  /\ rows_of expenseBody
       (finance_panel (page (loadFinanceTransactions_settled
                               (Responded (Ok_ 200 (Some Sample.ledger))) Sample.loaded)))
     = Some [{| dataset_transactionId := Some "t2";
                cells := map add_listener
                           (map fresh_cell (parse_row (row_markup Sample.fuel)));
                selected := false |}].
Proof.
  destruct (finance_snapshot_replaces_wholesale 200%N Sample.ledger
              [Sample.invoice] [Sample.fuel] Sample.loaded
              ltac:(vm_compute; discriminate) ltac:(vm_compute; discriminate)
              eq_refl eq_refl) as [[Hsnap [Hrows _]] _].
  split; [reflexivity|]. split; [exact Hsnap | exact (Hrows expenseBody)].
Defined.
